(** * Raw-terminal input engine of the Brahma client (src/lib/client.js)

    A shallow embedding of [getMultiLineInput] (the line editor driven by
    raw key bytes) and of the key handler of the file-mode menu in
    [startFileModeInteractive], followed by the properties of the
    specification that concern them.

    JavaScript strings are sequences of UTF-16 code units; they are modelled
    as lists of integers.  [chunk.toString()] is the boundary of the model:
    [onData] below receives the string [input] that the handler iterates on
    (for bytes below 128 a code unit is the byte itself). *)

From Stdlib Require Import String Ascii.
From Stdlib Require Import List ZArith Lia Bool.
From Stdlib Require Import Numbers.DecimalString.
From Stdlib Require Numbers.HexadecimalString.
Import ListNotations.
Open Scope Z_scope.

(* ------------------------------------------------------------------ *)
(** ** JavaScript string primitives used by the client                *)
(* ------------------------------------------------------------------ *)

Module JS.

Definition jsstring := list Z.

(** A string literal of the source, as code units. *)
Definition js (s : string) : jsstring :=
  map (fun a => Z.of_nat (nat_of_ascii a)) (list_ascii_of_string s).

Definition LF : jsstring := [10].
Definition CR : jsstring := [13].
Definition ESC : jsstring := [27].

(** [a === b] on strings. *)
Fixpoint jseq (a b : jsstring) : bool :=
  match a, b with
  | [], [] => true
  | x :: a', y :: b' => (x =? y) && jseq a' b'
  | _, _ => false
  end.

(** [s.charCodeAt(i)]; [None] stands for NaN (index out of range). *)
Definition charCodeAt (s : jsstring) (i : nat) : option Z := nth_error s i.

(** [code === k] for a code that may be NaN or null: both differ from
    every number. *)
Definition codeIs (code : option Z) (k : Z) : bool :=
  match code with
  | Some c => c =? k
  | None => false
  end.

(** Relative index resolution of [String.prototype.slice]. *)
Definition sliceIndex (len k : Z) : Z :=
  if k <? 0 then Z.max (len + k) 0 else Z.min k len.

(** [s.slice(start, end)]; [None] as end is an omitted argument. *)
Definition slice (s : jsstring) (start : Z) (stop : option Z) : jsstring :=
  let len := Z.of_nat (length s) in
  let from := sliceIndex len start in
  let to := match stop with
            | Some e => sliceIndex len e
            | None => len
            end in
  firstn (Z.to_nat (Z.max (to - from) 0)) (skipn (Z.to_nat from) s).

(** White space and line terminators, the code units removed by [trim]. *)
Definition isWhiteSpace (c : Z) : bool :=
  (c =? 9) || (c =? 10) || (c =? 11) || (c =? 12) || (c =? 13) ||
  (c =? 32) || (c =? 160) || (c =? 5760) ||
  ((8192 <=? c) && (c <=? 8202)) ||
  (c =? 8232) || (c =? 8233) || (c =? 8239) || (c =? 8287) ||
  (c =? 12288) || (c =? 65279).

Fixpoint trimStart (s : jsstring) : jsstring :=
  match s with
  | [] => []
  | c :: t => if isWhiteSpace c then trimStart t else s
  end.

Definition trimEnd (s : jsstring) : jsstring := rev (trimStart (rev s)).

(** [s.trim()]. *)
Definition trim (s : jsstring) : jsstring := trimEnd (trimStart s).

(** Only white space. *)
Definition blank (s : jsstring) : Prop :=
  Forall (fun c => isWhiteSpace c = true) s.

(** [s] does not start with white space. *)
Definition cleanHead (s : jsstring) : Prop :=
  match s with
  | [] => True
  | c :: _ => isWhiteSpace c = false
  end.

(** [a <= b] on strings: lexicographic order on code units. *)
Fixpoint strLe (a b : jsstring) : bool :=
  match a, b with
  | [], _ => true
  | _ :: _, [] => false
  | x :: a', y :: b' =>
      if x <? y then true else if x =? y then strLe a' b' else false
  end.

(** [String(n)] for an integer [n]. *)
Definition numberToString (n : Z) : jsstring :=
  js (NilZero.string_of_int (Z.to_int n)).

(** [lines.join(sep)]. *)
Fixpoint join (sep : jsstring) (lines : list jsstring) : jsstring :=
  match lines with
  | [] => []
  | [l] => l
  | l :: rest => l ++ sep ++ join sep rest
  end.

(** [s.split("\n")]. *)
Fixpoint splitLines (s : jsstring) : list jsstring :=
  match s with
  | [] => [[]]
  | c :: t =>
      if c =? 10 then [] :: splitLines t
      else match splitLines t with
           | l :: ls => (c :: l) :: ls
           | [] => [[c]]
           end
  end.

End JS.

Import JS.

(* ------------------------------------------------------------------ *)
(** ** The line editor: [getMultiLineInput]                            *)
(* ------------------------------------------------------------------ *)

Module LineEditor.

(** What the handler sends to its collaborators, in order. *)
Inductive effect : Type :=
| StdoutWrite (s : jsstring)      (* process.stdout.write(s) *)
| ShowGoodbye                     (* this.ui.showGoodbye() *)
| ShowInfo (msg : jsstring)       (* this.ui.showInfo(msg) *)
| ClientCleanup.                  (* this.cleanup() *)

(** The variables captured by the [onData] closure, with the part of
    [process.stdin] and [process.stdout] it acts on. *)
Record state : Type := mkState {
  inputBuffer : jsstring;
  currentLine : jsstring;
  cursorPos : Z;
  originalRawMode : bool;  (* const originalRawMode = process.stdin.isRaw *)
  rawMode : bool;          (* process.stdin.isRaw *)
  listening : bool;        (* onData is registered on "data" *)
  output : list effect
}.

Definition withBuffer (b : jsstring) (st : state) : state :=
  mkState b (currentLine st) (cursorPos st)
          (originalRawMode st) (rawMode st) (listening st) (output st).

Definition withLine (l : jsstring) (c : Z) (st : state) : state :=
  mkState (inputBuffer st) l c
          (originalRawMode st) (rawMode st) (listening st) (output st).

Definition emit (e : effect) (st : state) : state :=
  mkState (inputBuffer st) (currentLine st) (cursorPos st)
          (originalRawMode st) (rawMode st) (listening st)
          (output st ++ [e]).

Definition write (s : jsstring) : state -> state := emit (StdoutWrite s).

(** config.SELF_DESTRUCT *)
Definition SELF_DESTRUCT : bool := true.

(** this.ui.getUserPrompt(): bright, cyan, "You:", reset, space. *)
Definition getUserPrompt : jsstring :=
  (ESC ++ js "[1m") ++ (ESC ++ js "[36m") ++ js "You:" ++
  (ESC ++ js "[0m") ++ js " ".

(** The local [cleanup]: restore the raw mode and unregister [onData]. *)
Definition cleanup (st : state) : state :=
  mkState (inputBuffer st) (currentLine st) (cursorPos st)
          (originalRawMode st) (originalRawMode st) false (output st).

(** How one turn of the [for] loop ends. *)
Inductive turn : Type :=
| Next (i : nat) (st : state)            (* falls through to [i++] *)
| Return (text : jsstring) (st : state)  (* resolve(text); return *)
| Exit (code : Z) (st : state).          (* process.exit(code) *)

(** Ctrl+C. *)
Definition ctrlC (st : state) : state :=
  let st := cleanup st in
  let st := emit ShowGoodbye st in
  let st := if SELF_DESTRUCT
            then emit (ShowInfo (js "Self-destruct mode: Removing all traces...")) st
            else st in
  emit ClientCleanup st.

(** The two ways of appending the current line to the buffer. *)
Definition addLine (buffer line : jsstring) : jsstring :=
  if jseq buffer [] then line else buffer ++ LF ++ line.

(** What Enter does once the optional line feed has been skipped: the
    promise is resolved with [text], or the empty input is absorbed. *)
Inductive submitted : Type :=
| Committed (text : jsstring) (st : state)
| Absorbed (st : state).

Definition enter (st : state) : submitted :=
  let st :=
    if negb (jseq (trim (currentLine st)) []) || negb (jseq (inputBuffer st) [])
    then withBuffer (addLine (inputBuffer st) (currentLine st)) st
    else st in
  if negb (jseq (trim (inputBuffer st)) [])
  then Committed (trim (inputBuffer st)) (write LF (cleanup st))
  else Absorbed (write (LF ++ getUserPrompt) (withLine [] 0 st)).

(** Line feed. *)
Definition lineFeed (st : state) : state :=
  let st := withBuffer (addLine (inputBuffer st) (currentLine st)) st in
  write (LF ++ js "  > ") (withLine [] 0 st).

(** The cursor repositioning shared by backspace and insertion. *)
Definition moveBack (st : state) : state :=
  let n := Z.of_nat (length (currentLine st)) - cursorPos st in
  if 0 <? n then write (ESC ++ js "[" ++ numberToString n ++ js "D") st
  else st.

(** Backspace. *)
Definition backspace (st : state) : state :=
  if (0 <? Z.of_nat (length (currentLine st))) && (0 <? cursorPos st)
  then
    let line := slice (currentLine st) 0 (Some (cursorPos st - 1)) ++
                slice (currentLine st) (cursorPos st) None in
    let st := withLine line (cursorPos st - 1) st in
    let st := write ([8] ++ ESC ++ js "[K" ++
                     slice (currentLine st) (cursorPos st) None) st in
    moveBack st
  else st.

(** A printable character [char], of code 32 to 126. *)
Definition printable (char : jsstring) (st : state) : state :=
  let line := slice (currentLine st) 0 (Some (cursorPos st)) ++
              char ++
              slice (currentLine st) (cursorPos st) None in
  let st := withLine line (cursorPos st + 1) st in
  let st := write (char ++ slice (currentLine st) (cursorPos st) None) st in
  moveBack st.

(** The [switch] on the third code of an ESC [ sequence. *)
Definition arrow (key : option Z) (st : state) : state :=
  if codeIs key 68 then
    if 0 <? cursorPos st
    then write (ESC ++ js "[D") (withLine (currentLine st) (cursorPos st - 1) st)
    else st
  else if codeIs key 67 then
    if cursorPos st <? Z.of_nat (length (currentLine st))
    then write (ESC ++ js "[C") (withLine (currentLine st) (cursorPos st + 1) st)
    else st
  else st.

(** [input[i]]: the one-unit string at [i], empty when out of range
    (where no branch of the loop uses it). *)
Definition charAt (input : jsstring) (i : nat) : jsstring :=
  match nth_error input i with
  | Some c => [c]
  | None => []
  end.

Definition isPrintable (code : option Z) : bool :=
  match code with
  | Some c => (32 <=? c) && (c <=? 126)
  | None => false
  end.

(** The body of the [for] loop at index [i]. *)
Definition body (input : jsstring) (i : nat) (st : state) : turn :=
  let char := charAt input i in
  let charCode := charCodeAt input i in
  if codeIs charCode 3 then Exit 0 (ctrlC st)
  else if codeIs charCode 13 then
    let nextChar :=
      if (i + 1 <? length input)%nat then charCodeAt input (i + 1) else None in
    let i := if codeIs nextChar 10 then (i + 1)%nat else i in
    match enter st with
    | Committed text st' => Return text st'
    | Absorbed st' => Next i st'
    end
  else if codeIs charCode 10 then Next i (lineFeed st)
  else if codeIs charCode 8 || codeIs charCode 127 then Next i (backspace st)
  else if isPrintable charCode then Next i (printable char st)
  else if codeIs charCode 27 then
    if (i + 2 <? length input)%nat && codeIs (charCodeAt input (i + 1)) 91
    then Next (i + 2) (arrow (charCodeAt input (i + 2)) st)
    else Next i st
  else Next i st.

(** How a call of [onData], or a whole session, ends. *)
Inductive outcome : Type :=
| Pending (st : state)                     (* still waiting for data *)
| Resolved (text : jsstring) (st : state)  (* the promise is resolved *)
| Exited (code : Z) (st : state).          (* the process has exited *)

(** [for (let i = ...; i < input.length; i++)], started at [i].  Every turn
    advances [i]; [fuel] bounds the number of turns and [None] means that it
    was too small. *)
Fixpoint loop (fuel : nat) (input : jsstring) (i : nat) (st : state)
  : option outcome :=
  match fuel with
  | O => None
  | S fuel' =>
      if (i <? length input)%nat then
        match body input i st with
        | Next i' st' => loop fuel' input (S i') st'
        | Return text st' => Some (Resolved text st')
        | Exit code st' => Some (Exited code st')
        end
      else Some (Pending st)
  end.

(** The "data" handler on a chunk whose string is [input]. *)
Definition onData (input : jsstring) (st : state) : option outcome :=
  loop (S (length input)) input 0 st.

(** The state when the promise is created: raw mode switched on, the
    prompt written, [onData] registered.  [isRaw] is the terminal's mode
    at entry. *)
Definition initial (isRaw : bool) : state :=
  mkState [] [] 0 isRaw true true [StdoutWrite getUserPrompt].

(** The chunks delivered to the handler, until it unregisters itself. *)
Fixpoint feed (chunks : list jsstring) (st : state) : option outcome :=
  match chunks with
  | [] => Some (Pending st)
  | input :: rest =>
      match onData input st with
      | Some (Pending st') => feed rest st'
      | other => other
      end
  end.

Definition getMultiLineInput (isRaw : bool) (chunks : list jsstring)
  : option outcome :=
  feed chunks (initial isRaw).

(** The loop by recursion on what is left of the chunk: the look-ahead of
    Enter and of ESC becomes a pattern on the rest. *)
Fixpoint decode (rest : jsstring) (st : state) : outcome :=
  match rest with
  | [] => Pending st
  | c :: tl =>
      if c =? 3 then Exited 0 (ctrlC st)
      else if c =? 13 then
        match enter st with
        | Committed text st' => Resolved text st'
        | Absorbed st' =>
            match tl with
            | d :: tl' => if d =? 10 then decode tl' st' else decode tl st'
            | [] => Pending st'
            end
        end
      else if c =? 10 then decode tl (lineFeed st)
      else if (c =? 8) || (c =? 127) then decode tl (backspace st)
      else if (32 <=? c) && (c <=? 126) then decode tl (printable [c] st)
      else if c =? 27 then
        match tl with
        | d :: key :: tl' =>
            if d =? 91 then decode tl' (arrow (Some key) st) else decode tl st
        | _ => decode tl st
        end
      else decode tl st
  end.

(** The branches of the loop under the names the specification gives to
    the decoded keys. *)
Inductive InputEvent : Type :=
| InsertChar (c : Z)
| NewLine
| Submit
| Backspace
| CursorLeft
| CursorRight
| CursorUp
| CursorDown
| Cancel.

Definition apply (e : InputEvent) (st : state) : outcome :=
  match e with
  | InsertChar c => Pending (printable [c] st)
  | NewLine => Pending (lineFeed st)
  | Submit =>
      match enter st with
      | Committed text st' => Resolved text st'
      | Absorbed st' => Pending st'
      end
  | Backspace => Pending (backspace st)
  | CursorLeft => Pending (arrow (Some 68) st)
  | CursorRight => Pending (arrow (Some 67) st)
  | CursorUp => Pending (arrow (Some 65) st)
  | CursorDown => Pending (arrow (Some 66) st)
  | Cancel => Exited 0 (ctrlC st)
  end.

Fixpoint applyAll (events : list InputEvent) (st : state) : outcome :=
  match events with
  | [] => Pending st
  | e :: rest =>
      match apply e st with
      | Pending st' => applyAll rest st'
      | other => other
      end
  end.

(** The keys the loop recognises in a chunk, left to right. *)
Fixpoint events (rest : jsstring) : list InputEvent :=
  match rest with
  | [] => []
  | c :: tl =>
      if c =? 3 then [Cancel]
      else if c =? 13 then
        match tl with
        | d :: tl' => Submit :: (if d =? 10 then events tl' else events tl)
        | [] => [Submit]
        end
      else if c =? 10 then NewLine :: events tl
      else if (c =? 8) || (c =? 127) then Backspace :: events tl
      else if (32 <=? c) && (c <=? 126) then InsertChar c :: events tl
      else if c =? 27 then
        match tl with
        | d :: key :: tl' =>
            if d =? 91 then
              if key =? 68 then CursorLeft :: events tl'
              else if key =? 67 then CursorRight :: events tl'
              else if key =? 65 then CursorUp :: events tl'
              else if key =? 66 then CursorDown :: events tl'
              else events tl'
            else events tl
        | _ => events tl
        end
      else events tl
  end.

(** The index the loop continues from after an absorbed Enter at [i],
    [tl] being what follows the CR. *)
Definition afterEnter (i : nat) (tl : jsstring) : nat :=
  match tl with
  | d :: _ => if d =? 10 then (i + 1)%nat else i
  | [] => i
  end.

(** The codes the loop inserts. *)
Definition isPrintableCode (c : Z) : Prop := 32 <= c <= 126.

(** The state an outcome carries. *)
Definition stateOf (o : outcome) : state :=
  match o with
  | Pending st => st
  | Resolved _ st => st
  | Exited _ st => st
  end.

(** The loop is at index [i] with state [st], having started the chunk
    [input] in state [st0]. *)
Inductive reaches (input : jsstring) (st0 : state) : nat -> state -> Prop :=
| reaches_start : reaches input st0 0%nat st0
| reaches_turn i st i' st' :
    reaches input st0 i st ->
    (i < length input)%nat ->
    body input i st = Next i' st' ->
    reaches input st0 (S i') st'.

(** The lines the buffer holds: the empty buffer holds none. *)
Definition committedLines (st : state) : list jsstring :=
  if jseq (inputBuffer st) [] then [] else splitLines (inputBuffer st).

(** A line with a character that [trim] keeps. *)
Definition nonBlank (s : jsstring) : Prop :=
  Exists (fun c => isWhiteSpace c = false) s.

(** The cursor lies inside the current line. *)
Definition cursorInLine (st : state) : Prop :=
  0 <= cursorPos st <= Z.of_nat (length (currentLine st)).

(** The editor after "Hi" has been typed, and after two spaces have. *)
Definition typedHi : state :=
  stateOf (decode (js "Hi") (initial false)).

Definition typedSpaces : state :=
  stateOf (decode (js "  ") (initial false)).

End LineEditor.

(* ------------------------------------------------------------------ *)
(** ** The file-mode menu: key handler of [startFileModeInteractive]   *)
(* ------------------------------------------------------------------ *)

Module Menu.

Record menuOption : Type := mkOption {
  key : jsstring;
  label : jsstring;
  description : jsstring
}.

(** const options = [...] *)
Definition options : list menuOption :=
  [ mkOption (js "1") (js "Process Input") (js "Send input.txt content to AI");
    mkOption (js "2") (js "Exit Brahma") (js "Close the application") ].

(** [selectedIndex], the part of [process.stdin] the handler acts on, and
    the value of [selectedIndex] at each call of [displayMenu]. *)
Record state : Type := mkState {
  selectedIndex : Z;
  rawMode : bool;
  flowing : bool;      (* resume() / pause() *)
  listening : bool;    (* onKeyPress is registered on "data" *)
  displayed : list Z
}.

(** setRawMode(false); pause(); removeListener("data", onKeyPress) *)
Definition release (st : state) : state :=
  mkState (selectedIndex st) false false false (displayed st).

(** selectedIndex = v; displayMenu() *)
Definition select (v : Z) (st : state) : state :=
  mkState v (rawMode st) (flowing st) (listening st) (displayed st ++ [v]).

(** [options[i]]: undefined outside the array. *)
Definition optionAt (options : list menuOption) (i : Z) : option menuOption :=
  if i <? 0 then None else nth_error options (Z.to_nat i).

Inductive result : Type :=
| Waiting (st : state)                     (* the promise is pending *)
| Chosen (choice : jsstring) (st : state)  (* resolve(choice) *)
| Throws (st : state).                     (* TypeError: options[i] undefined *)

Definition keyUp : jsstring := ESC ++ js "[A".
Definition keyDown : jsstring := ESC ++ js "[B".

(** The "data" handler; [key] is the whole chunk as a string. *)
Definition onKeyPress (options : list menuOption) (key : jsstring) (st : state)
  : result :=
  let n := Z.of_nat (length options) in
  if jseq key [3] then Chosen (js "exit") (release st)
  else if jseq key keyUp then
    Waiting (select (if 0 <? selectedIndex st
                     then selectedIndex st - 1 else n - 1) st)
  else if jseq key keyDown then
    Waiting (select (if selectedIndex st <? n - 1
                     then selectedIndex st + 1 else 0) st)
  else if jseq key CR || jseq key LF then
    match optionAt options (selectedIndex st) with
    | Some o => Chosen (Menu.key o) (release st)
    | None => Throws (release st)
    end
  else if strLe (js "1") key && strLe key (numberToString n) then
    Chosen key (release st)
  else Waiting st.

(** The state when the promise of one menu appearance is created:
    [displayMenu()], raw mode on, stdin resumed, handler registered. *)
Definition appear (selected : Z) : state :=
  mkState selected true true true [selected].

(** The keys delivered to the handler until it resolves. *)
Fixpoint pressAll (options : list menuOption) (keys : list jsstring)
  (st : state) : result :=
  match keys with
  | [] => Waiting st
  | k :: rest =>
      match onKeyPress options k st with
      | Waiting st' => pressAll options rest st'
      | other => other
      end
  end.

End Menu.

(* ------------------------------------------------------------------ *)
(** ** Vocabulary for further properties of the line editor            *)
(* ------------------------------------------------------------------ *)

Module EditorProps.

Import LineEditor.

(** The chunk ends where the loop would look ahead: on a CR (a following
    LF is skipped), on an ESC or on ESC '[' (the codes that follow are part
    of the sequence). *)
Definition endsOpen (a : jsstring) : bool :=
  match rev a with
  | [] => false
  | x :: before =>
      (x =? 13) || (x =? 27) ||
      ((x =? 91) && match before with
                    | y :: _ => y =? 27
                    | [] => false
                    end)
  end.

Definition endsOpenAt (a : jsstring) : Prop :=
  exists pre, a = pre ++ [13] \/ a = pre ++ [27] \/ a = pre ++ [27; 91].

(** Continuing with [b] where the decoding of [a] stopped. *)
Definition thenDecode (b : jsstring) (o : outcome) : outcome :=
  match o with
  | Pending st => decode b st
  | ended => ended
  end.

(** The terminal as the handler must leave it: raw and listening while
    the read is pending, restored and unregistered once it has ended. *)
Definition terminalSettled (isRaw : bool) (o : outcome) : Prop :=
  match o with
  | Pending st =>
      rawMode st = true /\ listening st = true /\ originalRawMode st = isRaw
  | Resolved _ st => rawMode st = isRaw /\ listening st = false
  | Exited _ st => rawMode st = isRaw /\ listening st = false
  end.

(** Raw, listening, and remembering the mode at entry. *)
Definition live (isRaw : bool) (st : state) : Prop :=
  rawMode st = true /\ listening st = true /\ originalRawMode st = isRaw.

(** The keys the loop can produce: it inserts printable codes only. *)
Definition decodedKey (e : InputEvent) : Prop :=
  match e with
  | InsertChar c => isPrintableCode c
  | _ => True
  end.

(** The codes a line can hold, and those the buffer can. *)
Definition lineCodes (s : jsstring) : Prop := Forall isPrintableCode s.

Definition bufferCodes (s : jsstring) : Prop :=
  Forall (fun c => isPrintableCode c \/ c = 10) s.

(** Printable codes in the line, those and line feeds in the buffer, the
    cursor inside the line. *)
Definition wellFormed (st : state) : Prop :=
  lineCodes (currentLine st) /\ bufferCodes (inputBuffer st) /\
  cursorInLine st.

(** The keys of a typed line ended by a line feed. *)
Definition lineKeys (l : jsstring) : list InputEvent :=
  map InsertChar l ++ [NewLine].

(** What the terminal sends when [lines] are typed, each ended by a line
    feed, then [line] ended by Enter. *)
Definition typed (lines : list jsstring) (line : jsstring) : jsstring :=
  concat (map (fun l => l ++ LF) lines) ++ line ++ CR.

End EditorProps.

(* ------------------------------------------------------------------ *)
(** ** More string primitives, used outside the input engine           *)
(* ------------------------------------------------------------------ *)

Module JSLib.

(** [s.startsWith(p)]. *)
Fixpoint startsWith (s p : jsstring) : bool :=
  match p, s with
  | [], _ => true
  | _ :: _, [] => false
  | x :: p', y :: s' => (x =? y) && startsWith s' p'
  end.

(** [s.includes(p)]. *)
Fixpoint includes (s p : jsstring) : bool :=
  startsWith s p ||
  match s with
  | [] => false
  | _ :: t => includes t p
  end.

(** [s.endsWith(p)]. *)
Definition endsWith (s p : jsstring) : bool := startsWith (rev s) (rev p).

(** [s.replace(p, "")] for a string [p]: the first occurrence goes. *)
Fixpoint removeFirst (p s : jsstring) : jsstring :=
  if startsWith s p then skipn (length p) s
  else match s with
       | [] => []
       | c :: t => c :: removeFirst p t
       end.

(** [s.replace(/^p/, "")] for a literal [p]. *)
Definition stripPrefix (p s : jsstring) : jsstring :=
  if startsWith s p then skipn (length p) s else s.

(** [s.replace(/p$/, "")] for a literal [p]. *)
Definition stripSuffix (p s : jsstring) : jsstring :=
  if endsWith s p then firstn (length s - length p) s else s.

(** [s.substring(a, b)]: both ends clamped to the string, swapped when
    [a > b]. *)
Definition substring (s : jsstring) (a b : Z) : jsstring :=
  let len := Z.of_nat (length s) in
  let a := Z.min (Z.max a 0) len in
  let b := Z.min (Z.max b 0) len in
  let from := Z.min a b in
  let to := Z.max a b in
  firstn (Z.to_nat (to - from)) (skipn (Z.to_nat from) s).

(** [n.toString(16)] for an integer [n]. *)
Definition toString16 (n : Z) : jsstring :=
  js (HexadecimalString.NilZero.string_of_int (Z.to_hex_int n)).

(** The values the client handles without looking inside: all that
    matters of a number, an object or an array is whether it is truthy. *)
Inductive jsvalue : Type :=
| Undefined
| Null
| Bool (b : bool)
| Str (s : jsstring)
| Other (isTruthy : bool).

Definition truthy (v : jsvalue) : bool :=
  match v with
  | Undefined => false
  | Null => false
  | Bool b => b
  | Str s => negb (jseq s [])
  | Other t => t
  end.

(** [v || d] *)
Definition orElse (v d : jsvalue) : jsvalue := if truthy v then v else d.

(** [s || d] for a string that may be null or undefined ([None]). *)
Definition orString (s : option jsstring) (d : jsstring) : jsstring :=
  match s with
  | Some s => if jseq s [] then d else s
  | None => d
  end.

(** An Error object: its [name], its [type] (node-fetch sets one) and its
    [message]. *)
Record error : Type := mkError {
  name : jsstring;
  type : option jsstring;
  message : jsstring
}.

(** new Error(message) *)
Definition Error (message : jsstring) : error :=
  mkError (js "Error") None message.

(** The TypeError of reading property [prop] of [what] (null, undefined). *)
Definition TypeError (what prop : jsstring) : error :=
  mkError (js "TypeError") None
          (js "Cannot read properties of " ++ what ++ js " (reading '" ++
           prop ++ js "')").

End JSLib.

Import JSLib.

(* ------------------------------------------------------------------ *)
(** ** The client outside the input engine                             *)
(* ------------------------------------------------------------------ *)

Module Client.

(** *** generateUUID *)

Definition uuidTemplate : jsstring :=
  js "xxxxxxxx-xxxx-4xxx-yxxx-xxxxxxxxxxxx".

(** The replacement callback on the matched character [c]; [r] is the
    value of (Math.random() * 16) | 0 in this call. *)
Definition uuidDigit (c : Z) (r : Z) : jsstring :=
  let v := if c =? 120 then r else Z.lor (Z.land r 3) 8 in
  toString16 v.

(** template.replace(/[xy]/g, callback); [random k] is the random value of
    the callback's call number [k]. *)
Fixpoint replaceXY (random : nat -> Z) (k : nat) (s : jsstring) : jsstring :=
  match s with
  | [] => []
  | c :: t =>
      if (c =? 120) || (c =? 121)
      then uuidDigit c (random k) ++ replaceXY random (S k) t
      else c :: replaceXY random k t
  end.

Definition generateUUID (random : nat -> Z) : jsstring :=
  replaceXY random 0 uuidTemplate.

Definition isHexDigit (c : Z) : bool :=
  ((48 <=? c) && (c <=? 57)) || ((97 <=? c) && (c <=? 102)).

(** *** isRunningViaNewx, isGlobalInstall *)

(** process.argv[1] || "" *)
Definition execPath (argv1 : option jsstring) : jsstring :=
  orString argv1 [].

Definition isRunningViaNewx (argv1 : option jsstring) : bool :=
  includes (execPath argv1) (js "_npx") ||
  includes (execPath argv1) (js ".npm/_npx").

Definition isGlobalInstall (argv1 : option jsstring) : bool :=
  includes (execPath argv1) (js "/usr/local/bin/") ||
  includes (execPath argv1) (js "/usr/local/lib/node_modules/") ||
  includes (execPath argv1) (js "node_modules/.bin/").

(** *** sendPrompt *)

(** What response.json() gives. *)
Inductive parsed : Type :=
| JsonRejected (e : error)               (* the body is not JSON *)
| JsonNull                               (* the body is null *)
| JsonData (status response : jsvalue).  (* data.status, data.response *)

(** What one call of this.fetch gives. *)
Inductive fetched : Type :=
| Rejected (e : error)
| Responded (ok : bool) (status : Z) (body : parsed).

(** The configuration the function reads. *)
Record config : Type := mkConfig {
  RETRY_ATTEMPTS : nat;
  RETRY_DELAY : Z
}.

(** What the function shows, sends and waits for, in order. *)
Inductive action : Type :=
| InfoAttempt (attempt total : nat)    (* showInfo: Attempt a/n - Sending *)
| Fetch (attempt : nat) (prompt : jsstring) (mode : jsstring)
| WarnTimeout (attempt total : nat)    (* showWarning: Request timeout *)
| InfoWaiting (delay : Z)              (* showInfo: Waiting ... seconds *)
| Sleep (delay : Z).                   (* setTimeout(resolve, delay) *)

Inductive result : Type :=
| Returned (v : jsvalue)
| Thrown (e : error).

Definition isTimeout (e : error) : bool :=
  jseq (name e) (js "FetchError") &&
  match type e with
  | Some t => jseq t (js "request-timeout")
  | None => false
  end.

(** The body of [try]: what it returns or throws. *)
Definition attemptOnce (answer : fetched) : result :=
  match answer with
  | Rejected e => Thrown e
  | Responded ok status body =>
      if negb ok
      then Thrown (Error (js "Backend server error: " ++ numberToString status))
      else
        match body with
        | JsonRejected e => Thrown e
        | JsonNull => Thrown (TypeError (js "null") (js "status"))
        | JsonData status response =>
            match status with
            | Str s =>
                if jseq s (js "success")
                then Returned (orElse response (Str (js "No response received")))
                else if jseq s (js "error")
                then Returned (orElse response (Str (js "Backend error occurred")))
                else Thrown (Error (js "Unknown response format from backend"))
            | _ => Thrown (Error (js "Unknown response format from backend"))
            end
        end
  end.

(** The [for] loop over the attempts still to make, and what follows it. *)
Fixpoint tryEach (cfg : config) (fetch : nat -> fetched)
  (prompt mode : jsstring) (attempts : list nat)
  (lastError : option error) (log : list action) : result * list action :=
  match attempts with
  | [] =>
      match lastError with
      | Some e =>
          (Thrown (Error (js "Request failed after " ++
                          numberToString (Z.of_nat (RETRY_ATTEMPTS cfg)) ++
                          js " attempts. Last error: " ++ message e)), log)
      | None => (Thrown (TypeError (js "undefined") (js "message")), log)
      end
  | attempt :: rest =>
      let log := log ++ [InfoAttempt attempt (RETRY_ATTEMPTS cfg);
                         Fetch attempt prompt mode] in
      match attemptOnce (fetch attempt) with
      | Returned v => (Returned v, log)
      | Thrown e =>
          if isTimeout e then
            let log := log ++ [WarnTimeout attempt (RETRY_ATTEMPTS cfg)] in
            if (attempt <? RETRY_ATTEMPTS cfg)%nat
            then tryEach cfg fetch prompt mode rest (Some e)
                         (log ++ [InfoWaiting (RETRY_DELAY cfg);
                                  Sleep (RETRY_DELAY cfg)])
            else tryEach cfg fetch prompt mode rest (Some e) log
          else (Thrown e, log)
      end
  end.

(** sendPrompt(prompt, mode); [fetch] is this.fetch, [None] before
    createTempEnvironment has set it, and [fetch k] is what the call of
    attempt [k] gives. *)
Definition sendPrompt (cfg : config) (fetch : option (nat -> fetched))
  (prompt mode : jsstring) : result * list action :=
  match fetch with
  | None =>
      (Thrown (Error (js "Fetch not initialized. Call createTempEnvironment first.")),
       [])
  | Some fetch =>
      tryEach cfg fetch (trim prompt) mode (seq 1 (RETRY_ATTEMPTS cfg)) None []
  end.

Definition isFetch (a : action) : bool :=
  match a with
  | Fetch _ _ _ => true
  | _ => false
  end.

Definition isSleep (a : action) : bool :=
  match a with
  | Sleep _ => true
  | _ => false
  end.

Definition fetches (log : list action) : nat := length (filter isFetch log).

Definition sleeps (log : list action) : nat := length (filter isSleep log).

(** Every request of the log carries [prompt] and [mode]. *)
Definition sends (prompt mode : jsstring) (log : list action) : Prop :=
  forall a p m, In (Fetch a p m) log -> p = prompt /\ m = mode.

(** Attempt [j] ends in an error the loop takes for a timeout. *)
Definition timesOut (fetch : nat -> fetched) (j : nat) : Prop :=
  exists e, attemptOnce (fetch j) = Thrown e /\ isTimeout e = true.

(** The digit [v.toString(16)] of a value below 16. *)
Definition hexChar (v : Z) : Z := if v <? 10 then 48 + v else 87 + v.

(** A timeout of node-fetch with message [m]. *)
Definition timeoutError (m : jsstring) : error :=
  mkError (js "FetchError") (Some (js "request-timeout")) m.

End Client.

(* ------------------------------------------------------------------ *)
(** ** File mode: what is done with the menu's choice                  *)
(* ------------------------------------------------------------------ *)

Module FileMode.

(** What the loop shows, by call; the texts are those of the source. *)
Inductive notice : Type :=
| Banner                       (* clear screen, showWelcome, showSuccess *)
| AlreadyProcessing            (* showInfo *)
| InputEmpty                   (* showError *)
| RequestInfo (n : Z) (preview : jsstring)   (* showInfo: Request #n: "..." *)
| TimeoutInfo                  (* showInfo: Extended timeout *)
| Processed (n : Z)            (* the three showSuccess of a success *)
| Failed (reason : jsstring)   (* showError: Failed to process input *)
| SlowBackend                  (* showWarning and showInfo after a timeout *)
| CheckConnection              (* showWarning *)
| SessionSummary (n : Z)       (* showSuccess: Processed n requests *)
| ReturningToModes             (* showSuccess *)
| Goodbye                      (* showGoodbye *)
| Exiting                      (* showSuccess: Exiting Brahma *)
| CleanedUp.                   (* this.cleanup() *)

(** The variables of the loop, the two files, and of the UI whether the
    loading animation runs and what was shown. *)
Record session : Type := mkSession {
  isProcessing : bool;
  requestCount : Z;
  exitRequested : bool;
  inputFile : option jsstring;   (* input.txt; [None] when it is missing *)
  outputFile : jsstring;         (* output.txt *)
  loading : bool;                (* this.ui.loadingInterval is set *)
  shown : list notice
}.

(** What the function cannot know: the error of reading a missing file,
    the error of writing something that is not a string, the time. *)
Record world : Type := mkWorld {
  enoent : error;
  invalidData : error;
  now : jsstring                 (* new Date().toISOString() *)
}.

Definition inputTemplate : jsstring :=
  js "These are the Test Cases :" ++ LF ++ LF ++ LF ++ LF ++ LF ++ LF ++ LF ++
  js "Make sure above test cases are passed, and give me the updated code given below :".

(** The state at the first appearance of the menu. *)
Definition start : session :=
  mkSession false 0 false (Some inputTemplate) [] false [].

Definition say (m : notice) (s : session) : session :=
  mkSession (isProcessing s) (requestCount s) (exitRequested s)
            (inputFile s) (outputFile s) (loading s) (shown s ++ [m]).

(** showError: stopLoading() first. *)
Definition sayError (m : notice) (s : session) : session :=
  mkSession (isProcessing s) (requestCount s) (exitRequested s)
            (inputFile s) (outputFile s) false (shown s ++ [m]).

(** startLoading: the animation runs from now on. *)
Definition startLoading (s : session) : session :=
  mkSession (isProcessing s) (requestCount s) (exitRequested s)
            (inputFile s) (outputFile s) true (shown s).

Definition setProcessing (b : bool) (s : session) : session :=
  mkSession b (requestCount s) (exitRequested s)
            (inputFile s) (outputFile s) (loading s) (shown s).

Definition countRequest (s : session) : session :=
  mkSession (isProcessing s) (requestCount s + 1) (exitRequested s)
            (inputFile s) (outputFile s) (loading s) (shown s).

Definition writeOutput (text : jsstring) (s : session) : session :=
  mkSession (isProcessing s) (requestCount s) (exitRequested s)
            (inputFile s) text (loading s) (shown s).

Definition writeInput (text : jsstring) (s : session) : session :=
  mkSession (isProcessing s) (requestCount s) (exitRequested s)
            (Some text) (outputFile s) (loading s) (shown s).

Definition requestExit (s : session) : session :=
  mkSession (isProcessing s) (requestCount s) true
            (inputFile s) (outputFile s) (loading s) (shown s).

(** content.length > 50 ? content.substring(0, 50) + "..." : content *)
Definition preview (content : jsstring) : jsstring :=
  if 50 <? Z.of_nat (length content)
  then substring content 0 50 ++ js "..."
  else content.

(** The report written to output.txt when the request failed. *)
Definition errorReport (w : world) (e : error) : jsstring :=
  js "Error: " ++ message e ++ LF ++ LF ++
  js "Timestamp: " ++ now w ++ LF ++ LF ++
  js "Possible solutions:" ++ LF ++
  js "1. Check if the backend server is running" ++ LF ++
  js "2. Verify your internet connection" ++ LF ++
  js "3. Try a simpler request to test connectivity" ++ LF ++
  js "4. The AI may be processing a complex request - try again in a moment".

(** catch (error) { ... } finally { isProcessing = false } *)
Definition caught (w : world) (e : error) (s : session) : session :=
  let s := sayError (Failed (message e)) s in
  let s := if includes (message e) (js "timeout") ||
              includes (message e) (js "retry")
           then say SlowBackend s
           else say CheckConnection s in
  let s := writeOutput (errorReport w e) s in
  setProcessing false s.

(** The TypeError of calling [callee] when it is undefined. *)
Definition notAFunction (callee : jsstring) : error :=
  mkError (js "TypeError") None (callee ++ js " is not a function").

(** How one turn of the [while] loop ends. *)
Inductive turn : Type :=
| Again (s : session)               (* back to the menu *)
| Rejects (e : error) (s : session) (* [e] is thrown out of the function *)
| ProcessExit (code : Z) (s : session).

(** One turn of the loop once the menu has given [choice];
    [send content] is what sendPrompt(content, "file-based") gives.
    Writing the two files is taken to succeed.  The class defines no
    method showModeSelection, so the call of the second branch throws
    outside of any [try] and the function's promise is rejected. *)
Definition process (w : world) (send : jsstring -> Client.result)
  (choice : jsstring) (s : session) : turn :=
  let s := say Banner s in
  if jseq choice (js "1") || jseq choice (js "Process Input") then
    if isProcessing s then
      Again (setProcessing false (say AlreadyProcessing s))
    else
      let s := setProcessing true s in
      match inputFile s with
      | None => Again (caught w (enoent w) s)
      | Some raw =>
          let content := trim raw in
          if jseq content [] then
            Again (setProcessing false
                     (setProcessing false (sayError InputEmpty s)))
          else
            let s := countRequest s in
            let s := say (RequestInfo (requestCount s) (preview content)) s in
            let s := say TimeoutInfo s in
            let s := startLoading s in
            match send content with
            | Client.Thrown e => Again (caught w e s)
            | Client.Returned (Str response) =>
                let s := writeOutput response s in
                let s := writeInput inputTemplate s in
                let s := say (Processed (requestCount s)) s in
                Again (setProcessing false s)
            | Client.Returned _ => Again (caught w (invalidData w) s)
            end
      end
  else if jseq choice (js "2") || jseq choice (js "Exit Brahma") ||
          jseq choice (js "exit") then
    let s := requestExit s in
    let s := say (SessionSummary (requestCount s)) s in
    let s := say ReturningToModes s in
    Rejects (notAFunction (js "this.showModeSelection")) s
  else if jseq choice (js "3") || jseq choice (js "Exit Brahma") ||
          jseq choice (js "exit") then
    let s := requestExit s in
    let s := say Goodbye s in
    let s := say (SessionSummary (requestCount s)) s in
    let s := say Exiting s in
    ProcessExit 0 (say CleanedUp s)
  else Again s.

Definition sessionOf (t : turn) : session :=
  match t with
  | Again s => s
  | Rejects _ s => s
  | ProcessExit _ s => s
  end.

(** The loop over the choices the menu gives, one per appearance. *)
Fixpoint processAll (w : world) (send : jsstring -> Client.result)
  (choices : list jsstring) (s : session) : turn :=
  match choices with
  | [] => Again s
  | choice :: rest =>
      match process w send choice s with
      | Again s' => processAll w send rest s'
      | ended => ended
      end
  end.

End FileMode.

(* ------------------------------------------------------------------ *)
(** ** The UI: colours, stripAnsi and the code block frame (src/lib/ui.js) *)
(* ------------------------------------------------------------------ *)

Module UI.

(** ESC [ params m, the shape of every entry of this.colors. *)
Definition sgr (params : jsstring) : jsstring :=
  ESC ++ js "[" ++ params ++ js "m".

Definition reset : jsstring := sgr (js "0").
Definition bright : jsstring := sgr (js "1").
Definition dim : jsstring := sgr (js "2").
Definition cyan : jsstring := sgr (js "36").
Definition brightBlue : jsstring := sgr (js "94").

(** [0-9;] *)
Definition isParam (c : Z) : bool :=
  ((48 <=? c) && (c <=? 57)) || (c =? 59).

(** The length of the longest prefix matching [0-9;]*. *)
Fixpoint paramCount (s : jsstring) : nat :=
  match s with
  | [] => O
  | c :: t => if isParam c then S (paramCount t) else O
  end.

(** The length of the match of /\x1b\[[0-9;]*m/ at the start of [s], if
    there is one: the star is greedy and 'm' is not a parameter, so the
    match, when it exists, takes all the parameters that follow ESC '['. *)
Definition matchLength (s : jsstring) : option nat :=
  match s with
  | e :: b :: rest =>
      if (e =? 27) && (b =? 91) then
        match nth_error rest (paramCount rest) with
        | Some c => if c =? 109 then Some (paramCount rest + 3)%nat else None
        | None => None
        end
      else None
  | _ => None
  end.

(** str.replace(/\x1b\[[0-9;]*m/g, ""), left to right: [skip] is the
    number of characters still inside the last match. *)
Fixpoint strip (skip : nat) (s : jsstring) : jsstring :=
  match s with
  | [] => []
  | c :: t =>
      match skip with
      | S k => strip k t
      | O =>
          match matchLength s with
          | Some n => strip (n - 1) t
          | None => c :: strip 0 t
          end
      end
  end.

Definition stripAnsi (str : jsstring) : jsstring := strip 0 str.

(** s.repeat(n) for a one-character string. *)
Definition repeatChar (c : Z) (n : Z) : jsstring := repeat c (Z.to_nat n).

(** Math.max(...xs) for a non-empty array of lengths. *)
Definition maxOf (xs : list Z) : Z :=
  match xs with
  | [] => 0
  | x :: rest => fold_left Z.max rest x
  end.

(** The box-drawing characters of the frame. *)
Definition boxH : Z := 9472.   (* U+2500 *)
Definition boxV : Z := 9474.   (* U+2502 *)
Definition boxTL : Z := 9484.  (* U+250C *)
Definition boxTR : Z := 9488.  (* U+2510 *)
Definition boxBL : Z := 9492.  (* U+2514 *)
Definition boxBR : Z := 9496.  (* U+2518 *)
Definition boxL : Z := 9500.   (* U+251C *)
Definition boxR : Z := 9508.   (* U+2524 *)

Definition visibleLength (line : jsstring) : Z :=
  Z.of_nat (length (stripAnsi line)).

(** maxLength of formatCodeBlock. *)
Definition frameWidth (lines : list jsstring) : Z :=
  Z.min 80 (maxOf (map visibleLength lines)).

Definition border (lines : list jsstring) : jsstring :=
  repeatChar boxH (Z.max (frameWidth lines) 20).

Definition topRow (lines : list jsstring) : jsstring :=
  dim ++ [boxTL] ++ border lines ++ [boxTR] ++ reset.

Definition labelRow (lines : list jsstring) (lang : jsstring) : jsstring :=
  dim ++ [boxV] ++ js " " ++ brightBlue ++ lang ++ dim ++ js " " ++
  repeatChar 32 (Z.max 0 (frameWidth lines - Z.of_nat (length lang) - 1)) ++
  [boxV] ++ reset.

Definition ruleRow (lines : list jsstring) : jsstring :=
  dim ++ [boxL] ++ border lines ++ [boxR] ++ reset.

Definition codeRow (lines : list jsstring) (line : jsstring) : jsstring :=
  dim ++ [boxV] ++ reset ++ js " " ++ line ++
  repeatChar 32 (Z.max 0 (frameWidth lines - visibleLength line)) ++
  js " " ++ dim ++ [boxV] ++ reset.

Definition bottomRow (lines : list jsstring) : jsstring :=
  dim ++ [boxBL] ++ border lines ++ [boxBR] ++ reset.

(** The rows of formatCodeBlock, which joins them with line feeds;
    [highlighted] is what highlightCode returned for the language
    [detectedLang]. *)
Definition frameRows (highlighted detectedLang : jsstring) : list jsstring :=
  let lines := splitLines highlighted in
  [topRow lines] ++
  (if negb (jseq detectedLang (js "text"))
   then [labelRow lines detectedLang; ruleRow lines]
   else []) ++
  map (codeRow lines) lines ++
  [bottomRow lines].

Definition formatCodeBlock (highlighted detectedLang : jsstring) : jsstring :=
  join LF (frameRows highlighted detectedLang).

End UI.

(* ------------------------------------------------------------------ *)
(** ** The agent: matching tests to sources (src/lib/agent.js)         *)
(* ------------------------------------------------------------------ *)

Module Agent.

(** What scanDirectory records for a .java file. *)
Record file : Type := mkFile {
  fileName : jsstring;
  filePath : jsstring;
  relativePath : jsstring;
  content : jsstring
}.

(** extractTestCases: the file with its class name (null when no class is
    declared) and its test methods. *)
Record testCase : Type := mkTest {
  testFile : file;
  testClassName : option jsstring;
  testMethods : list jsstring
}.

(** extractCodeTemplates. *)
Record template : Type := mkTemplate {
  sourceFile : file;
  className : option jsstring;
  methods : list jsstring
}.

(** test.testClassName || test.fileName.replace(".java", "") *)
Definition testName (t : testCase) : jsstring :=
  orString (testClassName t) (removeFirst (js ".java") (fileName (testFile t))).

Definition possibleSourceNames (t : testCase) : list jsstring :=
  [ stripPrefix (js "Test") (testName t);
    stripSuffix (js "Test") (testName t);
    stripSuffix (js "Tests") (testName t);
    stripSuffix (js "IT") (testName t) ].

(** source.className || source.fileName.replace(".java", "") *)
Definition sourceName (src : template) : jsstring :=
  orString (className src) (removeFirst (js ".java") (fileName (sourceFile src))).

(** names.includes(name) on an array of strings. *)
Definition arrayIncludes (names : list jsstring) (name : jsstring) : bool :=
  existsb (fun n => jseq n name) names.

Definition isCandidate (t : testCase) (src : template) : bool :=
  arrayIncludes (possibleSourceNames t) (sourceName src).

(** codeTemplates.find(...) *)
Definition matchingSource (t : testCase) (codeTemplates : list template)
  : option template :=
  find (isCandidate t) codeTemplates.

Record matchedPair : Type := mkPair {
  test : testCase;
  source : template;
  matchedBy : jsstring
}.

(** The [for] loop of matchTestsToSources, pushing to the two arrays. *)
Fixpoint matchLoop (testCases : list testCase) (codeTemplates : list template)
  (matched : list matchedPair) (unmatched : list testCase)
  : list matchedPair * list testCase :=
  match testCases with
  | [] => (matched, unmatched)
  | t :: rest =>
      match matchingSource t codeTemplates with
      | Some src =>
          matchLoop rest codeTemplates
                    (matched ++ [mkPair t src (js "naming-convention")])
                    unmatched
      | None => matchLoop rest codeTemplates matched (unmatched ++ [t])
      end
  end.

Definition matchTestsToSources (testCases : list testCase)
  (codeTemplates : list template) : list matchedPair * list testCase :=
  matchLoop testCases codeTemplates [] [].

(** The summary of buildPayload and the two lists it counts. *)
Record summary : Type := mkSummary {
  totalTestFiles : nat;
  totalSourceFiles : nat;
  matchedPairs : nat;
  unmatchedTests : nat
}.

Record payloadTest : Type := mkPayloadTest {
  ptFileName : jsstring;
  ptFilePath : jsstring;
  ptClassName : option jsstring;
  ptTestMethods : list jsstring;
  ptContent : jsstring
}.

Record payloadTemplate : Type := mkPayloadTemplate {
  pcFileName : jsstring;
  pcFilePath : jsstring;
  pcClassName : option jsstring;
  pcMethods : list jsstring;
  pcContent : jsstring
}.

Record payloadMatch : Type := mkPayloadMatch {
  pTestFile : jsstring;
  pSourceFile : jsstring;
  pMatchedBy : jsstring
}.

Record workspace : Type := mkWorkspace {
  basePath : jsstring;
  testPath : jsstring;
  sourcePath : jsstring
}.

Record payload : Type := mkPayload {
  timestamp : jsstring;
  agent : jsstring;
  version : jsstring;
  payloadWorkspace : workspace;
  payloadTests : list payloadTest;
  payloadTemplates : list payloadTemplate;
  payloadMatches : list payloadMatch;
  payloadUnmatched : list jsstring;
  payloadSummary : summary
}.

(** The paths set by the constructor. *)
Definition agentWorkspace : workspace :=
  mkWorkspace (js "/workspace")
              (js "/workspace/src/test/java/org/example/evaluations")
              (js "/workspace/src/main/java/org/example/evaluations").

(** buildPayload; [now] is new Date().toISOString(). *)
Definition buildPayload (now : jsstring) (testCases : list testCase)
  (codeTemplates : list template)
  (matchResult : list matchedPair * list testCase) : payload :=
  mkPayload now (js "brahma-cli-agent") (js "1.0.0") agentWorkspace
    (map (fun tc => mkPayloadTest (fileName (testFile tc))
                                  (relativePath (testFile tc))
                                  (testClassName tc) (testMethods tc)
                                  (content (testFile tc)))
         testCases)
    (map (fun ct => mkPayloadTemplate (fileName (sourceFile ct))
                                      (relativePath (sourceFile ct))
                                      (className ct) (methods ct)
                                      (content (sourceFile ct)))
         codeTemplates)
    (map (fun m => mkPayloadMatch (relativePath (testFile (test m)))
                                  (relativePath (sourceFile (source m)))
                                  (matchedBy m))
         (fst matchResult))
    (map (fun t => relativePath (testFile t)) (snd matchResult))
    (mkSummary (length testCases) (length codeTemplates)
               (length (fst matchResult)) (length (snd matchResult))).

(** A template and a test, for examples. *)
Definition calculator : template :=
  mkTemplate (mkFile (js "Calculator.java") (js "/workspace/Calculator.java")
                     (js "Calculator.java") (js "class Calculator {}"))
             (Some (js "Calculator")) [].

Definition calculatorIT : testCase :=
  mkTest (mkFile (js "CalculatorIT.java") (js "/workspace/CalculatorIT.java")
                 (js "CalculatorIT.java") (js "class CalculatorIT {}"))
         (Some (js "CalculatorIT")) [].

(** The test has a source among the templates. *)
Definition hasSource (codeTemplates : list template) (t : testCase) : bool :=
  match matchingSource t codeTemplates with
  | Some _ => true
  | None => false
  end.



End Agent.

(* ------------------------------------------------------------------ *)
(** ** Vocabulary for the properties of the menu and of file mode      *)
(* ------------------------------------------------------------------ *)

Module MenuProps.

Import Menu.

(** The selection designates an option of [opts]. *)
Definition selects (opts : list menuOption) (st : state) : Prop :=
  0 <= selectedIndex st < Z.of_nat (length opts).

(** What the handler may leave behind: a selection inside the menu; the
    terminal untouched while it waits, released once it has chosen; never
    an exception. *)
Definition handled (opts : list menuOption) (st : state) (r : result) : Prop :=
  match r with
  | Waiting st' =>
      selects opts st' /\
      rawMode st' = rawMode st /\ listening st' = listening st /\
      flowing st' = flowing st
  | Chosen _ st' =>
      selects opts st' /\
      rawMode st' = false /\ listening st' = false /\ flowing st' = false
  | Throws _ => False
  end.

(** A session that is not processing and never said it was. *)
Definition idle (s : FileMode.session) : Prop :=
  FileMode.isProcessing s = false /\
  ~ In FileMode.AlreadyProcessing (FileMode.shown s).

End MenuProps.

(* ------------------------------------------------------------------ *)
(** ** Facts about the string primitives                              *)
(* ------------------------------------------------------------------ *)

Module JSFacts.

Lemma jseq_eq (a b : jsstring) : jseq a b = true <-> a = b.
Proof.
  revert b; induction a as [|x a IH]; intros [|y b]; simpl;
    try (split; [discriminate | discriminate]); try tauto.
  rewrite andb_true_iff, Z.eqb_eq, IH.
  split; [intros [-> ->]; reflexivity | intros [= -> ->]; auto].
Qed.

Lemma jseq_nil (a : jsstring) : jseq a [] = true <-> a = [].
Proof. apply jseq_eq. Qed.

Lemma jseq_refl (a : jsstring) : jseq a a = true.
Proof. apply jseq_eq; reflexivity. Qed.

Lemma jseq_nil_false (a : jsstring) : jseq a [] = false <-> a <> [].
Proof.
  destruct a; simpl; split; intros; congruence.
Qed.

(** *** trim *)

Lemma trimStart_split (s : jsstring) :
  exists w, s = w ++ trimStart s /\ blank w.
Proof.
  induction s as [|c s [w [E B]]]; simpl.
  - exists []; split; [reflexivity | constructor].
  - destruct (isWhiteSpace c) eqn:W.
    + exists (c :: w); split; [simpl; f_equal; exact E | constructor; assumption].
    + exists []; split; [reflexivity | constructor].
Qed.

Lemma trimStart_cleanHead (s : jsstring) : cleanHead (trimStart s).
Proof.
  induction s as [|c s IH]; simpl; [exact I|].
  destruct (isWhiteSpace c) eqn:W; [exact IH | exact W].
Qed.

Lemma trimStart_fix (s : jsstring) : cleanHead s -> trimStart s = s.
Proof.
  destruct s as [|c s]; simpl; [reflexivity|]; intros ->; reflexivity.
Qed.

Lemma trimStart_blank (s : jsstring) : blank s -> trimStart s = [].
Proof.
  induction 1 as [|c s W _ IH]; simpl; [reflexivity|]; rewrite W; exact IH.
Qed.

Lemma trimStart_nil_blank (s : jsstring) : trimStart s = [] -> blank s.
Proof.
  intros E; destruct (trimStart_split s) as [w [Hs B]].
  rewrite E, app_nil_r in Hs; subst; exact B.
Qed.

Lemma blank_rev (s : jsstring) : blank s -> blank (rev s).
Proof. unfold blank; apply Forall_rev. Qed.

Lemma blank_app (a b : jsstring) : blank (a ++ b) <-> blank a /\ blank b.
Proof. unfold blank; apply Forall_app. Qed.

Lemma trimEnd_split (s : jsstring) :
  exists w, s = trimEnd s ++ w /\ blank w.
Proof.
  unfold trimEnd; destruct (trimStart_split (rev s)) as [w [E B]].
  exists (rev w); split; [|apply blank_rev; exact B].
  rewrite <- rev_app_distr, <- E, rev_involutive; reflexivity.
Qed.

Lemma trimEnd_blank (s : jsstring) : blank s -> trimEnd s = [].
Proof.
  intros B; unfold trimEnd; rewrite trimStart_blank; [reflexivity|].
  apply blank_rev; exact B.
Qed.

Lemma trimEnd_nil_blank (s : jsstring) : trimEnd s = [] -> blank s.
Proof.
  intros E; destruct (trimEnd_split s) as [w [Hs B]].
  rewrite E in Hs; simpl in Hs; subst; exact B.
Qed.

Lemma trimEnd_cleanHead (s : jsstring) : cleanHead s -> cleanHead (trimEnd s).
Proof.
  intros H; destruct (trimEnd_split s) as [w [E _]].
  destruct (trimEnd s) as [|c t]; [exact I|].
  rewrite E in H; exact H.
Qed.

Lemma trimEnd_idem (s : jsstring) : trimEnd (trimEnd s) = trimEnd s.
Proof.
  unfold trimEnd; rewrite rev_involutive, trimStart_fix; [reflexivity|].
  apply trimStart_cleanHead.
Qed.

(** [trim] removes everything exactly when the string is blank. *)
Lemma trim_nil_iff (s : jsstring) : trim s = [] <-> blank s.
Proof.
  unfold trim; split.
  - intros E; apply trimEnd_nil_blank in E.
    destruct (trimStart_split s) as [w [Hs B]].
    rewrite Hs; apply blank_app; split; assumption.
  - intros B; rewrite trimStart_blank by exact B; reflexivity.
Qed.

Lemma trim_idem (s : jsstring) : trim (trim s) = trim s.
Proof.
  unfold trim.
  rewrite (trimStart_fix (trimEnd (trimStart s))).
  - apply trimEnd_idem.
  - apply trimEnd_cleanHead, trimStart_cleanHead.
Qed.

Lemma not_blank_nonws (s : jsstring) :
  ~ blank s <-> Exists (fun c => isWhiteSpace c = false) s.
Proof.
  unfold blank; split.
  - intros H; apply neg_Forall_Exists_neg in H.
    + eapply Exists_impl; [|exact H]; simpl; intros c Hc.
      destruct (isWhiteSpace c); congruence.
    + intros c; destruct (isWhiteSpace c); [left | right]; congruence.
  - intros E F; apply Exists_exists in E; destruct E as [c [Hin Hc]].
    rewrite Forall_forall in F; specialize (F c Hin); congruence.
Qed.

(** A non-empty trimmed string has a character that is not white space. *)
Lemma trim_nonempty_nonws (s : jsstring) :
  trim s <> [] -> Exists (fun c => isWhiteSpace c = false) (trim s).
Proof.
  intros H; apply not_blank_nonws; intros B.
  apply trim_nil_iff in B; rewrite trim_idem in B; contradiction.
Qed.

Lemma trim_nonempty_iff (s : jsstring) :
  trim s <> [] <-> Exists (fun c => isWhiteSpace c = false) s.
Proof.
  rewrite <- not_blank_nonws, trim_nil_iff; tauto.
Qed.

(** *** slice *)

Lemma slice_prefix (s : jsstring) (c : Z) :
  0 <= c <= Z.of_nat (length s) ->
  slice s 0 (Some c) = firstn (Z.to_nat c) s.
Proof.
  intros H; unfold slice, sliceIndex; simpl.
  destruct (c <? 0) eqn:C; [apply Z.ltb_lt in C; lia|].
  rewrite Z.min_l by lia.
  replace (Z.min 0 (Z.of_nat (length s))) with 0 by lia.
  rewrite Z.sub_0_r, Z.max_l by lia; reflexivity.
Qed.

Lemma slice_suffix (s : jsstring) (c : Z) :
  0 <= c <= Z.of_nat (length s) ->
  slice s c None = skipn (Z.to_nat c) s.
Proof.
  intros H; unfold slice, sliceIndex.
  destruct (c <? 0) eqn:C; [apply Z.ltb_lt in C; lia|].
  rewrite Z.min_l by lia.
  apply firstn_all2; rewrite length_skipn; lia.
Qed.

(** *** join and split *)

Lemma splitLines_nonempty (s : jsstring) : splitLines s <> [].
Proof.
  induction s as [|c s IH]; simpl; [discriminate|].
  destruct (c =? 10); [discriminate|].
  destruct (splitLines s); discriminate.
Qed.

Lemma join_cons (sep l : jsstring) (ls : list jsstring) :
  ls <> [] -> join sep (l :: ls) = l ++ sep ++ join sep ls.
Proof. destruct ls; [congruence | reflexivity]. Qed.

Lemma join_splitLines (s : jsstring) : join LF (splitLines s) = s.
Proof.
  induction s as [|c s IH]; simpl; [reflexivity|].
  destruct (c =? 10) eqn:E.
  - apply Z.eqb_eq in E; subst c.
    rewrite join_cons by apply splitLines_nonempty.
    rewrite IH; reflexivity.
  - pose proof (splitLines_nonempty s) as Hne.
    destruct (splitLines s) as [|l ls]; [congruence|].
    destruct ls as [|l' ls'].
    + simpl in *; subst; reflexivity.
    + rewrite join_cons in IH by discriminate.
      rewrite join_cons by discriminate.
      simpl; f_equal; exact IH.
Qed.

Lemma join_snoc (sep l : jsstring) (ls : list jsstring) :
  ls <> [] -> join sep (ls ++ [l]) = join sep ls ++ sep ++ l.
Proof.
  induction ls as [|a ls IH]; [congruence|]; intros _.
  destruct ls as [|b ls].
  - reflexivity.
  - change ((a :: b :: ls) ++ [l]) with (a :: ((b :: ls) ++ [l])).
    rewrite join_cons by (simpl; discriminate).
    rewrite IH by discriminate.
    rewrite (join_cons sep a (b :: ls)) by discriminate.
    rewrite <- !app_assoc; reflexivity.
Qed.

(** The characters of a string are those of its lines and the line
    feeds between them. *)
Lemma nonws_splitLines (s : jsstring) :
  Exists (fun c => isWhiteSpace c = false) s <->
  Exists (fun l => Exists (fun c => isWhiteSpace c = false) l) (splitLines s).
Proof.
  induction s as [|c s IH]; simpl.
  - split; intros H; inversion H; subst; inversion H1.
  - destruct (c =? 10) eqn:E.
    + apply Z.eqb_eq in E; subst c.
      rewrite Exists_cons, Exists_cons, <- IH.
      split; [intros [H|H]; [discriminate | right; exact H]
             | intros [H|H]; [inversion H | right; exact H]].
    + pose proof (splitLines_nonempty s) as Hne.
      destruct (splitLines s) as [|l ls]; [congruence|].
      rewrite Exists_cons, IH, !Exists_cons; tauto.
Qed.

End JSFacts.

(* ------------------------------------------------------------------ *)
(** ** The loop of [onData]                                            *)
(* ------------------------------------------------------------------ *)

Module LoopFacts.

Import LineEditor.

Lemma nth_error_past (pre rest : jsstring) (k : nat) :
  nth_error (pre ++ rest) (length pre + k) = nth_error rest k.
Proof.
  rewrite nth_error_app2 by lia.
  f_equal; lia.
Qed.

(** The body of the loop at the position that splits the chunk into
    [pre] and [c :: tl]. *)
Lemma body_at (pre : jsstring) (c : Z) (tl : jsstring) (st : state) :
  body (pre ++ c :: tl) (length pre) st =
  if c =? 3 then Exit 0 (ctrlC st)
  else if c =? 13 then
    match enter st with
    | Committed text st' => Return text st'
    | Absorbed st' => Next (afterEnter (length pre) tl) st'
    end
  else if c =? 10 then Next (length pre) (lineFeed st)
  else if (c =? 8) || (c =? 127) then Next (length pre) (backspace st)
  else if (32 <=? c) && (c <=? 126) then Next (length pre) (printable [c] st)
  else if c =? 27 then
    match tl with
    | d :: key :: _ =>
        if d =? 91 then Next (length pre + 2) (arrow (Some key) st)
        else Next (length pre) st
    | _ => Next (length pre) st
    end
  else Next (length pre) st.
Proof.
  unfold body, charAt, charCodeAt.
  replace (nth_error (pre ++ c :: tl) (length pre)) with (Some c)
    by (rewrite <- (Nat.add_0_r (length pre)), nth_error_past; reflexivity).
  rewrite !nth_error_past, !length_app; simpl.
  destruct (c =? 3); [reflexivity|].
  destruct (c =? 13).
  { destruct tl as [|d tl']; simpl.
    - replace (length pre + 1 <? length pre + 1)%nat with false
        by (symmetry; apply Nat.ltb_ge; lia).
      reflexivity.
    - replace (length pre + 1 <? length pre + S (S (length tl')))%nat with true
        by (symmetry; apply Nat.ltb_lt; lia).
      simpl; destruct (d =? 10); reflexivity. }
  destruct (c =? 10); [reflexivity|].
  destruct ((c =? 8) || (c =? 127)); [reflexivity|].
  destruct ((32 <=? c) && (c <=? 126)); [reflexivity|].
  destruct (c =? 27); [|reflexivity].
  destruct tl as [|d [|key tl']]; simpl.
  - replace (length pre + 2 <? length pre + 1)%nat with false
      by (symmetry; apply Nat.ltb_ge; lia).
    reflexivity.
  - replace (length pre + 2 <? length pre + 2)%nat with false
      by (symmetry; apply Nat.ltb_ge; lia).
    reflexivity.
  - replace (length pre + 2 <? length pre + S (S (S (length tl'))))%nat
      with true by (symmetry; apply Nat.ltb_lt; lia).
    simpl; destruct (d =? 91); reflexivity.
Qed.

Lemma length_snoc1 (pre : jsstring) (c : Z) :
  length (pre ++ [c]) = S (length pre).
Proof. rewrite length_app; simpl; lia. Qed.

Lemma length_snoc2 (pre : jsstring) (c d : Z) :
  length (pre ++ [c; d]) = S (length pre + 1).
Proof. rewrite length_app; simpl; lia. Qed.

Lemma length_snoc3 (pre : jsstring) (c d e : Z) :
  length (pre ++ [c; d; e]) = S (length pre + 2).
Proof. rewrite length_app; simpl; lia. Qed.

Lemma loop_past1 (fuel : nat) (pre : jsstring) (c : Z) (tl : jsstring)
  (st : state) (o : option outcome) :
  loop fuel ((pre ++ [c]) ++ tl) (length (pre ++ [c])) st = o ->
  loop fuel (pre ++ c :: tl) (S (length pre)) st = o.
Proof. rewrite <- app_assoc, length_snoc1; intros H; exact H. Qed.

Lemma loop_past2 (fuel : nat) (pre : jsstring) (c d : Z) (tl : jsstring)
  (st : state) (o : option outcome) :
  loop fuel ((pre ++ [c; d]) ++ tl) (length (pre ++ [c; d])) st = o ->
  loop fuel (pre ++ c :: d :: tl) (S (length pre + 1)) st = o.
Proof. rewrite <- app_assoc, length_snoc2; intros H; exact H. Qed.

Lemma loop_past3 (fuel : nat) (pre : jsstring) (c d e : Z) (tl : jsstring)
  (st : state) (o : option outcome) :
  loop fuel ((pre ++ [c; d; e]) ++ tl) (length (pre ++ [c; d; e])) st = o ->
  loop fuel (pre ++ c :: d :: e :: tl) (S (length pre + 2)) st = o.
Proof. rewrite <- app_assoc, length_snoc3; intros H; exact H. Qed.

(** With fuel for every remaining code unit and one more, the loop ends
    and its result is that of the recursion on the rest of the chunk. *)
Lemma loop_decode (fuel : nat) :
  forall (rest pre : jsstring) (st : state),
    (length rest < fuel)%nat ->
    loop fuel (pre ++ rest) (length pre) st = Some (decode rest st).
Proof.
  induction fuel as [|fuel IH]; intros rest pre st Hf; [lia|].
  destruct rest as [|c tl].
  - simpl. rewrite app_nil_r, Nat.ltb_irrefl; reflexivity.
  - cbn [loop].
    replace (length pre <? length (pre ++ c :: tl))%nat with true
      by (symmetry; apply Nat.ltb_lt; rewrite length_app; simpl; lia).
    rewrite body_at. cbn [decode]. simpl in Hf.
    destruct (c =? 3); [reflexivity|].
    destruct (c =? 13).
    { destruct (enter st) as [text st'|st']; [reflexivity|].
      destruct tl as [|d tl']; simpl afterEnter.
      - apply loop_past1, IH; simpl; lia.
      - destruct (d =? 10).
        + apply loop_past2, IH; simpl in *; lia.
        + apply loop_past1, IH; simpl in *; lia. }
    destruct (c =? 10);
      [apply loop_past1, IH; lia|].
    destruct ((c =? 8) || (c =? 127));
      [apply loop_past1, IH; lia|].
    destruct ((32 <=? c) && (c <=? 126));
      [apply loop_past1, IH; lia|].
    destruct (c =? 27);
      [|apply loop_past1, IH; lia].
    destruct tl as [|d [|key tl']];
      try (apply loop_past1, IH;
           simpl in *; lia).
    destruct (d =? 91).
    + apply loop_past3, IH; simpl in *; lia.
    + apply loop_past1, IH; simpl in *; lia.
Qed.

(** [onData] always ends, with the result of [decode]. *)
Lemma onData_decode (input : jsstring) (st : state) :
  onData input st = Some (decode input st).
Proof.
  unfold onData.
  apply (loop_decode (S (length input)) input [] st); lia.
Qed.

Lemma loop_more_fuel (fuel : nat) :
  forall (input : jsstring) (i : nat) (st : state) (o : outcome),
    loop fuel input i st = Some o ->
    forall fuel', (fuel <= fuel')%nat -> loop fuel' input i st = Some o.
Proof.
  induction fuel as [|fuel IH]; intros input i st o H fuel' Hle;
    [discriminate|].
  destruct fuel' as [|fuel']; [lia|].
  cbn [loop] in *.
  destruct (i <? length input)%nat; [|exact H].
  destruct (body input i st) as [i' st'|text st'|code st']; try exact H.
  apply IH with (fuel' := fuel') in H; [exact H | lia].
Qed.

(** A result obtained from a position the loop reaches is the result of
    the whole call. *)
Lemma reaches_result (input : jsstring) (st0 : state) (i : nat) (st : state) :
  reaches input st0 i st ->
  forall (fuel : nat) (o : outcome),
    loop fuel input i st = Some o -> onData input st0 = Some o.
Proof.
  induction 1 as [|i st i' st' _ IH Hlt Hb]; intros fuel o Hl.
  - pose proof (onData_decode input st0) as Hd.
    unfold onData in Hd.
    apply loop_more_fuel with (fuel' := (fuel + S (length input))%nat) in Hl;
      [|lia].
    apply loop_more_fuel with (fuel' := (fuel + S (length input))%nat) in Hd;
      [|lia].
    rewrite onData_decode; congruence.
  - apply (IH (S fuel)).
    cbn [loop].
    apply Nat.ltb_lt in Hlt; rewrite Hlt, Hb; exact Hl.
Qed.

(** The recursion on the rest of the chunk recognises the keys of
    [events] and runs their branches in order. *)
Lemma decode_events_bounded (n : nat) :
  forall (rest : jsstring) (st : state),
    (length rest <= n)%nat ->
    decode rest st = applyAll (events rest) st.
Proof.
  induction n as [|n IH]; intros rest st Hn.
  - destruct rest; [reflexivity | simpl in Hn; lia].
  - destruct rest as [|c tl]; [reflexivity|].
    simpl in Hn. cbn [decode events].
    destruct (c =? 3); [reflexivity|].
    destruct (c =? 13).
    { destruct tl as [|d tl']; cbn [applyAll apply].
      - destruct (enter st); reflexivity.
      - destruct (enter st) as [text st'|st']; [reflexivity|].
        destruct (d =? 10); apply IH; simpl in *; lia. }
    destruct (c =? 10); [cbn [applyAll apply]; apply IH; lia|].
    destruct ((c =? 8) || (c =? 127)); [cbn [applyAll apply]; apply IH; lia|].
    destruct ((32 <=? c) && (c <=? 126));
      [cbn [applyAll apply]; apply IH; lia|].
    destruct (c =? 27); [|apply IH; lia].
    destruct tl as [|d [|key tl']]; try (apply IH; simpl in *; lia).
    destruct (d =? 91); [|apply IH; simpl in *; lia].
    unfold arrow, codeIs.
    destruct (key =? 68) eqn:E68.
    { apply Z.eqb_eq in E68; subst key; cbn [applyAll apply].
      rewrite <- IH by (simpl in *; lia). reflexivity. }
    destruct (key =? 67) eqn:E67.
    { apply Z.eqb_eq in E67; subst key; cbn [applyAll apply].
      rewrite <- IH by (simpl in *; lia). reflexivity. }
    destruct (key =? 65) eqn:E65.
    { apply Z.eqb_eq in E65; subst key; cbn [applyAll apply].
      rewrite <- IH by (simpl in *; lia). reflexivity. }
    destruct (key =? 66) eqn:E66.
    { apply Z.eqb_eq in E66; subst key; cbn [applyAll apply].
      rewrite <- IH by (simpl in *; lia). reflexivity. }
    apply IH; simpl in *; lia.
Qed.

Lemma decode_events (rest : jsstring) (st : state) :
  decode rest st = applyAll (events rest) st.
Proof. apply (decode_events_bounded (length rest)); lia. Qed.

End LoopFacts.

(* ------------------------------------------------------------------ *)
(** ** The branches of the line editor                                 *)
(* ------------------------------------------------------------------ *)

Module EditorFacts.

Import LineEditor JSFacts LoopFacts.

(** [moveBack] only writes. *)
Lemma moveBack_line (st : state) :
  currentLine (moveBack st) = currentLine st /\
  cursorPos (moveBack st) = cursorPos st /\
  inputBuffer (moveBack st) = inputBuffer st.
Proof. unfold moveBack; destruct (0 <? _); simpl; auto. Qed.

Lemma moveBack_terminal (st : state) :
  rawMode (moveBack st) = rawMode st /\
  listening (moveBack st) = listening st /\
  originalRawMode (moveBack st) = originalRawMode st.
Proof. unfold moveBack; destruct (0 <? _); simpl; auto. Qed.

(** Insertion splices the character in at the cursor. *)
Lemma printable_line (c : Z) (st : state) :
  cursorInLine st ->
  currentLine (printable [c] st) =
    firstn (Z.to_nat (cursorPos st)) (currentLine st) ++
    c :: skipn (Z.to_nat (cursorPos st)) (currentLine st) /\
  cursorPos (printable [c] st) = cursorPos st + 1 /\
  inputBuffer (printable [c] st) = inputBuffer st.
Proof.
  intros H; unfold printable.
  destruct (moveBack_line
    (write ([c] ++ slice (currentLine (withLine
        (slice (currentLine st) 0 (Some (cursorPos st)) ++
         [c] ++ slice (currentLine st) (cursorPos st) None)
        (cursorPos st + 1) st))
        (cursorPos (withLine
        (slice (currentLine st) 0 (Some (cursorPos st)) ++
         [c] ++ slice (currentLine st) (cursorPos st) None)
        (cursorPos st + 1) st)) None)
      (withLine
        (slice (currentLine st) 0 (Some (cursorPos st)) ++
         [c] ++ slice (currentLine st) (cursorPos st) None)
        (cursorPos st + 1) st))) as [E1 [E2 E3]].
  rewrite E1, E2, E3; simpl.
  rewrite slice_prefix, slice_suffix by exact H.
  auto.
Qed.

(** Backspace with the cursor inside a non-empty prefix removes the
    character before it. *)
Lemma backspace_line (st : state) :
  0 < cursorPos st <= Z.of_nat (length (currentLine st)) ->
  currentLine (backspace st) =
    firstn (Z.to_nat (cursorPos st - 1)) (currentLine st) ++
    skipn (Z.to_nat (cursorPos st)) (currentLine st) /\
  cursorPos (backspace st) = cursorPos st - 1 /\
  inputBuffer (backspace st) = inputBuffer st.
Proof.
  intros H; unfold backspace.
  replace (0 <? Z.of_nat (length (currentLine st))) with true
    by (symmetry; apply Z.ltb_lt; lia).
  replace (0 <? cursorPos st) with true by (symmetry; apply Z.ltb_lt; lia).
  cbn [andb].
  match goal with
  | |- currentLine (moveBack ?s) = _ /\ _ =>
      destruct (moveBack_line s) as [E1 [E2 E3]]
  end.
  rewrite E1, E2, E3; simpl.
  rewrite slice_prefix, slice_suffix by lia.
  auto.
Qed.

Lemma backspace_at_start (st : state) :
  cursorPos st <= 0 -> backspace st = st.
Proof.
  intros H; unfold backspace.
  replace (0 <? cursorPos st) with false by (symmetry; apply Z.ltb_ge; lia).
  rewrite andb_false_r; reflexivity.
Qed.

Lemma length_splice (l : jsstring) (n : nat) (c : Z) :
  length (firstn n l ++ c :: skipn n l) = S (length l).
Proof.
  rewrite length_app; simpl.
  rewrite length_firstn, length_skipn; lia.
Qed.

Lemma length_cut (l : jsstring) (n : nat) :
  (n < length l)%nat ->
  length (firstn n l ++ skipn (S n) l) = (length l - 1)%nat.
Proof.
  intros H; rewrite length_app, length_firstn, length_skipn; lia.
Qed.

(** *** The cursor stays inside the current line *)

Lemma printable_cursor (c : Z) (st : state) :
  cursorInLine st -> cursorInLine (printable [c] st).
Proof.
  intros H; destruct (printable_line c st H) as [E1 [E2 _]].
  unfold cursorInLine in *; rewrite E1, E2, length_splice; lia.
Qed.

Lemma backspace_cursor (st : state) :
  cursorInLine st -> cursorInLine (backspace st).
Proof.
  intros H; unfold cursorInLine in H.
  destruct (Z_le_gt_dec (cursorPos st) 0) as [Hz|Hp].
  - rewrite backspace_at_start by exact Hz; exact H.
  - destruct (backspace_line st) as [E1 [E2 _]]; [lia|].
    unfold cursorInLine; rewrite E1, E2.
    replace (Z.to_nat (cursorPos st)) with (S (Z.to_nat (cursorPos st - 1)))
      by lia.
    rewrite length_cut by lia; lia.
Qed.

Lemma lineFeed_cursor (st : state) : cursorInLine (lineFeed st).
Proof. unfold cursorInLine; simpl; lia. Qed.

Lemma arrow_cursor (key : option Z) (st : state) :
  cursorInLine st -> cursorInLine (arrow key st).
Proof.
  unfold cursorInLine, arrow; intros H.
  destruct (codeIs key 68).
  - destruct (0 <? cursorPos st) eqn:E; simpl; [apply Z.ltb_lt in E; lia | exact H].
  - destruct (codeIs key 67); [|exact H].
    destruct (cursorPos st <? _) eqn:E; simpl;
      [apply Z.ltb_lt in E; lia | exact H].
Qed.

Lemma enter_cursor (st : state) :
  cursorInLine st ->
  match enter st with
  | Committed _ st' => cursorInLine st'
  | Absorbed st' => cursorInLine st'
  end.
Proof.
  intros H; unfold enter.
  destruct (negb (jseq (trim (currentLine st)) []) ||
            negb (jseq (inputBuffer st) []));
    match goal with
    | |- context [if ?b then Committed _ _ else _] => destruct b
    end; unfold cursorInLine; simpl; try exact H; lia.
Qed.

Lemma ctrlC_line (st : state) :
  currentLine (ctrlC st) = currentLine st /\
  cursorPos (ctrlC st) = cursorPos st /\
  inputBuffer (ctrlC st) = inputBuffer st.
Proof. unfold ctrlC; simpl; auto. Qed.

Lemma apply_cursor (e : InputEvent) (st : state) :
  cursorInLine st -> cursorInLine (stateOf (apply e st)).
Proof.
  intros H; destruct e; simpl;
    auto using printable_cursor, backspace_cursor, lineFeed_cursor,
               arrow_cursor.
  pose proof (enter_cursor st H) as He.
  destruct (enter st); exact He.
Qed.

Lemma applyAll_cursor (evs : list InputEvent) :
  forall st, cursorInLine st -> cursorInLine (stateOf (applyAll evs st)).
Proof.
  induction evs as [|e evs IH]; intros st H; simpl; [exact H|].
  pose proof (apply_cursor e st H) as He.
  destruct (apply e st) as [st'|text st'|code st']; simpl in *;
    [apply IH; exact He | exact He | exact He].
Qed.

Lemma initial_cursor (isRaw : bool) : cursorInLine (initial isRaw).
Proof. unfold cursorInLine; simpl; lia. Qed.

(** A whole session always ends with a result, and the cursor is inside
    the line in the state it carries. *)
Lemma feed_cursor (chunks : list jsstring) :
  forall st, cursorInLine st ->
    exists o, feed chunks st = Some o /\ cursorInLine (stateOf o).
Proof.
  induction chunks as [|input chunks IH]; intros st H; simpl.
  - exists (Pending st); auto.
  - rewrite onData_decode, decode_events.
    pose proof (applyAll_cursor (events input) st H) as Hc.
    destruct (applyAll (events input) st) as [st'|text st'|code st'];
      simpl in Hc.
    + apply IH; exact Hc.
    + eexists; split; [reflexivity | exact Hc].
    + eexists; split; [reflexivity | exact Hc].
Qed.

(** *** What Enter resolves with *)

Lemma enter_committed (st : state) (text : jsstring) (st' : state) :
  enter st = Committed text st' ->
  text = trim (addLine (inputBuffer st) (currentLine st)) /\
  text <> [] /\
  st' = write LF (cleanup (withBuffer (addLine (inputBuffer st) (currentLine st)) st)).
Proof.
  unfold enter.
  destruct (negb (jseq (trim (currentLine st)) []) ||
            negb (jseq (inputBuffer st) [])) eqn:U.
  - cbn [withBuffer inputBuffer].
    destruct (jseq (trim (addLine (inputBuffer st) (currentLine st))) [])
      eqn:T; cbn [negb]; [discriminate|].
    intros [= <- <-]. apply jseq_nil_false in T. auto.
  - apply orb_false_iff in U; destruct U as [U1 U2].
    apply negb_false_iff, jseq_nil in U1.
    apply negb_false_iff, jseq_nil in U2.
    rewrite U2; simpl. discriminate.
Qed.

Lemma applyAll_resolved (evs : list InputEvent) :
  forall st text st',
    applyAll evs st = Resolved text st' ->
    exists s, text = trim s /\ text <> [].
Proof.
  induction evs as [|e evs IH]; intros st text st' H; simpl in H;
    [discriminate|].
  destruct (apply e st) as [s1|t1 s1|c1 s1] eqn:A.
  - eapply IH; exact H.
  - injection H as <- <-.
    destruct e; simpl in A; try discriminate.
    destruct (enter st) as [t2 s2|s2] eqn:E; [|discriminate].
    injection A as <- <-.
    apply enter_committed in E; destruct E as [E1 [E2 _]].
    eexists; split; [exact E1 | exact E2].
  - discriminate.
Qed.

Lemma feed_resolved (chunks : list jsstring) :
  forall st text st',
    feed chunks st = Some (Resolved text st') ->
    exists s, text = trim s /\ text <> [].
Proof.
  induction chunks as [|input chunks IH]; intros st text st' H; simpl in H;
    [discriminate|].
  rewrite onData_decode, decode_events in H.
  destruct (applyAll (events input) st) as [s1|t1 s1|c1 s1] eqn:A.
  - eapply IH; exact H.
  - injection H as <- <-. eapply applyAll_resolved; exact A.
  - discriminate.
Qed.

End EditorFacts.

(* ------------------------------------------------------------------ *)
(** ** Properties of the specification                                 *)
(* ------------------------------------------------------------------ *)

Import LineEditor JSFacts LoopFacts EditorFacts.

(** *** Submit *)

(** Joining the buffer's lines and the current line gives what Enter
    stores in the buffer. *)
Lemma join_content (st : state) :
  join LF (committedLines st ++ [currentLine st]) =
  addLine (inputBuffer st) (currentLine st).
Proof.
  unfold committedLines, addLine.
  destruct (jseq (inputBuffer st) []); [reflexivity|].
  rewrite join_snoc by apply splitLines_nonempty.
  rewrite join_splitLines; reflexivity.
Qed.

Lemma nonBlank_content (st : state) :
  Exists nonBlank (committedLines st ++ [currentLine st]) <->
  trim (addLine (inputBuffer st) (currentLine st)) <> [].
Proof.
  rewrite trim_nonempty_iff, Exists_app, Exists_cons, Exists_nil.
  unfold committedLines, addLine, nonBlank.
  destruct (jseq (inputBuffer st) []).
  - rewrite Exists_nil; tauto.
  - rewrite <- nonws_splitLines, !Exists_app.
    unfold LF; rewrite Exists_cons, Exists_nil.
    change (isWhiteSpace 10) with true.
    split; [tauto|]. intros [H|[[H|[]]|H]]; [tauto | discriminate | tauto].
Qed.

Lemma blank_content (st : state) :
  Forall blank (committedLines st ++ [currentLine st]) <->
  trim (addLine (inputBuffer st) (currentLine st)) = [].
Proof.
  split.
  - intros F. destruct (trim (addLine _ _)) eqn:E; [reflexivity|].
    assert (N : trim (addLine (inputBuffer st) (currentLine st)) <> [])
      by (rewrite E; discriminate).
    apply nonBlank_content, Exists_exists in N.
    destruct N as [l [Hin Hl]].
    rewrite Forall_forall in F; specialize (F l Hin).
    apply not_blank_nonws in Hl; contradiction.
  - intros E; apply Forall_forall; intros l Hin.
    destruct (Forall_Exists_dec (fun c => isWhiteSpace c = true)
                (fun c => bool_dec (isWhiteSpace c) true) l) as [B|N];
      [exact B|].
    exfalso.
    assert (X : Exists nonBlank (committedLines st ++ [currentLine st])).
    { apply Exists_exists; exists l; split; [exact Hin|].
      unfold nonBlank; eapply Exists_impl; [|exact N].
      simpl; intros c Hc; destruct (isWhiteSpace c); congruence. }
    apply nonBlank_content in X; contradiction.
Qed.

(** C1, as the code has it: Submit resolves the read exactly when the
    current line or a line of the buffer has a character that is not white
    space; it then stores the current line in the buffer and resolves with
    the buffer's lines and the current line joined by line feeds, trimmed.
    When every line is blank nothing is returned and the prompt is written
    again, but the editor does not stay as it was: the current line is
    emptied and the cursor goes back to column 0 (the buffer stays blank).
    The bytes "Hi", LF, "there", CR resolve the read with "Hi\nthere". *)
Theorem submit_commits_or_absorbs (st : state) :
  let content := committedLines st ++ [currentLine st] in
  (Exists nonBlank content \/ Forall blank content) /\
  (Exists nonBlank content ->
     apply Submit st =
       Resolved (trim (join LF content))
                (write LF (cleanup (withBuffer (join LF content) st)))) /\
  (Forall blank content ->
     exists st',
       apply Submit st = Pending st' /\
       currentLine st' = [] /\ cursorPos st' = 0 /\
       blank (inputBuffer st') /\
       output st' = output st ++ [StdoutWrite (LF ++ getUserPrompt)] /\
       rawMode st' = rawMode st /\ listening st' = listening st) /\
  (forall isRaw, exists st',
     getMultiLineInput isRaw [js "Hi" ++ LF ++ js "there" ++ CR] =
       Some (Resolved (js "Hi" ++ LF ++ js "there") st')).
Proof.
  intros content; unfold content.
  split; [|split; [|split]].
  - destruct (trim (addLine (inputBuffer st) (currentLine st))) eqn:E.
    + right; apply blank_content; exact E.
    + left; apply nonBlank_content; rewrite E; discriminate.
  - intros N; apply nonBlank_content in N.
    rewrite join_content; cbn [apply]; unfold enter.
    destruct (negb (jseq (trim (currentLine st)) []) ||
              negb (jseq (inputBuffer st) [])) eqn:U.
    + cbn [withBuffer inputBuffer].
      apply jseq_nil_false in N; rewrite N; reflexivity.
    + apply orb_false_iff in U; destruct U as [U1 U2].
      apply negb_false_iff, jseq_nil in U1.
      apply negb_false_iff in U2.
      unfold addLine in N; rewrite U2 in N; contradiction.
  - intros B; apply blank_content in B.
    cbn [apply]; unfold enter.
    destruct (negb (jseq (trim (currentLine st)) []) ||
              negb (jseq (inputBuffer st) [])) eqn:U.
    + cbn [withBuffer inputBuffer].
      rewrite B; cbn [jseq negb].
      eexists; split; [reflexivity|]; simpl.
      repeat split; try reflexivity.
      apply trim_nil_iff; exact B.
    + apply orb_false_iff in U; destruct U as [_ U2].
      apply negb_false_iff, jseq_nil in U2.
      rewrite U2; cbn [trim trimStart trimEnd rev jseq negb].
      eexists; split; [reflexivity|]; simpl.
      rewrite U2; repeat split; try reflexivity. constructor.
  - intros [|]; eexists; vm_compute; reflexivity.
Qed.

Lemma submit_commits_or_absorbs_witness :
  (Exists nonBlank (committedLines typedHi ++ [currentLine typedHi]) /\
   apply Submit typedHi =
     Resolved (js "Hi") (write LF (cleanup (withBuffer (js "Hi") typedHi)))) /\
  (Forall blank (committedLines typedSpaces ++ [currentLine typedSpaces]) /\
   exists st',
     apply Submit typedSpaces = Pending st' /\
     currentLine st' = [] /\ cursorPos st' = 0 /\
     blank (inputBuffer st') /\
     output st' = output typedSpaces ++ [StdoutWrite (LF ++ getUserPrompt)] /\
     rawMode st' = rawMode typedSpaces /\
     listening st' = listening typedSpaces).
Proof.
  assert (N : Exists nonBlank (committedLines typedHi ++ [currentLine typedHi]))
    by (do 2 constructor; reflexivity).
  assert (B : Forall blank
                (committedLines typedSpaces ++ [currentLine typedSpaces]))
    by (repeat constructor).
  split; split.
  - exact N.
  - exact (proj1 (proj2 (submit_commits_or_absorbs typedHi)) N).
  - exact B.
  - exact (proj1 (proj2 (proj2 (submit_commits_or_absorbs typedSpaces))) B).
Defined.

(** C1 as stated fails: after two spaces have been typed every line is
    blank, and Submit, though it returns nothing, empties the current line
    and moves the cursor from column 2 to column 0. *)
Lemma submit_on_blank_line_changes_it :
  getMultiLineInput false [js "  "] = Some (Pending typedSpaces) /\
  Forall blank (committedLines typedSpaces ++ [currentLine typedSpaces]) /\
  currentLine typedSpaces = js "  " /\ cursorPos typedSpaces = 2 /\
  exists st',
    apply Submit typedSpaces = Pending st' /\
    currentLine st' = [] /\ cursorPos st' = 0 /\
    currentLine st' <> currentLine typedSpaces /\
    cursorPos st' <> cursorPos typedSpaces.
Proof.
  split; [vm_compute; reflexivity|].
  split; [repeat constructor|].
  split; [reflexivity|]. split; [reflexivity|].
  eexists; split; [vm_compute; reflexivity|].
  simpl; repeat split; discriminate.
Qed.

(** The spaces dropped by an absorbed Submit are missing from what is
    returned later: two spaces, CR, "a", Left, Left, "b", CR resolve with
    "ba", the "b" landing before the "a" and no space between them. *)
Lemma absorbed_submit_is_observable :
  exists st',
    getMultiLineInput false
      [js "  " ++ CR ++ js "a" ++ ESC ++ js "[D" ++ ESC ++ js "[D" ++
       js "b" ++ CR] = Some (Resolved (js "ba") st').
Proof. eexists; vm_compute; reflexivity. Qed.

(** *** Escape sequences *)

Lemma nth_error_in_range (input : jsstring) (i : nat) (c : Z) :
  nth_error input i = Some c -> (i <? length input)%nat = true.
Proof.
  intros H; apply Nat.ltb_lt, nth_error_Some; congruence.
Qed.

Lemma skipn_past (pre rest : jsstring) (k : nat) :
  skipn (length pre + k) (pre ++ rest) = skipn k rest.
Proof. induction pre as [|a pre IH]; [reflexivity | exact IH]. Qed.

Lemma skipn_pre (pre rest : jsstring) :
  skipn (length pre) (pre ++ rest) = rest.
Proof. induction pre as [|a pre IH]; [reflexivity | exact IH]. Qed.

Lemma in_chunk (pre : jsstring) (c : Z) (tl : jsstring) :
  (length pre <? length (pre ++ c :: tl))%nat = true.
Proof. apply Nat.ltb_lt; rewrite length_app; simpl; lia. Qed.

(** The turn of the loop at an ESC, and the keys recognised from it on,
    by what follows the ESC in the chunk. *)
Lemma escape_turn (pre tl : jsstring) (st : state) :
  body (pre ++ 27 :: tl) (length pre) st =
  match tl with
  | d :: key :: _ =>
      if d =? 91 then Next (length pre + 2) (arrow (Some key) st)
      else Next (length pre) st
  | _ => Next (length pre) st
  end.
Proof. rewrite LoopFacts.body_at; reflexivity. Qed.

Lemma arrow_other (key : Z) (st : state) :
  ~ 65 <= key <= 68 -> arrow (Some key) st = st.
Proof.
  intros K; unfold arrow; cbn [codeIs].
  destruct (key =? 68) eqn:E68; [apply Z.eqb_eq in E68; lia|].
  destruct (key =? 67) eqn:E67; [apply Z.eqb_eq in E67; lia|].
  reflexivity.
Qed.

Lemma events_other (key : Z) (tl : jsstring) :
  ~ 65 <= key <= 68 -> events (27 :: 91 :: key :: tl) = events tl.
Proof.
  intros K; cbn [events].
  change (27 =? 3) with false; change (27 =? 13) with false.
  change (27 =? 10) with false; change (27 =? 8) with false.
  change (27 =? 127) with false; change (32 <=? 27) with false.
  change (27 =? 27) with true; change (91 =? 91) with true; cbn [orb andb].
  destruct (key =? 68) eqn:E68; [apply Z.eqb_eq in E68; lia|].
  destruct (key =? 67) eqn:E67; [apply Z.eqb_eq in E67; lia|].
  destruct (key =? 65) eqn:E65; [apply Z.eqb_eq in E65; lia|].
  destruct (key =? 66) eqn:E66; [apply Z.eqb_eq in E66; lia|].
  reflexivity.
Qed.

(** At an ESC followed by '[' and a code that is not an arrow, the three
    codes are skipped and nothing changes. *)
Lemma escape_skips_three (input : jsstring) (i : nat) (st : state) :
  nth_error input i = Some 27 ->
  ~ (nth_error input (i + 1) = Some 91 /\
     exists key, nth_error input (i + 2) = Some key /\ 65 <= key <= 68) ->
  nth_error input (i + 1) = Some 91 -> (i + 2 < length input)%nat ->
  body input i st = Next (i + 2) st /\
  (forall fuel, loop (S fuel) input i st = loop fuel input (i + 3) st) /\
  events (skipn i input) = events (skipn (i + 3) input).
Proof.
  intros H27 Hno.
  destruct (nth_error_split _ _ H27) as (pre & tl & -> & <-).
  rewrite !LoopFacts.nth_error_past in Hno.
  rewrite !LoopFacts.nth_error_past, !skipn_past, skipn_pre.
  rewrite length_app; cbn [nth_error length skipn] in *.
  intros H91 L.
  destruct tl as [|d [|key tl']]; cbn [length] in L; try lia.
  cbn [nth_error] in H91, Hno; injection H91 as ->.
  assert (K : ~ 65 <= key <= 68)
    by (intros K; apply Hno; split; [reflexivity|];
        exists key; split; [reflexivity | exact K]).
  assert (B : body (pre ++ 27 :: 91 :: key :: tl') (length pre) st =
              Next (length pre + 2) st).
  { rewrite escape_turn; change (91 =? 91) with true; cbn iota.
    rewrite (arrow_other key st K); reflexivity. }
  split; [exact B|]. split.
  - intros fuel; cbn [loop]; rewrite in_chunk, B.
    f_equal; lia.
  - cbn [skipn]; apply events_other; exact K.
Qed.

(** C2, as the code has it: wherever the loop finds an ESC that does not
    start ESC, '[', and one of 'A' to 'D' inside the chunk, the turn ends
    normally with the editor, the terminal and the output exactly as they
    were, and no key is recognised.  What is dropped is the ESC with the
    two codes after it when the first is '[' and the second is in the
    chunk, and the ESC alone otherwise; the loop goes on with the code
    right after what was dropped. *)
Theorem unmatched_escape_is_dropped
  (input : jsstring) (i : nat) (st : state) :
  nth_error input i = Some 27 ->
  ~ (nth_error input (i + 1) = Some 91 /\
     exists key, nth_error input (i + 2) = Some key /\ 65 <= key <= 68) ->
  (nth_error input (i + 1) = Some 91 -> (i + 2 < length input)%nat ->
   body input i st = Next (i + 2) st /\
   (forall fuel, loop (S fuel) input i st = loop fuel input (i + 3) st) /\
   events (skipn i input) = events (skipn (i + 3) input)) /\
  (nth_error input (i + 1) <> Some 91 \/ (length input <= i + 2)%nat ->
   body input i st = Next i st /\
   (forall fuel, loop (S fuel) input i st = loop fuel input (i + 1) st) /\
   events (skipn i input) = events (skipn (i + 1) input)).
Proof.
  intros H27 Hno.
  split; [exact (escape_skips_three input i st H27 Hno)|].
  destruct (nth_error_split _ _ H27) as (pre & tl & -> & <-).
  rewrite !LoopFacts.nth_error_past, !skipn_past, skipn_pre.
  rewrite length_app; cbn [nth_error length skipn] in *.
  intros O.
  assert (B : body (pre ++ 27 :: tl) (length pre) st = Next (length pre) st).
  { rewrite escape_turn.
    destruct tl as [|d [|key tl']]; try reflexivity.
    destruct (d =? 91) eqn:E91; [|reflexivity].
    apply Z.eqb_eq in E91; subst d.
    destruct O as [O|O]; [exfalso; apply O; reflexivity|].
    cbn [length] in O; lia. }
  split; [exact B|]. split.
  - intros fuel; cbn [loop]; rewrite in_chunk, B.
    f_equal; lia.
  - cbn [events].
    change (27 =? 3) with false; change (27 =? 13) with false.
    change (27 =? 10) with false; change (27 =? 8) with false.
    change (27 =? 127) with false; change (32 <=? 27) with false.
    change (27 =? 27) with true; cbn [orb andb].
    destruct tl as [|d [|key tl']]; try reflexivity.
    destruct (d =? 91) eqn:E91; [|reflexivity].
    apply Z.eqb_eq in E91; subst d.
    destruct O as [O|O]; [exfalso; apply O; reflexivity|].
    cbn [length] in O; lia.
Qed.

Lemma unmatched_escape_is_dropped_witness :
  (nth_error (js "a" ++ ESC ++ js "[Zb") 1 = Some 27 /\
   nth_error (js "a" ++ ESC ++ js "[Zb") (1 + 1) = Some 91 /\
   (1 + 2 < length (js "a" ++ ESC ++ js "[Zb"))%nat /\
   body (js "a" ++ ESC ++ js "[Zb") 1 typedHi = Next (1 + 2) typedHi /\
   events (skipn 1 (js "a" ++ ESC ++ js "[Zb")) =
     events (skipn (1 + 3) (js "a" ++ ESC ++ js "[Zb"))) /\
  (nth_error (js "a" ++ ESC ++ js "OA") 1 = Some 27 /\
   nth_error (js "a" ++ ESC ++ js "OA") (1 + 1) <> Some 91 /\
   body (js "a" ++ ESC ++ js "OA") 1 typedHi = Next 1 typedHi /\
   events (skipn 1 (js "a" ++ ESC ++ js "OA")) =
     events (skipn (1 + 1) (js "a" ++ ESC ++ js "OA"))).
Proof.
  assert (L : (1 + 2 < length (js "a" ++ ESC ++ js "[Zb"))%nat)
    by (vm_compute; lia).
  assert (N1 : ~ (nth_error (js "a" ++ ESC ++ js "[Zb") (1 + 1) = Some 91 /\
                  exists key,
                    nth_error (js "a" ++ ESC ++ js "[Zb") (1 + 2) = Some key /\
                    65 <= key <= 68))
    by (intros [_ [key [K R]]]; vm_compute in K; injection K as <-; lia).
  assert (O : nth_error (js "a" ++ ESC ++ js "OA") (1 + 1) <> Some 91)
    by (vm_compute; discriminate).
  assert (N2 : ~ (nth_error (js "a" ++ ESC ++ js "OA") (1 + 1) = Some 91 /\
                  exists key,
                    nth_error (js "a" ++ ESC ++ js "OA") (1 + 2) = Some key /\
                    65 <= key <= 68))
    by (intros [K _]; exact (O K)).
  split.
  - split; [reflexivity|]. split; [reflexivity|]. split; [exact L|].
    pose proof (proj1 (unmatched_escape_is_dropped
                         (js "a" ++ ESC ++ js "[Zb") 1 typedHi eq_refl N1)
                      eq_refl L) as D.
    split; [exact (proj1 D) | exact (proj2 (proj2 D))].
  - split; [reflexivity|]. split; [exact O|].
    pose proof (proj2 (unmatched_escape_is_dropped
                         (js "a" ++ ESC ++ js "OA") 1 typedHi eq_refl N2)
                      (or_introl O)) as D.
    split; [exact (proj1 D) | exact (proj2 (proj2 D))].
Defined.

(** C2 as stated fails for what follows the ESC: only the ESC, or the ESC
    with '[' and one more code, is dropped, and the rest of an escape
    sequence is typed.  ESC, 'O', 'A' (the cursor key in application mode)
    inserts "OA", which Enter then returns; ESC, '[', '1', ';', '5', 'C'
    (Ctrl+Right) inserts ";5C". *)
Lemma escape_remainder_is_typed :
  nth_error (ESC ++ js "OA") 0 = Some 27 /\
  nth_error (ESC ++ js "OA") 1 <> Some 91 /\
  events (ESC ++ js "OA") = [InsertChar 79; InsertChar 65] /\
  (exists st',
     onData (ESC ++ js "OA") (initial false) = Some (Pending st') /\
     currentLine st' = js "OA" /\ cursorPos st' = 2) /\
  nth_error (ESC ++ js "[1;5C") 0 = Some 27 /\
  nth_error (ESC ++ js "[1;5C") 1 = Some 91 /\
  nth_error (ESC ++ js "[1;5C") 2 = Some 49 /\
  events (ESC ++ js "[1;5C") =
    [InsertChar 59; InsertChar 53; InsertChar 67] /\
  (exists st',
     onData (ESC ++ js "[1;5C") (initial false) = Some (Pending st') /\
     currentLine st' = js ";5C" /\ cursorPos st' = 3) /\
  (exists st',
     getMultiLineInput false [ESC ++ js "OA" ++ CR] =
       Some (Resolved (js "OA") st')).
Proof.
  split; [reflexivity|]. split; [vm_compute; discriminate|].
  split; [reflexivity|].
  split; [eexists; split; [vm_compute; reflexivity | split; reflexivity]|].
  split; [reflexivity|]. split; [reflexivity|]. split; [reflexivity|].
  split; [reflexivity|].
  split; [eexists; split; [vm_compute; reflexivity | split; reflexivity]|].
  eexists; vm_compute; reflexivity.
Qed.

(** *** Enter and line feed *)

(** C3, as the code has it: when the loop is at a CR followed by an LF,
    Submit runs once and the LF is consumed with it, yielding no NewLine;
    unless the Submit resolved the read, which ends the handler, the loop
    goes on after the LF.  When the loop is at an LF, NewLine is the key:
    the current line is stored in the buffer and a new empty line is
    started, and nothing is submitted.  When the loop is at an ESC followed
    by '[', the code after the '[' is skipped with them: a CR or an LF in
    that place yields no key and changes nothing. *)
Theorem enter_line_feed_is_one_submit
  (input : jsstring) (i : nat) (st : state) :
  (nth_error input i = Some 13 -> nth_error input (i + 1) = Some 10 ->
   (forall fuel,
      loop (S fuel) input i st =
        match apply Submit st with
        | Pending st' => loop fuel input (i + 2) st'
        | ended => Some ended
        end) /\
   events (skipn i input) = Submit :: events (skipn (i + 2) input)) /\
  (nth_error input i = Some 10 ->
   (forall fuel,
      loop (S fuel) input i st = loop fuel input (i + 1) (lineFeed st)) /\
   events (skipn i input) = NewLine :: events (skipn (i + 1) input)) /\
  (nth_error input i = Some 27 -> nth_error input (i + 1) = Some 91 ->
   nth_error input (i + 2) = Some 13 \/ nth_error input (i + 2) = Some 10 ->
   (forall fuel, loop (S fuel) input i st = loop fuel input (i + 3) st) /\
   events (skipn i input) = events (skipn (i + 3) input)) /\
  apply NewLine st = Pending (lineFeed st) /\
  inputBuffer (lineFeed st) = addLine (inputBuffer st) (currentLine st) /\
  currentLine (lineFeed st) = [] /\
  cursorPos (lineFeed st) = 0 /\
  rawMode (lineFeed st) = rawMode st /\
  listening (lineFeed st) = listening st /\
  output (lineFeed st) = output st ++ [StdoutWrite (LF ++ js "  > ")].
Proof.
  split; [|split; [|split; [|repeat split]]].
  - intros H13 H10; split.
    + intros fuel; cbn [loop apply].
      rewrite (nth_error_in_range _ _ _ H13).
      unfold body, charCodeAt; rewrite H13, H10; cbn [codeIs].
      change (13 =? 3) with false; change (13 =? 13) with true; cbn iota.
      rewrite (nth_error_in_range _ _ _ H10); cbn [codeIs].
      change (10 =? 10) with true; cbn iota.
      destruct (enter st) as [text st'|st']; [reflexivity|].
      f_equal; lia.
    + destruct (nth_error_split _ _ H13) as (pre & tl & -> & <-).
      rewrite LoopFacts.nth_error_past in H10.
      rewrite skipn_past, skipn_pre.
      destruct tl as [|d tl']; [discriminate|].
      cbn [nth_error] in H10; injection H10 as ->.
      reflexivity.
  - intros H10; split.
    + intros fuel; cbn [loop].
      rewrite (nth_error_in_range _ _ _ H10).
      unfold body, charCodeAt; rewrite H10; cbn [codeIs].
      change (10 =? 3) with false; change (10 =? 13) with false.
      change (10 =? 10) with true; cbn iota.
      f_equal; lia.
    + destruct (nth_error_split _ _ H10) as (pre & tl & -> & <-).
      rewrite skipn_past, skipn_pre; reflexivity.
  - intros H27 H91 K.
    assert (N : ~ (nth_error input (i + 1) = Some 91 /\
                   exists key,
                     nth_error input (i + 2) = Some key /\ 65 <= key <= 68))
      by (intros [_ [key [E R]]]; destruct K as [K|K];
          rewrite K in E; injection E as <-; lia).
    assert (L : (i + 2 < length input)%nat)
      by (apply nth_error_Some; destruct K as [K|K]; rewrite K; discriminate).
    destruct (escape_skips_three input i st H27 N H91 L) as [_ [S3 E3]].
    split; [exact S3 | exact E3].
Qed.

Lemma enter_line_feed_is_one_submit_witness :
  (nth_error (js "Hi" ++ CR ++ LF ++ js "x") 2 = Some 13 /\
   nth_error (js "Hi" ++ CR ++ LF ++ js "x") (2 + 1) = Some 10 /\
   loop 1 (js "Hi" ++ CR ++ LF ++ js "x") 2 typedHi =
     Some (Resolved (js "Hi")
             (write LF (cleanup (withBuffer (js "Hi") typedHi))))) /\
  (nth_error (js "Hi" ++ LF) 2 = Some 10 /\
   loop 2 (js "Hi" ++ LF) 2 typedHi = Some (Pending (lineFeed typedHi))) /\
  (nth_error (ESC ++ js "[" ++ LF) 0 = Some 27 /\
   nth_error (ESC ++ js "[" ++ LF) (0 + 1) = Some 91 /\
   nth_error (ESC ++ js "[" ++ LF) (0 + 2) = Some 10 /\
   loop 2 (ESC ++ js "[" ++ LF) 0 typedHi = Some (Pending typedHi) /\
   events (skipn 0 (ESC ++ js "[" ++ LF)) = []).
Proof.
  split; [|split].
  - split; [reflexivity|]. split; [reflexivity|].
    exact (proj1 (proj1 (enter_line_feed_is_one_submit
                           (js "Hi" ++ CR ++ LF ++ js "x") 2 typedHi)
                        eq_refl eq_refl) 0%nat).
  - split; [reflexivity|].
    exact (proj1 (proj1 (proj2 (enter_line_feed_is_one_submit
                                  (js "Hi" ++ LF) 2 typedHi))
                        eq_refl) 1%nat).
  - split; [reflexivity|]. split; [reflexivity|]. split; [reflexivity|].
    pose proof (proj1 (proj2 (proj2 (enter_line_feed_is_one_submit
                                       (ESC ++ js "[" ++ LF) 0 typedHi)))
                      eq_refl eq_refl (or_intror eq_refl)) as D.
    split; [exact (proj1 D 1%nat) | exact (proj2 D)].
Defined.

(** C3 as stated fails inside an escape sequence: in the chunk ESC, '[',
    LF the LF is not preceded by a CR and yet starts no new line, the
    editor being left as it was; and in ESC, '[', CR, LF the CR that is
    followed by LF submits nothing while the LF starts a new line. *)
Lemma line_feed_after_escape_bracket :
  nth_error (ESC ++ js "[" ++ LF) 2 = Some 10 /\
  nth_error (ESC ++ js "[" ++ LF) 1 = Some 91 /\
  onData (ESC ++ js "[" ++ LF) typedHi = Some (Pending typedHi) /\
  lineFeed typedHi <> typedHi /\
  nth_error (ESC ++ js "[" ++ CR ++ LF) 2 = Some 13 /\
  nth_error (ESC ++ js "[" ++ CR ++ LF) 3 = Some 10 /\
  onData (ESC ++ js "[" ++ CR ++ LF) typedHi = Some (Pending (lineFeed typedHi)) /\
  (exists text st', apply Submit typedHi = Resolved text st').
Proof.
  repeat split; try reflexivity.
  - vm_compute; discriminate.
  - eexists; eexists; vm_compute; reflexivity.
Qed.

(** *** Ctrl+C *)

(** C8, as the code has it: when the loop is at a code 3, Cancel is the
    last key of the chunk and the process exits at once; the rest of the
    chunk and every later chunk change nothing and write nothing, the
    editor keeps the text it had, the raw mode saved at entry is restored
    and the handler is unregistered, and the only output is the goodbye,
    the self-destruct notice and the client's cleanup.  When the code 3
    comes right after an ESC and a '[' the loop is at, it is skipped with
    them: it yields no key and the loop goes on after it. *)
Theorem ctrl_c_abandons_chunk (input : jsstring) (i : nat) (st : state) :
  nth_error input i = Some 3 ->
  (forall fuel, loop (S fuel) input i st = Some (Exited 0 (ctrlC st))) /\
  (forall st0, reaches input st0 i st ->
     forall later, feed (input :: later) st0 = Some (Exited 0 (ctrlC st))) /\
  events (skipn i input) = [Cancel] /\
  (forall j stj, (j + 2)%nat = i ->
     nth_error input j = Some 27 -> nth_error input (j + 1) = Some 91 ->
     (forall fuel, loop (S fuel) input j stj = loop fuel input (i + 1) stj) /\
     events (skipn j input) = events (skipn (i + 1) input)) /\
  inputBuffer (ctrlC st) = inputBuffer st /\
  currentLine (ctrlC st) = currentLine st /\
  cursorPos (ctrlC st) = cursorPos st /\
  rawMode (ctrlC st) = originalRawMode st /\
  listening (ctrlC st) = false /\
  output (ctrlC st) =
    output st ++
    [ShowGoodbye;
     ShowInfo (js "Self-destruct mode: Removing all traces...");
     ClientCleanup].
Proof.
  intros H3.
  assert (L : forall fuel,
             loop (S fuel) input i st = Some (Exited 0 (ctrlC st))).
  { intros fuel; cbn [loop].
    rewrite (nth_error_in_range _ _ _ H3).
    unfold body, charCodeAt; rewrite H3; reflexivity. }
  split; [exact L|]. split; [|split; [|split]].
  - intros st0 R later; cbn [feed].
    rewrite (reaches_result input st0 i st R 1%nat _ (L 0%nat)); reflexivity.
  - destruct (nth_error_split _ _ H3) as (pre & tl & -> & <-).
    rewrite skipn_pre; reflexivity.
  - intros j stj <- H27 H91.
    assert (N : ~ (nth_error input (j + 1) = Some 91 /\
                   exists key,
                     nth_error input (j + 2) = Some key /\ 65 <= key <= 68))
      by (intros [_ [key [E R]]]; rewrite H3 in E; injection E as <-; lia).
    assert (Lj : (j + 2 < length input)%nat)
      by (apply nth_error_Some; rewrite H3; discriminate).
    destruct (escape_skips_three input j stj H27 N H91 Lj) as [_ [S3 E3]].
    replace (j + 2 + 1)%nat with (j + 3)%nat by lia.
    split; [exact S3 | exact E3].
  - unfold ctrlC; simpl. rewrite <- !app_assoc. repeat split; reflexivity.
Qed.

Lemma ctrl_c_abandons_chunk_witness :
  nth_error (js "Hi" ++ [3] ++ js "zz") 2 = Some 3 /\
  reaches (js "Hi" ++ [3] ++ js "zz") (initial false) 2 typedHi /\
  feed [js "Hi" ++ [3] ++ js "zz"; js "more"] (initial false) =
    Some (Exited 0 (ctrlC typedHi)) /\
  nth_error (ESC ++ js "[" ++ [3] ++ js "z") 2 = Some 3 /\
  nth_error (ESC ++ js "[" ++ [3] ++ js "z") 0 = Some 27 /\
  nth_error (ESC ++ js "[" ++ [3] ++ js "z") (0 + 1) = Some 91 /\
  events (skipn 0 (ESC ++ js "[" ++ [3] ++ js "z")) = [InsertChar 122].
Proof.
  assert (R : reaches (js "Hi" ++ [3] ++ js "zz") (initial false) 2 typedHi).
  { apply (reaches_turn _ _ 1%nat (printable (js "H") (initial false)) 1%nat).
    - apply (reaches_turn _ _ 0%nat (initial false) 0%nat).
      + apply reaches_start.
      + vm_compute; lia.
      + reflexivity.
    - vm_compute; lia.
    - reflexivity. }
  split; [reflexivity|]. split; [exact R|]. split.
  - exact (proj1 (proj2 (ctrl_c_abandons_chunk
                           (js "Hi" ++ [3] ++ js "zz") 2 typedHi eq_refl))
                 (initial false) R [js "more"]).
  - split; [reflexivity|]. split; [reflexivity|]. split; [reflexivity|].
    exact (proj2 (proj1 (proj2 (proj2 (proj2 (ctrl_c_abandons_chunk
                           (ESC ++ js "[" ++ [3] ++ js "z") 2 typedHi
                           eq_refl))))
                        0%nat typedHi eq_refl eq_refl eq_refl)).
Defined.

(** C8 as stated fails inside an escape sequence: the chunk ESC, '[', 3
    contains the code 3, yet the handler returns with the read pending,
    the editor unchanged, raw mode on and the handler registered.  And
    what Ctrl+C restores is the mode saved at entry: entered with raw mode
    on, the editor leaves it on. *)
Lemma ctrl_c_after_escape_bracket :
  nth_error (ESC ++ js "[" ++ [3]) 2 = Some 3 /\
  onData (ESC ++ js "[" ++ [3]) typedHi = Some (Pending typedHi) /\
  rawMode typedHi = true /\ listening typedHi = true /\
  exists st',
    getMultiLineInput true [[3]] = Some (Exited 0 st') /\ rawMode st' = true.
Proof.
  repeat split; try reflexivity.
  eexists; split; reflexivity.
Qed.

(** *** The cursor *)

(** C4: in every state reached from a fresh editor by a sequence of keys
    the cursor is inside the current line; Left and Right move it by one,
    clamped to the line's bounds, without touching the line; every key keeps
    the bound; and so does every sequence of chunks, on which the handler
    always ends. *)
Theorem cursor_stays_in_line (isRaw : bool) (keys : list InputEvent) :
  let st := stateOf (applyAll keys (initial isRaw)) in
  0 <= cursorPos st <= Z.of_nat (length (currentLine st)) /\
  cursorPos (stateOf (apply CursorLeft st)) = Z.max 0 (cursorPos st - 1) /\
  cursorPos (stateOf (apply CursorRight st)) =
    Z.min (Z.of_nat (length (currentLine st))) (cursorPos st + 1) /\
  currentLine (stateOf (apply CursorLeft st)) = currentLine st /\
  currentLine (stateOf (apply CursorRight st)) = currentLine st /\
  (forall key, cursorInLine (stateOf (apply key st))) /\
  (forall chunks, exists o,
     getMultiLineInput isRaw chunks = Some o /\ cursorInLine (stateOf o)).
Proof.
  intros st.
  assert (H : cursorInLine st)
    by (apply applyAll_cursor, initial_cursor).
  split; [exact H|]. unfold cursorInLine in H.
  cbn [apply stateOf]; unfold arrow; cbn [codeIs].
  change (68 =? 68) with true; change (67 =? 68) with false.
  change (67 =? 67) with true; cbn iota.
  split; [|split; [|split; [|split; [|split]]]].
  - destruct (0 <? cursorPos st) eqn:E; simpl;
      [apply Z.ltb_lt in E | apply Z.ltb_ge in E]; lia.
  - destruct (cursorPos st <? _) eqn:E; simpl;
      [apply Z.ltb_lt in E | apply Z.ltb_ge in E]; lia.
  - destruct (0 <? cursorPos st); reflexivity.
  - destruct (cursorPos st <? _); reflexivity.
  - intros k; apply apply_cursor; exact H.
  - intros chunks; apply feed_cursor, initial_cursor.
Qed.

(** *** Backspace *)

Lemma cut_before (l : jsstring) (n : nat) :
  (n < length l)%nat ->
  exists c, l = firstn n l ++ c :: skipn (S n) l.
Proof.
  revert l; induction n as [|n IH]; intros [|x l] H; simpl in H; try lia.
  - exists x; reflexivity.
  - destruct (IH l) as [c E]; [lia|].
    exists c; simpl; f_equal; exact E.
Qed.

(** C5: with the cursor after at least one character of the line,
    Backspace removes exactly the character before the cursor and moves the
    cursor back by one, leaving the buffer alone; with the cursor at column
    0 it changes nothing at all, whatever the buffer holds.  The codes 8
    and 127 both run it. *)
Theorem backspace_removes_before_cursor (st : state) :
  (cursorPos st = 0 -> apply Backspace st = Pending st) /\
  (0 < cursorPos st <= Z.of_nat (length (currentLine st)) ->
   exists before c after,
     currentLine st = before ++ c :: after /\
     Z.of_nat (length before) = cursorPos st - 1 /\
     apply Backspace st = Pending (backspace st) /\
     currentLine (backspace st) = before ++ after /\
     cursorPos (backspace st) = cursorPos st - 1 /\
     inputBuffer (backspace st) = inputBuffer st) /\
  (forall input i,
     nth_error input i = Some 8 \/ nth_error input i = Some 127 ->
     body input i st = Next i (backspace st)).
Proof.
  split; [|split].
  - intros H; cbn [apply]; rewrite backspace_at_start by lia; reflexivity.
  - intros H.
    destruct (backspace_line st H) as [E1 [E2 E3]].
    destruct (cut_before (currentLine st) (Z.to_nat (cursorPos st - 1)))
      as [c E]; [lia|].
    replace (S (Z.to_nat (cursorPos st - 1))) with (Z.to_nat (cursorPos st))
      in E by lia.
    exists (firstn (Z.to_nat (cursorPos st - 1)) (currentLine st)), c,
           (skipn (Z.to_nat (cursorPos st)) (currentLine st)).
    split; [exact E|]. split; [rewrite length_firstn; lia|].
    split; [reflexivity|]. auto.
  - intros input i [H|H]; unfold body, charCodeAt; rewrite H; reflexivity.
Qed.

Lemma backspace_removes_before_cursor_witness :
  (cursorPos (initial false) = 0 /\
   apply Backspace (initial false) = Pending (initial false)) /\
  (0 < cursorPos typedHi <= Z.of_nat (length (currentLine typedHi)) /\
   exists before c after,
     currentLine typedHi = before ++ c :: after /\
     Z.of_nat (length before) = cursorPos typedHi - 1 /\
     apply Backspace typedHi = Pending (backspace typedHi) /\
     currentLine (backspace typedHi) = before ++ after /\
     cursorPos (backspace typedHi) = cursorPos typedHi - 1 /\
     inputBuffer (backspace typedHi) = inputBuffer typedHi) /\
  (nth_error (js "x" ++ [127]) 1 = Some 127 /\
   body (js "x" ++ [127]) 1 typedHi = Next 1 (backspace typedHi)).
Proof.
  assert (H : 0 < cursorPos typedHi <= Z.of_nat (length (currentLine typedHi)))
    by (vm_compute; split; [reflexivity | discriminate]).
  split; [|split].
  - split; [reflexivity|].
    exact (proj1 (backspace_removes_before_cursor (initial false)) eq_refl).
  - split; [exact H|].
    exact (proj1 (proj2 (backspace_removes_before_cursor typedHi)) H).
  - split; [reflexivity|].
    exact (proj2 (proj2 (backspace_removes_before_cursor typedHi))
                 (js "x" ++ [127]) 1%nat (or_intror eq_refl)).
Defined.

(** *** Insertion *)

Lemma applyAll_app (keys1 keys2 : list InputEvent) :
  forall st st1,
    applyAll keys1 st = Pending st1 ->
    applyAll (keys1 ++ keys2) st = applyAll keys2 st1.
Proof.
  induction keys1 as [|e keys1 IH]; intros st st1 H; simpl in *.
  - injection H as ->; reflexivity.
  - destruct (apply e st) as [s|t s|c s]; try discriminate.
    apply IH; exact H.
Qed.

Lemma insert_all (cs : jsstring) :
  forall st,
    cursorPos st = Z.of_nat (length (currentLine st)) ->
    exists st',
      applyAll (map InsertChar cs) st = Pending st' /\
      currentLine st' = currentLine st ++ cs /\
      cursorPos st' = Z.of_nat (length (currentLine st')) /\
      inputBuffer st' = inputBuffer st.
Proof.
  induction cs as [|c cs IH]; intros st H; simpl.
  - exists st; rewrite app_nil_r; auto.
  - destruct (printable_line c st) as [E1 [E2 E3]];
      [unfold cursorInLine; lia|].
    rewrite H, Nat2Z.id, firstn_all, skipn_all in E1.
    destruct (IH (printable [c] st)) as [st' [A [L [C B]]]].
    { rewrite E1, E2, H, length_app; simpl; lia. }
    exists st'; split; [exact A|].
    rewrite B, E3; split; [|split; [exact C | reflexivity]].
    rewrite L, E1, <- app_assoc; reflexivity.
Qed.

Lemma events_printable (cs : jsstring) :
  Forall isPrintableCode cs -> events cs = map InsertChar cs.
Proof.
  induction 1 as [|c cs Hc _ IH]; [reflexivity|].
  unfold isPrintableCode in Hc; cbn [events map].
  replace (c =? 3) with false by (symmetry; apply Z.eqb_neq; lia).
  replace (c =? 13) with false by (symmetry; apply Z.eqb_neq; lia).
  replace (c =? 10) with false by (symmetry; apply Z.eqb_neq; lia).
  replace (c =? 8) with false by (symmetry; apply Z.eqb_neq; lia).
  replace (c =? 127) with false by (symmetry; apply Z.eqb_neq; lia).
  replace (32 <=? c) with true by (symmetry; apply Z.leb_le; lia).
  replace (c <=? 126) with true by (symmetry; apply Z.leb_le; lia).
  cbn [orb andb]; rewrite IH; reflexivity.
Qed.

Lemma feed_printable (chunks : list jsstring) :
  Forall (Forall isPrintableCode) chunks ->
  forall st st',
    applyAll (map InsertChar (concat chunks)) st = Pending st' ->
    feed chunks st = Some (Pending st').
Proof.
  induction 1 as [|input chunks Hp _ IH]; intros st st' H; simpl in *.
  - congruence.
  - rewrite onData_decode, decode_events, (events_printable _ Hp).
    rewrite map_app in H.
    destruct (applyAll (map InsertChar input) st) as [s1|t s1|c s1] eqn:A.
    + rewrite (applyAll_app _ _ _ _ A) in H; apply IH; exact H.
    + exfalso. clear - A. revert st A.
      induction input as [|x input IHi]; intros st A; simpl in A;
        [discriminate | eapply IHi; exact A].
    + exfalso. clear - A. revert st A.
      induction input as [|x input IHi]; intros st A; simpl in A;
        [discriminate | eapply IHi; exact A].
Qed.

(** C9: when every code received, in any number of chunks, is printable
    (32 to 126), each is an InsertChar, the read stays pending, and the
    current line of a fresh editor is the codes in the order received, the
    cursor standing at its end. *)
Theorem only_insertions_concatenate (isRaw : bool) (chunks : list jsstring) :
  Forall (Forall isPrintableCode) chunks ->
  events (concat chunks) = map InsertChar (concat chunks) /\
  exists st',
    getMultiLineInput isRaw chunks = Some (Pending st') /\
    applyAll (map InsertChar (concat chunks)) (initial isRaw) = Pending st' /\
    currentLine st' = concat chunks /\
    cursorPos st' = Z.of_nat (length (concat chunks)) /\
    inputBuffer st' = [].
Proof.
  intros Hp; split.
  - apply events_printable, Forall_concat; exact Hp.
  - destruct (insert_all (concat chunks) (initial isRaw) eq_refl)
      as [st' [A [L [C B]]]].
    exists st'; split; [apply feed_printable; assumption|].
    split; [exact A|]. simpl in L, B.
    rewrite C, L; auto.
Qed.

Lemma only_insertions_concatenate_witness :
  Forall (Forall isPrintableCode) [js "He"; js "llo"] /\
  exists st',
    getMultiLineInput false [js "He"; js "llo"] = Some (Pending st') /\
    applyAll (map InsertChar (concat [js "He"; js "llo"])) (initial false) =
      Pending st' /\
    currentLine st' = concat [js "He"; js "llo"] /\
    cursorPos st' = Z.of_nat (length (concat [js "He"; js "llo"])) /\
    inputBuffer st' = [].
Proof.
  assert (H : Forall (Forall isPrintableCode) [js "He"; js "llo"])
    by (repeat constructor; vm_compute; discriminate).
  split; [exact H|].
  exact (proj2 (only_insertions_concatenate false [js "He"; js "llo"] H)).
Defined.

(** *** What the read returns *)

(** C10: on every sequence of chunks the handler ends, and whenever the
    read is resolved the text returned is not empty, is its own trim, and
    has a character that is not white space. *)
Theorem resolved_text_is_trimmed (isRaw : bool) (chunks : list jsstring) :
  (exists o, getMultiLineInput isRaw chunks = Some o) /\
  forall text st,
    getMultiLineInput isRaw chunks = Some (Resolved text st) ->
    text <> [] /\ trim text = text /\ nonBlank text.
Proof.
  split.
  - destruct (feed_cursor chunks (initial isRaw) (initial_cursor isRaw))
      as [o [E _]]; exists o; exact E.
  - intros text st H; apply feed_resolved in H.
    destruct H as [s [-> N]].
    split; [exact N|]. split; [apply trim_idem|].
    apply trim_nonempty_nonws; exact N.
Qed.

Lemma resolved_text_is_trimmed_witness :
  getMultiLineInput false [js " Hi " ++ CR] =
    Some (Resolved (js "Hi")
            (write LF (cleanup (withBuffer (js " Hi ")
               (stateOf (decode (js " Hi ") (initial false))))))) /\
  js "Hi" <> [] /\ trim (js "Hi") = js "Hi" /\ nonBlank (js "Hi").
Proof.
  split; [reflexivity|].
  exact (proj2 (resolved_text_is_trimmed false [js " Hi " ++ CR])
               (js "Hi") _ eq_refl).
Defined.

(* ------------------------------------------------------------------ *)
(** ** The menu                                                        *)
(* ------------------------------------------------------------------ *)

Module MenuFacts.

Import Menu.

Lemma press_up (opts : list menuOption) (st : state) :
  onKeyPress opts keyUp st =
  Waiting (select (if 0 <? selectedIndex st
                   then selectedIndex st - 1
                   else Z.of_nat (length opts) - 1) st).
Proof. reflexivity. Qed.

Lemma press_down (opts : list menuOption) (st : state) :
  onKeyPress opts keyDown st =
  Waiting (select (if selectedIndex st <? Z.of_nat (length opts) - 1
                   then selectedIndex st + 1
                   else 0) st).
Proof. reflexivity. Qed.

Lemma up_index (n s : Z) :
  1 <= n -> 0 <= s < n ->
  (if 0 <? s then s - 1 else n - 1) = (s - 1 + n) mod n /\
  0 <= (if 0 <? s then s - 1 else n - 1) < n.
Proof.
  intros Hn Hs; destruct (0 <? s) eqn:E;
    [apply Z.ltb_lt in E | apply Z.ltb_ge in E].
  - split; [|lia].
    replace (s - 1 + n) with (s - 1 + 1 * n) by lia.
    rewrite Z_mod_plus_full, Z.mod_small; lia.
  - split; [|lia].
    replace s with 0 by lia.
    rewrite Z.mod_small; lia.
Qed.

Lemma down_index (n s : Z) :
  1 <= n -> 0 <= s < n ->
  (if s <? n - 1 then s + 1 else 0) = (s + 1) mod n /\
  0 <= (if s <? n - 1 then s + 1 else 0) < n.
Proof.
  intros Hn Hs; destruct (s <? n - 1) eqn:E;
    [apply Z.ltb_lt in E | apply Z.ltb_ge in E].
  - split; [|lia]. rewrite Z.mod_small; lia.
  - split; [|lia].
    replace (s + 1) with n by lia.
    rewrite Z_mod_same_full; reflexivity.
Qed.

Lemma down_after_up (n s : Z) :
  1 <= n -> 0 <= s < n ->
  (if (if 0 <? s then s - 1 else n - 1) <? n - 1
   then (if 0 <? s then s - 1 else n - 1) + 1
   else 0) = s.
Proof.
  intros Hn Hs; destruct (0 <? s) eqn:E;
    [apply Z.ltb_lt in E | apply Z.ltb_ge in E].
  - replace (s - 1 <? n - 1) with true by (symmetry; apply Z.ltb_lt; lia).
    lia.
  - rewrite Z.ltb_irrefl; lia.
Qed.

Lemma pressAll_app (opts : list menuOption) (keys1 keys2 : list jsstring) :
  forall st st1,
    pressAll opts keys1 st = Waiting st1 ->
    pressAll opts (keys1 ++ keys2) st = pressAll opts keys2 st1.
Proof.
  induction keys1 as [|k keys1 IH]; intros st st1 H; simpl in *.
  - injection H as ->; reflexivity.
  - destruct (onKeyPress opts k st) as [s|c s|s]; try discriminate.
    apply IH; exact H.
Qed.

Lemma repeat_snoc (k : jsstring) (n : nat) :
  repeat k (S n) = repeat k n ++ [k].
Proof.
  induction n as [|n IH]; [reflexivity|].
  simpl in *; f_equal; exact IH.
Qed.

(** As many Down as Up bring the selection back. *)
Lemma up_then_down (opts : list menuOption) (k : nat) :
  1 <= Z.of_nat (length opts) ->
  forall st,
    0 <= selectedIndex st < Z.of_nat (length opts) ->
    exists st',
      pressAll opts (repeat keyUp k ++ repeat keyDown k) st = Waiting st' /\
      selectedIndex st' = selectedIndex st.
Proof.
  intros Hn; induction k as [|k IH]; intros st Hs.
  - exists st; auto.
  - rewrite (repeat_snoc keyDown k), app_assoc.
    change (repeat keyUp (S k)) with (keyUp :: repeat keyUp k).
    cbn [app pressAll]; rewrite press_up.
    destruct (up_index _ _ Hn Hs) as [_ Hr].
    destruct (IH (select (if 0 <? selectedIndex st
                          then selectedIndex st - 1
                          else Z.of_nat (length opts) - 1) st) Hr)
      as [st1 [P E]].
    rewrite (pressAll_app _ _ [keyDown] _ _ P).
    cbn [pressAll]; rewrite press_down.
    eexists; split; [reflexivity|].
    cbn [select selectedIndex] in *; rewrite E.
    apply down_after_up; assumption.
Qed.

End MenuFacts.

Import Menu MenuFacts.

(** C6: in a menu of n >= 1 options with the selection inside [0, n), Up
    selects (selectedIndex - 1 + n) mod n and Down (selectedIndex + 1) mod
    n, both inside [0, n), and the menu is shown again; k times Up then k
    times Down leave the selection where it was; and with two options Down,
    Down, Enter on a fresh menu choose the key of the first, which is "1"
    for the menu of the client. *)
Theorem menu_navigation_wraps (opts : list menuOption) (st : Menu.state) :
  1 <= Z.of_nat (length opts) ->
  0 <= selectedIndex st < Z.of_nat (length opts) ->
  (exists st',
     onKeyPress opts keyUp st = Waiting st' /\
     selectedIndex st' =
       (selectedIndex st - 1 + Z.of_nat (length opts)) mod Z.of_nat (length opts) /\
     0 <= selectedIndex st' < Z.of_nat (length opts) /\
     displayed st' = displayed st ++ [selectedIndex st']) /\
  (exists st',
     onKeyPress opts keyDown st = Waiting st' /\
     selectedIndex st' = (selectedIndex st + 1) mod Z.of_nat (length opts) /\
     0 <= selectedIndex st' < Z.of_nat (length opts) /\
     displayed st' = displayed st ++ [selectedIndex st']) /\
  (forall k, exists st',
     pressAll opts (repeat keyUp k ++ repeat keyDown k) st = Waiting st' /\
     selectedIndex st' = selectedIndex st) /\
  (forall first second,
     pressAll [first; second] [keyDown; keyDown; CR] (appear 0) =
       Chosen (Menu.key first)
              (release (select 0 (select 1 (appear 0))))) /\
  pressAll options [keyDown; keyDown; CR] (appear 0) =
    Chosen (js "1") (release (select 0 (select 1 (appear 0)))).
Proof.
  intros Hn Hs.
  split; [|split; [|split; [|split]]].
  - rewrite press_up; eexists; split; [reflexivity|].
    destruct (up_index _ _ Hn Hs) as [E R].
    cbn [select selectedIndex displayed]; rewrite <- E; auto.
  - rewrite press_down; eexists; split; [reflexivity|].
    destruct (down_index _ _ Hn Hs) as [E R].
    cbn [select selectedIndex displayed]; rewrite <- E; auto.
  - intros k; apply up_then_down; assumption.
  - intros first second; reflexivity.
  - reflexivity.
Qed.

Lemma menu_navigation_wraps_witness :
  1 <= Z.of_nat (length options) /\
  0 <= selectedIndex (appear 0) < Z.of_nat (length options) /\
  exists st',
    pressAll options (repeat keyUp 3 ++ repeat keyDown 3) (appear 0) =
      Waiting st' /\
    selectedIndex st' = selectedIndex (appear 0).
Proof.
  assert (Hn : 1 <= Z.of_nat (length options)) by (vm_compute; discriminate).
  assert (Hs : 0 <= selectedIndex (appear 0) < Z.of_nat (length options))
    by (vm_compute; split; [discriminate | reflexivity]).
  split; [exact Hn|]. split; [exact Hs|].
  exact (proj1 (proj2 (proj2 (menu_navigation_wraps options (appear 0) Hn Hs)))
               3%nat).
Defined.

(** C7: in the menu of the client, whatever the selection, the digit d
    with 1 <= d <= n resolves the choice at once with the key of option
    d - 1 (the handler resolves with the digit typed, which is that key),
    and releases the terminal without moving the selection. *)
Theorem menu_direct_shortcut (st : Menu.state) (d : Z) :
  1 <= d <= Z.of_nat (length options) ->
  exists o,
    optionAt options (d - 1) = Some o /\
    Menu.key o = [48 + d] /\
    onKeyPress options [48 + d] st = Chosen (Menu.key o) (release st) /\
    selectedIndex (release st) = selectedIndex st.
Proof.
  intros H; change (Z.of_nat (length options)) with 2 in H.
  assert (D : d = 1 \/ d = 2) by lia.
  destruct D as [-> | ->]; eexists; (split; [reflexivity|]);
    repeat split; reflexivity.
Qed.

Lemma menu_direct_shortcut_witness :
  1 <= 2 <= Z.of_nat (length options) /\
  exists o,
    optionAt options (2 - 1) = Some o /\
    Menu.key o = [48 + 2] /\
    onKeyPress options [48 + 2] (appear 0) = Chosen (Menu.key o) (release (appear 0)) /\
    selectedIndex (release (appear 0)) = selectedIndex (appear 0).
Proof.
  assert (H : 1 <= 2 <= Z.of_nat (length options))
    by (vm_compute; split; discriminate).
  split; [exact H|].
  exact (menu_direct_shortcut (appear 0) 2 H).
Defined.

(* ------------------------------------------------------------------ *)
(** ** Further properties of the line editor                           *)
(* ------------------------------------------------------------------ *)

Module EditorMore.

Import LineEditor EditorProps JSFacts LoopFacts EditorFacts.

(** *** Chunk boundaries *)

Lemma endsOpen_false (a : jsstring) : endsOpen a = false -> ~ endsOpenAt a.
Proof.
  unfold endsOpen; intros H [pre [E|[E|E]]]; subst a;
    rewrite rev_app_distr in H; simpl in H; discriminate.
Qed.

Lemma endsOpenAt_tail (c : Z) (tl : jsstring) :
  ~ endsOpenAt (c :: tl) -> tl <> [] -> ~ endsOpenAt tl.
Proof.
  intros H _ [pre [E|[E|E]]]; apply H; exists (c :: pre); subst tl; simpl; auto.
Qed.

Lemma endsOpenAt_nil : ~ endsOpenAt [].
Proof.
  intros [pre [E|[E|E]]]; destruct pre; discriminate.
Qed.

Lemma thenDecode_nil (o : outcome) : thenDecode [] o = o.
Proof. destruct o; reflexivity. Qed.

Lemma decode_app_bounded (n : nat) :
  forall (a b : jsstring) (st : state),
    (length a <= n)%nat -> ~ endsOpenAt a ->
    decode (a ++ b) st = thenDecode b (decode a st).
Proof.
  induction n as [|n IH]; intros a b st Hn Ho.
  - destruct a; [reflexivity | simpl in Hn; lia].
  - destruct a as [|c tl]; [reflexivity|].
    simpl in Hn.
    assert (T : forall t, (length t <= n)%nat -> ~ endsOpenAt t ->
                forall s, decode (t ++ b) s = thenDecode b (decode t s))
      by (intros t Ht Hto s; apply IH; assumption).
    assert (Htl : ~ endsOpenAt tl).
    { destruct tl; [apply endsOpenAt_nil|].
      apply (endsOpenAt_tail c); [exact Ho | discriminate]. }
    change ((c :: tl) ++ b) with (c :: (tl ++ b)).
    cbn [decode].
    destruct (c =? 3); [reflexivity|].
    destruct (c =? 13) eqn:E13.
    { apply Z.eqb_eq in E13; subst c.
      destruct (enter st) as [text st'|st']; [reflexivity|].
      destruct tl as [|d tl'].
      - exfalso; apply Ho; exists []; auto.
      - cbn [app].
        destruct (d =? 10).
        + apply T; [simpl in Hn; lia|].
          destruct tl'; [apply endsOpenAt_nil|].
          apply (endsOpenAt_tail d); [exact Htl | discriminate].
        + apply (T (d :: tl')); [lia | exact Htl]. }
    destruct (c =? 10); [apply T; [lia | exact Htl]|].
    destruct ((c =? 8) || (c =? 127)); [apply T; [lia | exact Htl]|].
    destruct ((32 <=? c) && (c <=? 126)); [apply T; [lia | exact Htl]|].
    destruct (c =? 27) eqn:E27; [|apply T; [lia | exact Htl]].
    apply Z.eqb_eq in E27; subst c.
    destruct tl as [|d [|key tl']].
    + exfalso; apply Ho; exists []; auto.
    + destruct (d =? 91) eqn:E91.
      * apply Z.eqb_eq in E91; subst d.
        exfalso; apply Ho; exists []; auto.
      * destruct b as [|k b'];
          [cbn [app]; rewrite thenDecode_nil; reflexivity|].
        cbn [app]; rewrite E91.
        apply (T [d]); [simpl in *; lia | exact Htl].
    + cbn [app].
      destruct (d =? 91).
      * apply T; [simpl in Hn; lia|].
        destruct tl'; [apply endsOpenAt_nil|].
        apply (endsOpenAt_tail key); [|discriminate].
        apply (endsOpenAt_tail d); [exact Htl | discriminate].
      * apply (T (d :: key :: tl')); [lia | exact Htl].
Qed.

(** Two chunks are handled like their concatenation unless the first one
    ends on a CR, on an ESC or on ESC '[': only there does the handler look
    past the end of what it was given. *)
Theorem chunk_boundary_is_transparent
  (a b : jsstring) (later : list jsstring) (st : state) :
  endsOpen a = false ->
  feed (a :: b :: later) st = feed ((a ++ b) :: later) st.
Proof.
  intros H; apply endsOpen_false in H.
  cbn [feed]; rewrite !onData_decode.
  rewrite (decode_app_bounded (length a) a b st (le_n _) H).
  destruct (decode a st) as [st'|text st'|code st']; cbn [thenDecode];
    try reflexivity.
  rewrite onData_decode; reflexivity.
Qed.

Lemma chunk_boundary_is_transparent_witness :
  endsOpen (js "Hi" ++ LF ++ js "the") = false /\
  feed [js "Hi" ++ LF ++ js "the"; js "re" ++ CR] (initial false) =
  feed [(js "Hi" ++ LF ++ js "the") ++ (js "re" ++ CR)] (initial false).
Proof.
  split; [reflexivity|].
  exact (chunk_boundary_is_transparent
           (js "Hi" ++ LF ++ js "the") (js "re" ++ CR) [] (initial false)
           eq_refl).
Defined.

(** A sequence split after the ESC is not put together again: the ESC is
    dropped and '[' and the key code are inserted as text, whereas in one
    chunk the three codes are an arrow key or nothing. *)
Theorem split_escape_is_typed (key : Z) (st : state) :
  isPrintableCode key ->
  feed [ESC; [91; key]] st =
    Some (Pending (printable [key] (printable [91] st))) /\
  feed [ESC ++ [91; key]] st = Some (Pending (arrow (Some key) st)).
Proof.
  unfold isPrintableCode; intros H.
  assert (D1 : decode ESC st = Pending st) by reflexivity.
  assert (D3 : decode (ESC ++ [91; key]) st = Pending (arrow (Some key) st))
    by reflexivity.
  assert (D2 : decode [91; key] st =
               Pending (printable [key] (printable [91] st))).
  { cbn [decode].
    change (91 =? 3) with false; change (91 =? 13) with false.
    change (91 =? 10) with false; change (91 =? 8) with false.
    change (91 =? 127) with false; change (32 <=? 91) with true.
    change (91 <=? 126) with true.
    cbn [orb andb].
    replace (key =? 3) with false by (symmetry; apply Z.eqb_neq; lia).
    replace (key =? 13) with false by (symmetry; apply Z.eqb_neq; lia).
    replace (key =? 10) with false by (symmetry; apply Z.eqb_neq; lia).
    replace (key =? 8) with false by (symmetry; apply Z.eqb_neq; lia).
    replace (key =? 127) with false by (symmetry; apply Z.eqb_neq; lia).
    replace (32 <=? key) with true by (symmetry; apply Z.leb_le; lia).
    replace (key <=? 126) with true by (symmetry; apply Z.leb_le; lia).
    reflexivity. }
  cbn [feed]; split.
  - rewrite onData_decode, D1, onData_decode, D2; reflexivity.
  - rewrite onData_decode, D3; reflexivity.
Qed.

Lemma split_escape_is_typed_witness :
  isPrintableCode 68 /\
  feed [ESC; [91; 68]] typedHi =
    Some (Pending (printable [68] (printable [91] typedHi))) /\
  feed [ESC ++ [91; 68]] typedHi = Some (Pending (arrow (Some 68) typedHi)).
Proof.
  assert (H : isPrintableCode 68) by (unfold isPrintableCode; lia).
  split; [exact H|].
  exact (split_escape_is_typed 68 typedHi H).
Defined.

(** *** The terminal *)

Lemma moveBack_live (isRaw : bool) (st : state) :
  live isRaw st -> live isRaw (moveBack st).
Proof.
  unfold live; destruct (moveBack_terminal st) as [-> [-> ->]]; auto.
Qed.

Lemma apply_settled (isRaw : bool) (e : InputEvent) (st : state) :
  live isRaw st -> terminalSettled isRaw (apply e st).
Proof.
  intros L; pose proof L as [R [Li O]].
  destruct e; cbn [apply terminalSettled].
  - unfold printable; apply moveBack_live; exact L.
  - exact L.
  - unfold enter.
    destruct (negb (jseq (trim (currentLine st)) []) ||
              negb (jseq (inputBuffer st) []));
      match goal with
      | |- context [if ?b then Committed _ _ else _] => destruct b
      end; cbn; auto.
  - unfold backspace.
    destruct ((0 <? Z.of_nat (length (currentLine st))) && (0 <? cursorPos st));
      [apply moveBack_live|]; exact L.
  - unfold arrow; cbn [codeIs]; change (68 =? 68) with true; cbn iota.
    destruct (0 <? cursorPos st); exact L.
  - unfold arrow; cbn [codeIs]; change (67 =? 68) with false.
    change (67 =? 67) with true; cbn iota.
    destruct (cursorPos st <? _); exact L.
  - exact L.
  - exact L.
  - cbn; auto.
Qed.

Lemma applyAll_settled (isRaw : bool) (keys : list InputEvent) :
  forall st, live isRaw st -> terminalSettled isRaw (applyAll keys st).
Proof.
  induction keys as [|e keys IH]; intros st L; cbn [applyAll]; [exact L|].
  pose proof (apply_settled isRaw e st L) as S.
  destruct (apply e st) as [st'|text st'|code st']; [apply IH|..]; exact S.
Qed.

Lemma feed_settled (isRaw : bool) (chunks : list jsstring) :
  forall st, live isRaw st ->
    exists o, feed chunks st = Some o /\ terminalSettled isRaw o.
Proof.
  induction chunks as [|input chunks IH]; intros st L; cbn [feed].
  - exists (Pending st); auto.
  - rewrite onData_decode, decode_events.
    pose proof (applyAll_settled isRaw (events input) st L) as S.
    destruct (applyAll (events input) st) as [st'|text st'|code st'].
    + apply IH; exact S.
    + eexists; split; [reflexivity | exact S].
    + eexists; split; [reflexivity | exact S].
Qed.

(** Whatever the terminal sends, the handler stays registered with raw
    mode on exactly as long as the read is pending; as soon as the read is
    resolved or the process exits, the handler is unregistered and raw mode
    is what it was at entry. *)
Theorem terminal_is_restored_when_the_read_ends
  (isRaw : bool) (chunks : list jsstring) :
  exists o,
    getMultiLineInput isRaw chunks = Some o /\ terminalSettled isRaw o.
Proof.
  apply feed_settled; repeat split.
Qed.

(** *** Insertion and backspace *)

(** Backspace right after an insertion undoes it: the line, the cursor and
    the buffer are what they were. *)
Theorem backspace_undoes_insertion (c : Z) (st : state) :
  cursorInLine st ->
  currentLine (backspace (printable [c] st)) = currentLine st /\
  cursorPos (backspace (printable [c] st)) = cursorPos st /\
  inputBuffer (backspace (printable [c] st)) = inputBuffer st.
Proof.
  intros H; pose proof H as Hc; unfold cursorInLine in Hc.
  destruct (printable_line c st H) as [E1 [E2 E3]].
  destruct (backspace_line (printable [c] st)) as [B1 [B2 B3]].
  { rewrite E1, E2, length_splice; lia. }
  rewrite B1, B2, B3, E1, E2, E3.
  replace (cursorPos st + 1 - 1) with (cursorPos st) by lia.
  replace (Z.to_nat (cursorPos st + 1)) with (S (Z.to_nat (cursorPos st)))
    by lia.
  split; [|auto].
  set (n := Z.to_nat (cursorPos st)).
  assert (Ln : length (firstn n (currentLine st)) = n)
    by (rewrite length_firstn; lia).
  rewrite firstn_app, Ln, Nat.sub_diag, firstn_O, app_nil_r.
  rewrite firstn_firstn, Nat.min_id.
  rewrite skipn_app, Ln.
  replace (S n - n)%nat with 1%nat by lia.
  rewrite (skipn_all2 (firstn n (currentLine st))) by lia.
  cbn [skipn app]; apply firstn_skipn.
Qed.

Lemma backspace_undoes_insertion_witness :
  cursorInLine typedHi /\
  currentLine (backspace (printable [33] typedHi)) = currentLine typedHi /\
  cursorPos (backspace (printable [33] typedHi)) = cursorPos typedHi /\
  inputBuffer (backspace (printable [33] typedHi)) = inputBuffer typedHi.
Proof.
  assert (H : cursorInLine typedHi)
    by (vm_compute; split; discriminate).
  split; [exact H|].
  exact (backspace_undoes_insertion 33 typedHi H).
Defined.

(** *** What the text can contain *)

Lemma events_decoded_bounded (n : nat) :
  forall rest, (length rest <= n)%nat -> Forall decodedKey (events rest).
Proof.
  induction n as [|n IH]; intros rest Hn.
  - destruct rest; [constructor | simpl in Hn; lia].
  - destruct rest as [|c tl]; [constructor|].
    simpl in Hn; cbn [events].
    destruct (c =? 3); [repeat constructor|].
    destruct (c =? 13).
    { destruct tl as [|d tl']; [repeat constructor|].
      constructor; [exact I|].
      destruct (d =? 10); apply IH; simpl in *; lia. }
    destruct (c =? 10); [constructor; [exact I | apply IH; lia]|].
    destruct ((c =? 8) || (c =? 127));
      [constructor; [exact I | apply IH; lia]|].
    destruct ((32 <=? c) && (c <=? 126)) eqn:P.
    { apply andb_true_iff in P; destruct P as [P1 P2].
      apply Z.leb_le in P1; apply Z.leb_le in P2.
      constructor; [unfold decodedKey, isPrintableCode; lia | apply IH; lia]. }
    destruct (c =? 27); [|apply IH; lia].
    destruct tl as [|d [|key tl']]; try (apply IH; simpl in *; lia).
    destruct (d =? 91); [|apply IH; simpl in *; lia].
    destruct (key =? 68);
      [constructor; [exact I | apply IH; simpl in *; lia]|].
    destruct (key =? 67);
      [constructor; [exact I | apply IH; simpl in *; lia]|].
    destruct (key =? 65);
      [constructor; [exact I | apply IH; simpl in *; lia]|].
    destruct (key =? 66);
      [constructor; [exact I | apply IH; simpl in *; lia]|].
    apply IH; simpl in *; lia.
Qed.

Lemma events_decoded (rest : jsstring) : Forall decodedKey (events rest).
Proof. apply (events_decoded_bounded (length rest)); lia. Qed.

Lemma lineCodes_bufferCodes (l : jsstring) : lineCodes l -> bufferCodes l.
Proof.
  unfold lineCodes, bufferCodes; apply Forall_impl; intros c H; left; exact H.
Qed.

Lemma addLine_codes (b l : jsstring) :
  bufferCodes b -> lineCodes l -> bufferCodes (addLine b l).
Proof.
  intros Hb Hl; unfold addLine.
  destruct (jseq b []); [apply lineCodes_bufferCodes; exact Hl|].
  unfold bufferCodes; rewrite !Forall_app; split; [exact Hb|].
  split; [repeat constructor; right; reflexivity|].
  apply lineCodes_bufferCodes; exact Hl.
Qed.

Lemma Forall_pieces {A : Type} (P : A -> Prop) (n : nat) (l : list A) :
  Forall P l -> Forall P (firstn n l) /\ Forall P (skipn n l).
Proof.
  intros H; rewrite <- (firstn_skipn n l) in H.
  apply Forall_app in H; exact H.
Qed.

Lemma trim_Forall (P : Z -> Prop) (s : jsstring) :
  Forall P s -> Forall P (trim s).
Proof.
  intros H; unfold trim.
  destruct (trimStart_split s) as [w [E _]].
  rewrite E in H; apply Forall_app in H; destruct H as [_ H].
  destruct (trimEnd_split (trimStart s)) as [w' [E' _]].
  rewrite E' in H; apply Forall_app in H; destruct H as [H _]; exact H.
Qed.

Lemma enter_wellFormed (st : state) :
  wellFormed st ->
  match enter st with
  | Committed text st' => wellFormed st' /\ bufferCodes text
  | Absorbed st' => wellFormed st'
  end.
Proof.
  intros [Hl [Hb Hc]]; unfold enter.
  pose proof (addLine_codes _ _ Hb Hl) as Ha.
  destruct (negb (jseq (trim (currentLine st)) []) ||
            negb (jseq (inputBuffer st) []));
    match goal with
    | |- context [if ?b then Committed _ _ else _] => destruct b
    end; unfold wellFormed, cursorInLine; cbn;
    repeat split; try assumption; try constructor; try lia;
    try (apply trim_Forall; assumption); apply Hc.
Qed.

Lemma apply_wellFormed_state (e : InputEvent) (st : state) :
  decodedKey e -> wellFormed st -> wellFormed (stateOf (apply e st)).
Proof.
  intros Hk W; pose proof W as [Hl [Hb Hc]].
  destruct e; cbn [apply stateOf decodedKey] in *.
  - destruct (printable_line c st Hc) as [E1 [E2 E3]].
    unfold wellFormed; rewrite E1, E3.
    split; [|split; [exact Hb | apply printable_cursor; exact Hc]].
    destruct (Forall_pieces _ (Z.to_nat (cursorPos st)) _ Hl) as [F1 F2].
    unfold lineCodes; apply Forall_app; split; [exact F1|].
    constructor; assumption.
  - unfold wellFormed; cbn.
    split; [constructor|]. split; [apply addLine_codes; assumption|].
    apply lineFeed_cursor.
  - pose proof (enter_wellFormed st W) as He.
    destruct (enter st) as [t s'|s']; cbn [stateOf]; apply He.
  - unfold cursorInLine in Hc.
    destruct (Z_le_gt_dec (cursorPos st) 0) as [Hz|Hp].
    + rewrite backspace_at_start by exact Hz; exact W.
    + destruct (backspace_line st) as [E1 [E2 E3]]; [lia|].
      unfold wellFormed; rewrite E1, E3.
      split; [|split; [exact Hb | apply backspace_cursor; exact Hc]].
      destruct (Forall_pieces _ (Z.to_nat (cursorPos st - 1)) _ Hl) as [F1 _].
      destruct (Forall_pieces _ (Z.to_nat (cursorPos st)) _ Hl) as [_ F2].
      unfold lineCodes; apply Forall_app; split; assumption.
  - unfold wellFormed.
    split; [|split; [|apply arrow_cursor; exact Hc]];
      unfold arrow; cbn [codeIs]; change (68 =? 68) with true; cbn iota;
      destruct (0 <? cursorPos st); assumption.
  - unfold wellFormed.
    split; [|split; [|apply arrow_cursor; exact Hc]];
      unfold arrow; cbn [codeIs]; change (67 =? 68) with false;
      change (67 =? 67) with true; cbn iota;
      destruct (cursorPos st <? _); assumption.
  - exact W.
  - exact W.
  - exact W.
Qed.

Lemma apply_resolved_codes (e : InputEvent) (st : state) :
  wellFormed st ->
  forall text st', apply e st = Resolved text st' -> bufferCodes text.
Proof.
  intros W text st' H; destruct e; cbn [apply] in H; try discriminate.
  pose proof (enter_wellFormed st W) as He.
  destruct (enter st) as [t s'|s']; [|discriminate].
  injection H as <- <-; apply He.
Qed.

Lemma apply_wellFormed (e : InputEvent) (st : state) :
  decodedKey e -> wellFormed st ->
  wellFormed (stateOf (apply e st)) /\
  forall text st', apply e st = Resolved text st' -> bufferCodes text.
Proof.
  intros Hk W; split;
    [apply apply_wellFormed_state; assumption
    | apply apply_resolved_codes; assumption].
Qed.

Lemma applyAll_wellFormed (keys : list InputEvent) :
  forall st,
    Forall decodedKey keys -> wellFormed st ->
    wellFormed (stateOf (applyAll keys st)) /\
    forall text st', applyAll keys st = Resolved text st' -> bufferCodes text.
Proof.
  induction keys as [|e keys IH]; intros st Hk W; cbn [applyAll].
  - split; [exact W | intros ? ? [=]].
  - inversion Hk as [|? ? He Hks]; subst.
    destruct (apply_wellFormed e st He W) as [W1 R1].
    destruct (apply e st) as [s1|t1 s1|c1 s1]; cbn [stateOf] in *.
    + apply IH; assumption.
    + split; [exact W1 | exact R1].
    + split; [exact W1 | intros ? ? [=]].
Qed.

Lemma feed_wellFormed (chunks : list jsstring) :
  forall st, wellFormed st ->
    exists o,
      feed chunks st = Some o /\ wellFormed (stateOf o) /\
      forall text st', o = Resolved text st' -> bufferCodes text.
Proof.
  induction chunks as [|input chunks IH]; intros st W; cbn [feed].
  - exists (Pending st); split; [reflexivity|].
    split; [exact W | intros ? ? [=]].
  - rewrite onData_decode, decode_events.
    destruct (applyAll_wellFormed (events input) st (events_decoded input) W)
      as [W1 R1].
    destruct (applyAll (events input) st) as [s1|t1 s1|c1 s1];
      cbn [stateOf] in *.
    + apply IH; exact W1.
    + eexists; split; [reflexivity|]. split; [exact W1|].
      intros text st' [= <- <-]; apply (R1 t1 s1); reflexivity.
    + eexists; split; [reflexivity|]. split; [exact W1|].
      intros ? ? [=].
Qed.

(** Whatever the terminal sends (tabs, other control codes, codes above
    126), the current line only ever holds the codes 32 to 126 and the
    buffer those and line feeds; so a text the read returns is made of
    printable ASCII and line feeds only. *)
Theorem only_printable_text_is_kept (isRaw : bool) (chunks : list jsstring) :
  exists o,
    getMultiLineInput isRaw chunks = Some o /\
    lineCodes (currentLine (stateOf o)) /\
    bufferCodes (inputBuffer (stateOf o)) /\
    forall text st, o = Resolved text st -> bufferCodes text.
Proof.
  destruct (feed_wellFormed chunks (initial isRaw)) as [o [E [[W1 [W2 _]] R]]].
  { repeat split; try constructor; cbn; lia. }
  exists o; auto.
Qed.

(** *** Lines typed one after the other *)

Lemma events_line (l rest : jsstring) :
  lineCodes l -> events (l ++ rest) = map InsertChar l ++ events rest.
Proof.
  induction 1 as [|c l Hc _ IH]; [reflexivity|].
  unfold isPrintableCode in Hc; cbn [app events map].
  replace (c =? 3) with false by (symmetry; apply Z.eqb_neq; lia).
  replace (c =? 13) with false by (symmetry; apply Z.eqb_neq; lia).
  replace (c =? 10) with false by (symmetry; apply Z.eqb_neq; lia).
  replace (c =? 8) with false by (symmetry; apply Z.eqb_neq; lia).
  replace (c =? 127) with false by (symmetry; apply Z.eqb_neq; lia).
  replace (32 <=? c) with true by (symmetry; apply Z.leb_le; lia).
  replace (c <=? 126) with true by (symmetry; apply Z.leb_le; lia).
  cbn [orb andb]; rewrite IH; reflexivity.
Qed.

Lemma events_typed (lines : list jsstring) (line : jsstring) :
  Forall lineCodes lines -> lineCodes line ->
  events (typed lines line) =
    concat (map lineKeys lines) ++ map InsertChar line ++ [Submit].
Proof.
  intros Hs Hl; unfold typed.
  induction Hs as [|l lines Hc _ IH]; cbn [map concat app].
  - rewrite events_line by exact Hl; reflexivity.
  - rewrite <- !app_assoc, events_line by exact Hc.
    unfold lineKeys; rewrite <- !app_assoc; f_equal.
    cbn [LF app events].
    change (10 =? 3) with false; change (10 =? 13) with false.
    change (10 =? 10) with true; cbn iota.
    rewrite IH; reflexivity.
Qed.

Lemma fold_addLine_from (ls : list jsstring) :
  forall b, b <> [] -> fold_left addLine ls b = join LF (b :: ls).
Proof.
  induction ls as [|l ls IH]; intros b Hb; [reflexivity|].
  cbn [fold_left]; unfold addLine at 2.
  apply jseq_nil_false in Hb; rewrite Hb.
  rewrite IH by (destruct b; simpl; discriminate).
  destruct ls as [|x ls]; [reflexivity|].
  rewrite !join_cons by discriminate.
  rewrite <- !app_assoc; reflexivity.
Qed.

Lemma trim_after_line_feed (s : jsstring) : trim (LF ++ s) = trim s.
Proof. reflexivity. Qed.

(** The buffer drops the empty lines typed first; [trim] would remove
    them anyway. *)
Lemma trim_fold_addLine (ls : list jsstring) :
  trim (fold_left addLine ls []) = trim (join LF ls).
Proof.
  induction ls as [|l ls IH]; [reflexivity|].
  cbn [fold_left]; change (addLine [] l) with l.
  destruct l as [|c l].
  - rewrite IH. destruct ls as [|x ls]; [reflexivity|].
    rewrite (join_cons LF [] (x :: ls)) by discriminate; reflexivity.
  - rewrite fold_addLine_from by discriminate; reflexivity.
Qed.

Lemma run_lines (lines : list jsstring) :
  forall st,
    currentLine st = [] -> cursorPos st = 0 ->
    exists st',
      applyAll (concat (map lineKeys lines)) st = Pending st' /\
      currentLine st' = [] /\ cursorPos st' = 0 /\
      inputBuffer st' = fold_left addLine lines (inputBuffer st).
Proof.
  induction lines as [|l lines IH]; intros st Hl Hc; cbn [map concat].
  - exists st; auto.
  - destruct (insert_all l st) as [s1 [A [L [C B]]]];
      [rewrite Hl, Hc; reflexivity|].
    destruct (IH (lineFeed s1) eq_refl eq_refl) as [s2 [A2 [L2 [C2 B2]]]].
    exists s2; split; [|split; [exact L2 | split; [exact C2|]]].
    + unfold lineKeys; rewrite <- app_assoc.
      rewrite (applyAll_app _ _ _ _ A); exact A2.
    + rewrite B2; cbn [fold_left lineFeed inputBuffer withBuffer withLine
                       write emit].
      rewrite B, L, Hl; reflexivity.
Qed.

Lemma enter_by_text (st : state) :
  let text := trim (addLine (inputBuffer st) (currentLine st)) in
  exists st',
    apply Submit st = (if jseq text [] then Pending st' else Resolved text st')
    /\ (jseq text [] = true -> currentLine st' = [] /\ cursorPos st' = 0).
Proof.
  intros text; unfold text; cbn [apply]; unfold enter.
  destruct (negb (jseq (trim (currentLine st)) []) ||
            negb (jseq (inputBuffer st) [])) eqn:U.
  - cbn [withBuffer inputBuffer].
    destruct (jseq (trim (addLine (inputBuffer st) (currentLine st))) []);
      cbn [negb]; eexists; (split; [reflexivity|]); cbn; auto; discriminate.
  - apply orb_false_iff in U; destruct U as [U1 U2].
    apply negb_false_iff in U1; apply negb_false_iff in U2.
    unfold addLine; rewrite U2, U1.
    apply jseq_nil in U2; rewrite U2; cbn.
    eexists; split; [reflexivity|]; auto.
Qed.

(** Lines of printable text typed one after the other, each ended by a
    line feed and the last by Enter, are returned joined by line feeds and
    trimmed; when that text is empty nothing is returned and the editor
    waits with an empty line. *)
Theorem typed_lines_are_returned
  (isRaw : bool) (lines : list jsstring) (line : jsstring) :
  Forall lineCodes lines -> lineCodes line ->
  exists st',
    getMultiLineInput isRaw [typed lines line] =
      Some (if jseq (trim (join LF (lines ++ [line]))) []
            then Pending st'
            else Resolved (trim (join LF (lines ++ [line]))) st') /\
    (jseq (trim (join LF (lines ++ [line]))) [] = true ->
     currentLine st' = [] /\ cursorPos st' = 0).
Proof.
  intros Hs Hl.
  unfold getMultiLineInput; cbn [feed].
  rewrite onData_decode, decode_events, (events_typed _ _ Hs Hl).
  destruct (run_lines lines (initial isRaw) eq_refl eq_refl)
    as [s1 [A1 [L1 [C1 B1]]]].
  rewrite (applyAll_app _ _ _ _ A1).
  destruct (insert_all line s1) as [s2 [A2 [L2 [C2 B2]]]];
    [rewrite L1, C1; reflexivity|].
  rewrite (applyAll_app _ _ _ _ A2); cbn [applyAll].
  destruct (enter_by_text s2) as [st' [E Hb]].
  rewrite B2, B1, L2, L1 in E, Hb; cbn [initial inputBuffer app] in E, Hb.
  assert (T : trim (addLine (fold_left addLine lines []) line) =
              trim (join LF (lines ++ [line]))).
  { rewrite <- trim_fold_addLine, fold_left_app; reflexivity. }
  rewrite T in E, Hb.
  exists st'; split; [|exact Hb].
  rewrite E.
  destruct (jseq (trim (join LF (lines ++ [line]))) []); reflexivity.
Qed.

Lemma typed_lines_are_returned_witness :
  Forall lineCodes [js "Hi"; js ""] /\ lineCodes (js " there ") /\
  exists st',
    getMultiLineInput false [typed [js "Hi"; js ""] (js " there ")] =
      Some (if jseq (trim (join LF ([js "Hi"; js ""] ++ [js " there "]))) []
            then Pending st'
            else Resolved
                   (trim (join LF ([js "Hi"; js ""] ++ [js " there "]))) st')
    /\
    (jseq (trim (join LF ([js "Hi"; js ""] ++ [js " there "]))) [] = true ->
     currentLine st' = [] /\ cursorPos st' = 0).
Proof.
  assert (H1 : Forall lineCodes [js "Hi"; js ""])
    by (repeat constructor; vm_compute; discriminate).
  assert (H2 : lineCodes (js " there "))
    by (repeat constructor; vm_compute; discriminate).
  split; [exact H1|]. split; [exact H2|].
  exact (typed_lines_are_returned false [js "Hi"; js ""] (js " there ") H1 H2).
Defined.

End EditorMore.

(* ------------------------------------------------------------------ *)
(** ** The client outside the input engine: properties                 *)
(* ------------------------------------------------------------------ *)

Module ClientFacts.

Import Client JSFacts.

(** *** generateUUID *)

Lemma below_16 (r : Z) :
  0 <= r < 16 ->
  r = 0 \/ r = 1 \/ r = 2 \/ r = 3 \/ r = 4 \/ r = 5 \/ r = 6 \/ r = 7 \/
  r = 8 \/ r = 9 \/ r = 10 \/ r = 11 \/ r = 12 \/ r = 13 \/ r = 14 \/ r = 15.
Proof. lia. Qed.

Ltac each_below_16 H :=
  apply below_16 in H;
  repeat (destruct H as [H|H]; [subst; vm_compute; auto|]);
  subst; vm_compute; auto.

Lemma uuidDigit_x (r : Z) :
  0 <= r < 16 -> uuidDigit 120 r = [hexChar r].
Proof. intros H; each_below_16 H. Qed.

Lemma uuidDigit_y (r : Z) :
  0 <= r < 16 -> uuidDigit 121 r = [hexChar (Z.lor (Z.land r 3) 8)].
Proof. intros H; each_below_16 H. Qed.

Lemma hexChar_isHex (r : Z) :
  0 <= r < 16 -> isHexDigit (hexChar r) = true.
Proof. intros H; each_below_16 H. Qed.

Lemma variant_digit (r : Z) :
  0 <= r < 16 ->
  hexChar (Z.lor (Z.land r 3) 8) = 56 \/ hexChar (Z.lor (Z.land r 3) 8) = 57 \/
  hexChar (Z.lor (Z.land r 3) 8) = 97 \/ hexChar (Z.lor (Z.land r 3) 8) = 98.
Proof. intros H; each_below_16 H. Qed.

Lemma variant_range (r : Z) :
  0 <= r < 16 -> 0 <= Z.lor (Z.land r 3) 8 < 16.
Proof.
  intros H; apply below_16 in H.
  repeat (destruct H as [H|H]; [subst; simpl; lia|]); subst; simpl; lia.
Qed.

Lemma uuidTemplate_codes :
  uuidTemplate =
  [120; 120; 120; 120; 120; 120; 120; 120; 45;
   120; 120; 120; 120; 45;
   52; 120; 120; 120; 45;
   121; 120; 120; 120; 45;
   120; 120; 120; 120; 120; 120; 120; 120; 120; 120; 120; 120].
Proof. reflexivity. Qed.

(** Whatever the random numbers, the session id is a version 4 UUID: 36
    characters, hyphens at 8, 13, 18 and 23, the digit 4 at 14, one of 8,
    9, a, b at 19, and a lower-case hexadecimal digit at every position
    other than the four hyphens. *)
Theorem uuid_is_version_4 (random : nat -> Z) :
  (forall k, 0 <= random k < 16) ->
  length (generateUUID random) = 36%nat /\
  nth_error (generateUUID random) 8 = Some 45 /\
  nth_error (generateUUID random) 13 = Some 45 /\
  nth_error (generateUUID random) 18 = Some 45 /\
  nth_error (generateUUID random) 23 = Some 45 /\
  nth_error (generateUUID random) 14 = Some 52 /\
  (exists v, nth_error (generateUUID random) 19 = Some v /\
             (v = 56 \/ v = 57 \/ v = 97 \/ v = 98)) /\
  (forall i c,
     nth_error (generateUUID random) i = Some c ->
     i <> 8%nat -> i <> 13%nat -> i <> 18%nat -> i <> 23%nat ->
     isHexDigit c = true).
Proof.
  intros H.
  assert (E : generateUUID random =
    [hexChar (random 0%nat); hexChar (random 1%nat); hexChar (random 2%nat);
     hexChar (random 3%nat); hexChar (random 4%nat); hexChar (random 5%nat);
     hexChar (random 6%nat); hexChar (random 7%nat); 45;
     hexChar (random 8%nat); hexChar (random 9%nat); hexChar (random 10%nat);
     hexChar (random 11%nat); 45;
     52; hexChar (random 12%nat); hexChar (random 13%nat);
     hexChar (random 14%nat); 45;
     hexChar (Z.lor (Z.land (random 15%nat) 3) 8);
     hexChar (random 16%nat); hexChar (random 17%nat);
     hexChar (random 18%nat); 45;
     hexChar (random 19%nat); hexChar (random 20%nat); hexChar (random 21%nat);
     hexChar (random 22%nat); hexChar (random 23%nat); hexChar (random 24%nat);
     hexChar (random 25%nat); hexChar (random 26%nat); hexChar (random 27%nat);
     hexChar (random 28%nat); hexChar (random 29%nat);
     hexChar (random 30%nat)]).
  { unfold generateUUID; rewrite uuidTemplate_codes.
    cbn [replaceXY Z.eqb Pos.eqb orb].
    rewrite !uuidDigit_x by apply H.
    rewrite uuidDigit_y by apply H.
    reflexivity. }
  rewrite E.
  split; [reflexivity|]. split; [reflexivity|]. split; [reflexivity|].
  split; [reflexivity|]. split; [reflexivity|]. split; [reflexivity|].
  split.
  - eexists; split; [reflexivity | apply variant_digit, H].
  - intros i c N N8 N13 N18 N23.
    do 36 (destruct i as [|i];
           [cbn [nth_error] in N; injection N as <-;
            first [ reflexivity
                  | apply hexChar_isHex; apply H
                  | apply hexChar_isHex, variant_range, H
                  | exfalso; first [ apply N8; reflexivity
                                   | apply N13; reflexivity
                                   | apply N18; reflexivity
                                   | apply N23; reflexivity ] ]|]).
    cbn [nth_error] in N; destruct i; discriminate.
Qed.

Lemma uuid_is_version_4_witness :
  (forall k : nat, 0 <= (fun _ => 11) k < 16) /\
  length (generateUUID (fun _ => 11)) = 36%nat /\
  nth_error (generateUUID (fun _ => 11)) 14 = Some 52.
Proof.
  assert (H : forall k : nat, 0 <= (fun _ => 11) k < 16) by (intros; lia).
  split; [exact H|].
  pose proof (uuid_is_version_4 (fun _ => 11) H) as U.
  split; [exact (proj1 U)|].
  exact (proj1 (proj2 (proj2 (proj2 (proj2 (proj2 U)))))).
Defined.

(** *** isRunningViaNewx, isGlobalInstall *)

Lemma startsWith_includes (s p : jsstring) :
  startsWith s p = true -> includes s p = true.
Proof.
  intros H; destruct s; cbn [includes]; rewrite H; reflexivity.
Qed.

Lemma includes_tail (c : Z) (s p : jsstring) :
  includes s p = true -> includes (c :: s) p = true.
Proof.
  intros H; cbn [includes]; rewrite H; apply orb_true_r.
Qed.

Lemma startsWith_app_includes (p q : jsstring) :
  forall s, startsWith s (p ++ q) = true -> includes s q = true.
Proof.
  induction p as [|x p IH]; intros s H.
  - apply startsWith_includes; exact H.
  - destruct s as [|y s]; [discriminate|].
    cbn [app startsWith] in H; apply andb_true_iff in H; destruct H as [_ H].
    apply includes_tail, IH; exact H.
Qed.

(** A string that includes [p ++ q] includes [q]. *)
Lemma includes_suffix (p q : jsstring) :
  forall s, includes s (p ++ q) = true -> includes s q = true.
Proof.
  induction s as [|c s IH]; cbn [includes]; intros H.
  - rewrite orb_false_r in H.
    apply startsWith_app_includes in H; exact H.
  - apply orb_true_iff in H; destruct H as [H|H].
    + apply startsWith_app_includes in H; exact H.
    + apply (includes_tail c), IH; exact H.
Qed.

(** The client takes itself to run under npx exactly when the path of
    its script contains "_npx": the second test, for ".npm/_npx", never
    adds anything.  Without a script path neither npx nor a global
    installation is detected. *)
Theorem npx_detection_is_one_test (argv1 : option jsstring) :
  isRunningViaNewx argv1 = includes (execPath argv1) (js "_npx") /\
  (execPath argv1 = [] ->
   isRunningViaNewx argv1 = false /\ isGlobalInstall argv1 = false) /\
  (argv1 = None \/ argv1 = Some [] -> execPath argv1 = []).
Proof.
  split; [|split].
  - unfold isRunningViaNewx.
    destruct (includes (execPath argv1) (js "_npx")) eqn:A; [reflexivity|].
    destruct (includes (execPath argv1) (js ".npm/_npx")) eqn:B;
      [|reflexivity].
    apply (includes_suffix (js ".npm/") (js "_npx")) in B; congruence.
  - intros E; unfold isRunningViaNewx, isGlobalInstall; rewrite E.
    split; reflexivity.
  - intros [-> | ->]; reflexivity.
Qed.

Lemma npx_detection_is_one_test_witness :
  execPath None = [] /\
  isRunningViaNewx None = false /\ isGlobalInstall None = false.
Proof.
  split; [reflexivity|].
  exact (proj1 (proj2 (npx_detection_is_one_test None)) eq_refl).
Defined.

(** *** sendPrompt *)

Lemma fetches_app (l1 l2 : list action) :
  fetches (l1 ++ l2) = (fetches l1 + fetches l2)%nat.
Proof. unfold fetches; rewrite filter_app, length_app; reflexivity. Qed.

Lemma sleeps_app (l1 l2 : list action) :
  sleeps (l1 ++ l2) = (sleeps l1 + sleeps l2)%nat.
Proof. unfold sleeps; rewrite filter_app, length_app; reflexivity. Qed.

Lemma sends_app (prompt mode : jsstring) (l1 l2 : list action) :
  sends prompt mode l1 -> sends prompt mode l2 -> sends prompt mode (l1 ++ l2).
Proof.
  intros H1 H2 a p m Hin; apply in_app_or in Hin;
    destruct Hin; [eapply H1 | eapply H2]; eassumption.
Qed.

(** Attempts that time out before the last one: each is sent, warned
    about and waited for, and the loop goes on. *)
Lemma tryEach_timeouts (cfg : config) (fetch : nat -> fetched)
  (prompt mode : jsstring) (k : nat) :
  forall (a : nat) (rest : list nat) (last : option error) (log : list action),
    (a + k <= RETRY_ATTEMPTS cfg)%nat ->
    (forall j, (a <= j < a + k)%nat -> timesOut fetch j) ->
    sends prompt mode log ->
    exists last' log',
      tryEach cfg fetch prompt mode (seq a k ++ rest) last log =
      tryEach cfg fetch prompt mode rest last' log' /\
      fetches log' = (fetches log + k)%nat /\
      sleeps log' = (sleeps log + k)%nat /\
      sends prompt mode log' /\
      (k = 0%nat -> last' = last).
Proof.
  induction k as [|k IH]; intros a rest last log Hle Ht Hs.
  - exists last, log; cbn [seq app]; rewrite !Nat.add_0_r; auto.
  - cbn [seq app tryEach].
    destruct (Ht a) as [e [He Te]]; [lia|].
    rewrite He, Te.
    replace (a <? RETRY_ATTEMPTS cfg)%nat with true
      by (symmetry; apply Nat.ltb_lt; lia).
    destruct (IH (S a) rest (Some e)
                (((log ++ [InfoAttempt a (RETRY_ATTEMPTS cfg);
                           Fetch a prompt mode]) ++
                  [WarnTimeout a (RETRY_ATTEMPTS cfg)]) ++
                 [InfoWaiting (RETRY_DELAY cfg); Sleep (RETRY_DELAY cfg)]))
      as [last' [log' [E [F [Sp [Se _]]]]]].
    + lia.
    + intros j Hj; apply Ht; lia.
    + repeat apply sends_app; try exact Hs;
        intros x p m Hin; cbn in Hin;
        repeat (destruct Hin as [Hin|Hin]; try discriminate);
        try contradiction.
      injection Hin as _ <- <-; auto.
    + exists last', log'; split; [exact E|].
      rewrite F, Sp, !fetches_app, !sleeps_app.
      change (fetches [InfoAttempt a (RETRY_ATTEMPTS cfg); Fetch a prompt mode])
        with 1%nat.
      change (sleeps [InfoAttempt a (RETRY_ATTEMPTS cfg); Fetch a prompt mode])
        with 0%nat.
      change (fetches [WarnTimeout a (RETRY_ATTEMPTS cfg)]) with 0%nat.
      change (sleeps [WarnTimeout a (RETRY_ATTEMPTS cfg)]) with 0%nat.
      change (fetches [InfoWaiting (RETRY_DELAY cfg); Sleep (RETRY_DELAY cfg)])
        with 0%nat.
      change (sleeps [InfoWaiting (RETRY_DELAY cfg); Sleep (RETRY_DELAY cfg)])
        with 1%nat.
      split; [lia|]. split; [lia|]. split; [exact Se|]. intros; lia.
Qed.

(** The first attempt that does not time out decides: what it returns is
    returned, what it throws is thrown, and nothing more is sent.  Before
    it, each timed-out attempt was followed by one wait; every request
    carries the trimmed prompt. *)
Theorem first_answer_decides (cfg : config) (fetch : nat -> fetched)
  (prompt mode : jsstring) (k : nat) :
  (k < RETRY_ATTEMPTS cfg)%nat ->
  (forall j, (1 <= j <= k)%nat -> timesOut fetch j) ->
  ~ timesOut fetch (S k) ->
  exists log,
    sendPrompt cfg (Some fetch) prompt mode =
      (attemptOnce (fetch (S k)), log) /\
    fetches log = S k /\ sleeps log = k /\
    sends (trim prompt) mode log.
Proof.
  intros Hk Ht Hn; unfold sendPrompt.
  replace (seq 1 (RETRY_ATTEMPTS cfg))
    with (seq 1 k ++ seq (S k) (RETRY_ATTEMPTS cfg - k))
    by (rewrite <- seq_app; f_equal; lia).
  destruct (tryEach_timeouts cfg fetch (trim prompt) mode k 1
              (seq (S k) (RETRY_ATTEMPTS cfg - k)) None [])
    as [last' [log' [E [F [Sp [Se _]]]]]].
  - lia.
  - intros j Hj; apply Ht; lia.
  - intros a p m [].
  - rewrite E.
    replace (RETRY_ATTEMPTS cfg - k)%nat
      with (S (RETRY_ATTEMPTS cfg - k - 1)) by lia.
    cbn [seq tryEach].
    assert (Sl : sends (trim prompt) mode
                   (log' ++ [InfoAttempt (S k) (RETRY_ATTEMPTS cfg);
                             Fetch (S k) (trim prompt) mode])).
    { apply sends_app; [exact Se|].
      intros a p m Hin; cbn in Hin.
      destruct Hin as [Hin|[Hin|[]]]; [discriminate|].
      injection Hin as _ <- <-; auto. }
    destruct (attemptOnce (fetch (S k))) as [v|e] eqn:A.
    + eexists; split; [reflexivity|].
      rewrite fetches_app, sleeps_app, F, Sp.
      change (fetches [InfoAttempt (S k) (RETRY_ATTEMPTS cfg);
                       Fetch (S k) (trim prompt) mode]) with 1%nat.
      change (sleeps [InfoAttempt (S k) (RETRY_ATTEMPTS cfg);
                      Fetch (S k) (trim prompt) mode]) with 0%nat.
      change (fetches []) with 0%nat; change (sleeps []) with 0%nat.
      split; [lia|]. split; [lia | exact Sl].
    + destruct (isTimeout e) eqn:T.
      * exfalso; apply Hn; exists e; auto.
      * eexists; split; [reflexivity|].
        rewrite fetches_app, sleeps_app, F, Sp.
        change (fetches [InfoAttempt (S k) (RETRY_ATTEMPTS cfg);
                         Fetch (S k) (trim prompt) mode]) with 1%nat.
        change (sleeps [InfoAttempt (S k) (RETRY_ATTEMPTS cfg);
                        Fetch (S k) (trim prompt) mode]) with 0%nat.
        change (fetches []) with 0%nat; change (sleeps []) with 0%nat.
        split; [lia|]. split; [lia | exact Sl].
Qed.

Lemma first_answer_decides_witness :
  (0 < RETRY_ATTEMPTS (mkConfig 3 5000))%nat /\
  exists log,
    sendPrompt (mkConfig 3 5000)
      (Some (fun _ => Responded true 200
                        (JsonData (Str (js "success")) (Str []))))
      (js " hello ") (js "file-based") =
      (Returned (Str (js "No response received")), log) /\
    fetches log = 1%nat /\ sleeps log = 0%nat /\
    sends (trim (js " hello ")) (js "file-based") log.
Proof.
  split; [cbn; lia|].
  apply (first_answer_decides (mkConfig 3 5000)
           (fun _ => Responded true 200
                       (JsonData (Str (js "success")) (Str [])))
           (js " hello ") (js "file-based") 0).
  - cbn; lia.
  - intros j Hj; lia.
  - intros [e [He Te]]; vm_compute in He; discriminate.
Defined.

Lemma seq_last (n : nat) : (1 <= n)%nat -> seq 1 n = seq 1 (n - 1) ++ [n].
Proof.
  destruct n as [|m]; [lia|]; intros _.
  rewrite seq_S; cbn [Nat.sub]; rewrite Nat.sub_0_r; reflexivity.
Qed.

(** When every attempt times out, the last one is not followed by a wait
    and the call throws "Request failed after N attempts. Last error: "
    with the message of the last timeout: N requests, N - 1 waits. *)
Theorem exhausted_retries_throw (cfg : config) (fetch : nat -> fetched)
  (prompt mode : jsstring) (e : error) :
  (1 <= RETRY_ATTEMPTS cfg)%nat ->
  (forall j, (1 <= j < RETRY_ATTEMPTS cfg)%nat -> timesOut fetch j) ->
  attemptOnce (fetch (RETRY_ATTEMPTS cfg)) = Thrown e ->
  isTimeout e = true ->
  exists log,
    sendPrompt cfg (Some fetch) prompt mode =
      (Thrown (Error (js "Request failed after " ++
                      numberToString (Z.of_nat (RETRY_ATTEMPTS cfg)) ++
                      js " attempts. Last error: " ++ message e)),
       log ++ [WarnTimeout (RETRY_ATTEMPTS cfg) (RETRY_ATTEMPTS cfg)]) /\
    fetches (log ++ [WarnTimeout (RETRY_ATTEMPTS cfg) (RETRY_ATTEMPTS cfg)]) =
      RETRY_ATTEMPTS cfg /\
    sleeps (log ++ [WarnTimeout (RETRY_ATTEMPTS cfg) (RETRY_ATTEMPTS cfg)]) =
      (RETRY_ATTEMPTS cfg - 1)%nat.
Proof.
  intros Hn Ht He Te; unfold sendPrompt.
  set (n := RETRY_ATTEMPTS cfg) in *.
  rewrite (seq_last n Hn).
  destruct (tryEach_timeouts cfg fetch (trim prompt) mode (n - 1) 1 [n] None [])
    as [last' [log' [E [F [Sp _]]]]].
  - fold n; lia.
  - intros j Hj; apply Ht; lia.
  - intros a p m [].
  - rewrite E; cbn [tryEach]; fold n.
    rewrite He, Te, Nat.ltb_irrefl.
    eexists; split; [reflexivity|].
    rewrite !fetches_app, !sleeps_app, F, Sp.
    change (fetches [InfoAttempt n n; Fetch n (trim prompt) mode]) with 1%nat.
    change (sleeps [InfoAttempt n n; Fetch n (trim prompt) mode]) with 0%nat.
    change (fetches [WarnTimeout n n]) with 0%nat.
    change (sleeps [WarnTimeout n n]) with 0%nat.
    change (fetches []) with 0%nat; change (sleeps []) with 0%nat.
    split; lia.
Qed.

Lemma exhausted_retries_throw_witness :
  (1 <= RETRY_ATTEMPTS (mkConfig 3 5000))%nat /\
  isTimeout (timeoutError (js "network timeout")) = true /\
  exists log,
    sendPrompt (mkConfig 3 5000)
      (Some (fun _ => Rejected (timeoutError (js "network timeout"))))
      (js "hello") (js "file-based") =
      (Thrown (Error (js "Request failed after " ++
                      numberToString (Z.of_nat 3) ++
                      js " attempts. Last error: " ++ js "network timeout")),
       log ++ [WarnTimeout 3 3]) /\
    fetches (log ++ [WarnTimeout 3 3]) = 3%nat /\
    sleeps (log ++ [WarnTimeout 3 3]) = (3 - 1)%nat.
Proof.
  split; [cbn; lia|]. split; [reflexivity|].
  apply (exhausted_retries_throw (mkConfig 3 5000)
           (fun _ => Rejected (timeoutError (js "network timeout")))
           (js "hello") (js "file-based")
           (timeoutError (js "network timeout"))).
  - cbn; lia.
  - intros j Hj; eexists; split; reflexivity.
  - reflexivity.
  - reflexivity.
Defined.

Lemma tryEach_bounded (cfg : config) (fetch : nat -> fetched)
  (prompt mode : jsstring) (k : nat) :
  forall (a : nat) (last : option error) (log : list action),
    (a + k = S (RETRY_ATTEMPTS cfg))%nat ->
    (fetches (snd (tryEach cfg fetch prompt mode (seq a k) last log))
       <= fetches log + k)%nat /\
    (sleeps (snd (tryEach cfg fetch prompt mode (seq a k) last log))
       <= sleeps log + (k - 1))%nat.
Proof.
  induction k as [|k IH]; intros a last log Ha.
  - cbn [seq tryEach]; destruct last; cbn [snd]; lia.
  - cbn [seq tryEach].
    assert (F1 : fetches (log ++ [InfoAttempt a (RETRY_ATTEMPTS cfg);
                                  Fetch a prompt mode]) = S (fetches log))
      by (rewrite fetches_app; cbn; lia).
    assert (S1 : sleeps (log ++ [InfoAttempt a (RETRY_ATTEMPTS cfg);
                                 Fetch a prompt mode]) = sleeps log)
      by (rewrite sleeps_app; cbn; lia).
    destruct (attemptOnce (fetch a)) as [v|e]; [cbn [snd]; lia|].
    destruct (isTimeout e); [|cbn [snd]; lia].
    destruct (a <? RETRY_ATTEMPTS cfg)%nat eqn:L.
    + apply Nat.ltb_lt in L.
      destruct (IH (S a) (Some e)
                  (((log ++ [InfoAttempt a (RETRY_ATTEMPTS cfg);
                             Fetch a prompt mode]) ++
                    [WarnTimeout a (RETRY_ATTEMPTS cfg)]) ++
                   [InfoWaiting (RETRY_DELAY cfg); Sleep (RETRY_DELAY cfg)]))
        as [Hf Hs]; [lia|].
      rewrite 2!fetches_app, F1 in Hf; rewrite 2!sleeps_app, S1 in Hs.
      change (fetches [WarnTimeout a (RETRY_ATTEMPTS cfg)]) with 0%nat in Hf.
      change (sleeps [WarnTimeout a (RETRY_ATTEMPTS cfg)]) with 0%nat in Hs.
      change (fetches [InfoWaiting (RETRY_DELAY cfg); Sleep (RETRY_DELAY cfg)])
        with 0%nat in Hf.
      change (sleeps [InfoWaiting (RETRY_DELAY cfg); Sleep (RETRY_DELAY cfg)])
        with 1%nat in Hs.
      lia.
    + apply Nat.ltb_ge in L.
      destruct (IH (S a) (Some e)
                  ((log ++ [InfoAttempt a (RETRY_ATTEMPTS cfg);
                            Fetch a prompt mode]) ++
                   [WarnTimeout a (RETRY_ATTEMPTS cfg)]))
        as [Hf Hs]; [lia|].
      rewrite fetches_app, F1 in Hf; rewrite sleeps_app, S1 in Hs.
      change (fetches [WarnTimeout a (RETRY_ATTEMPTS cfg)]) with 0%nat in Hf.
      change (sleeps [WarnTimeout a (RETRY_ATTEMPTS cfg)]) with 0%nat in Hs.
      lia.
Qed.

(** Whatever the backend does, a call makes at most RETRY_ATTEMPTS
    requests and waits fewer times than that; with no attempt configured
    it sends nothing and throws a TypeError instead of its own error, and
    before the fetch function is loaded it throws without sending. *)
Theorem requests_are_bounded (cfg : config) (fetch : nat -> fetched)
  (prompt mode : jsstring) :
  (fetches (snd (sendPrompt cfg (Some fetch) prompt mode))
     <= RETRY_ATTEMPTS cfg)%nat /\
  (sleeps (snd (sendPrompt cfg (Some fetch) prompt mode))
     <= RETRY_ATTEMPTS cfg - 1)%nat /\
  (RETRY_ATTEMPTS cfg = 0%nat ->
   sendPrompt cfg (Some fetch) prompt mode =
     (Thrown (TypeError (js "undefined") (js "message")), [])) /\
  sendPrompt cfg None prompt mode =
    (Thrown (Error (js "Fetch not initialized. Call createTempEnvironment first.")),
     []).
Proof.
  unfold sendPrompt.
  destruct (tryEach_bounded cfg fetch (trim prompt) mode (RETRY_ATTEMPTS cfg)
              1 None []) as [Hf Hs]; [lia|].
  change (fetches []) with 0%nat in Hf; change (sleeps []) with 0%nat in Hs.
  split; [lia|]. split; [lia|]. split; [|reflexivity].
  intros ->; reflexivity.
Qed.

Lemma requests_are_bounded_witness :
  RETRY_ATTEMPTS (mkConfig 0 5000) = 0%nat /\
  sendPrompt (mkConfig 0 5000) (Some (fun _ => Rejected (Error [])))
             (js "hello") (js "file-based") =
    (Thrown (TypeError (js "undefined") (js "message")), []).
Proof.
  split; [reflexivity|].
  exact (proj1 (proj2 (proj2 (requests_are_bounded (mkConfig 0 5000)
                                (fun _ => Rejected (Error []))
                                (js "hello") (js "file-based"))))
               eq_refl).
Defined.

End ClientFacts.

(* ------------------------------------------------------------------ *)
(** ** The menu and file mode: properties                              *)
(* ------------------------------------------------------------------ *)

Module FileModeFacts.

Import Menu MenuProps FileMode JSFacts.

(** *** The key handler *)

Lemma onKeyPress_handled (opts : list menuOption) (key : jsstring)
  (st : Menu.state) :
  selects opts st -> handled opts st (onKeyPress opts key st).
Proof.
  unfold selects; intros H; unfold onKeyPress.
  destruct (jseq key [3]); [cbn; auto|].
  destruct (jseq key keyUp).
  { cbn; unfold selects; cbn.
    destruct (0 <? selectedIndex st) eqn:E;
      [apply Z.ltb_lt in E | apply Z.ltb_ge in E]; repeat split; lia. }
  destruct (jseq key keyDown).
  { cbn; unfold selects; cbn.
    destruct (selectedIndex st <? _) eqn:E;
      [apply Z.ltb_lt in E | apply Z.ltb_ge in E]; repeat split; lia. }
  destruct (jseq key CR || jseq key LF).
  { unfold optionAt.
    replace (selectedIndex st <? 0) with false
      by (symmetry; apply Z.ltb_ge; lia).
    destruct (nth_error opts (Z.to_nat (selectedIndex st))) eqn:N.
    - cbn; auto.
    - apply nth_error_None in N; lia. }
  destruct (strLe (js "1") key && strLe key (numberToString _)); cbn; auto.
Qed.

Lemma pressAll_handled (opts : list menuOption) (keys : list jsstring) :
  forall st, selects opts st -> handled opts st (pressAll opts keys st).
Proof.
  induction keys as [|k keys IH]; intros st H; cbn [pressAll].
  - cbn; auto.
  - pose proof (onKeyPress_handled opts k st H) as Hk.
    destruct (onKeyPress opts k st) as [s1|c s1|s1]; cbn [handled] in Hk.
    + destruct Hk as [Hs [R [L F]]].
      pose proof (IH s1 Hs) as Hr.
      destruct (pressAll opts keys s1); cbn [handled] in *;
        [rewrite <- R, <- L, <- F|..]; exact Hr.
    + exact Hk.
    + contradiction.
Qed.

(** Whatever keys arrive, the selection stays inside the menu, so Enter
    always finds an option and the handler never throws; while it waits it
    leaves the terminal as it is, and when it resolves it has switched raw
    mode off, paused the input and unregistered itself. *)
Theorem menu_handler_never_throws
  (opts : list menuOption) (keys : list jsstring) (st : Menu.state) :
  0 <= selectedIndex st < Z.of_nat (length opts) ->
  handled opts st (pressAll opts keys st).
Proof. apply pressAll_handled. Qed.

Lemma menu_handler_never_throws_witness :
  0 <= selectedIndex (appear 0) < Z.of_nat (length options) /\
  handled options (appear 0)
          (pressAll options [keyUp; js "x"; keyDown; keyDown; LF] (appear 0)).
Proof.
  assert (H : 0 <= selectedIndex (appear 0) < Z.of_nat (length options))
    by (vm_compute; split; [discriminate | reflexivity]).
  split; [exact H|].
  exact (menu_handler_never_throws options
           [keyUp; js "x"; keyDown; keyDown; LF] (appear 0) H).
Defined.

(** *** The choice *)

Lemma chosen_is_not_3 (key : jsstring) (st : Menu.state)
  (choice : jsstring) (st' : Menu.state) :
  onKeyPress options key st = Chosen choice st' ->
  jseq choice (js "3") = false /\
  (jseq key [3] = true -> choice = js "exit").
Proof.
  unfold onKeyPress.
  destruct (jseq key [3]); [intros [= <- _]; auto|].
  destruct (jseq key keyUp); [discriminate|].
  destruct (jseq key keyDown); [discriminate|].
  destruct (jseq key CR || jseq key LF).
  { unfold optionAt.
    destruct (selectedIndex st <? 0); [discriminate|].
    destruct (Z.to_nat (selectedIndex st)) as [|[|n]]; cbn.
    - intros [= <- _]; split; [reflexivity | discriminate].
    - intros [= <- _]; split; [reflexivity | discriminate].
    - destruct n; discriminate. }
  destruct (strLe (js "1") key && strLe key (numberToString _)) eqn:D;
    [|discriminate].
  intros [= <- _]; split; [|discriminate].
  apply andb_true_iff in D; destruct D as [_ D].
  destruct (jseq key (js "3")) eqn:J; [|reflexivity].
  apply jseq_eq in J; subst key; discriminate.
Qed.

(** No choice the key handler can resolve with reaches the branch that
    says goodbye and ends the process with code 0: it is taken for "3"
    only, and the handler gives "1", "2", "exit" or a string between "1"
    and "2".  Ctrl+C gives "exit", which like "2" takes the second branch:
    the exit is requested, the summary and the return to the mode selection
    are announced, and the call of showModeSelection, which the class does
    not define, throws a TypeError; the files and the count are untouched
    and no later choice is processed. *)
Theorem menu_exit_throws_a_type_error
  (key : jsstring) (st st' : Menu.state) (choice : jsstring)
  (w : world) (send : jsstring -> Client.result) (s : session) :
  onKeyPress options key st = Chosen choice st' ->
  (forall code s', process w send choice s <> ProcessExit code s') /\
  (jseq key [3] = true \/ choice = js "2" ->
   exists e s',
     (forall later, processAll w send (choice :: later) s = Rejects e s') /\
     name e = js "TypeError" /\
     message e = js "this.showModeSelection is not a function" /\
     exitRequested s' = true /\
     inputFile s' = inputFile s /\ outputFile s' = outputFile s /\
     requestCount s' = requestCount s /\
     shown s' =
       shown s ++ [Banner; SessionSummary (requestCount s); ReturningToModes]).
Proof.
  intros H; destruct (chosen_is_not_3 key st choice st' H) as [N C].
  split.
  - intros code s'; unfold process.
    destruct (jseq choice (js "1") || jseq choice (js "Process Input")).
    { destruct (isProcessing (say Banner s)); [discriminate|].
      cbn [inputFile setProcessing say].
      destruct (inputFile s); [|discriminate].
      destruct (jseq (trim j) []); [discriminate|].
      destruct (send (trim j)) as [[| | |r|]|e]; discriminate. }
    destruct (jseq choice (js "2") || jseq choice (js "Exit Brahma") ||
              jseq choice (js "exit")) eqn:B; [discriminate|].
    apply orb_false_iff in B; destruct B as [B B3].
    apply orb_false_iff in B; destruct B as [_ B2].
    rewrite N, B2, B3; discriminate.
  - intros K.
    assert (P : process w send choice s =
                Rejects (notAFunction (js "this.showModeSelection"))
                  (say ReturningToModes
                     (say (SessionSummary (requestCount s))
                        (requestExit (say Banner s)))))
      by (destruct K as [K| ->]; [rewrite (C K)|]; reflexivity).
    eexists; eexists; split.
    + intros later; cbn [processAll]; rewrite P; reflexivity.
    + cbn; rewrite <- !app_assoc; repeat split; reflexivity.
Qed.

Lemma menu_exit_throws_a_type_error_witness :
  onKeyPress options [3] (appear 0) = Chosen (js "exit") (release (appear 0))
  /\
  exists e s',
    processAll (mkWorld (Error []) (Error []) [])
               (fun _ => Client.Returned Null)
               [js "exit"; js "1"] start = Rejects e s' /\
    message e = js "this.showModeSelection is not a function" /\
    exitRequested s' = true.
Proof.
  split; [reflexivity|].
  destruct (proj2 (menu_exit_throws_a_type_error
                     [3] (appear 0) (release (appear 0)) (js "exit")
                     (mkWorld (Error []) (Error []) [])
                     (fun _ => Client.Returned Null) start eq_refl)
                  (or_introl eq_refl))
    as [e [s' [P [_ [M [X _]]]]]].
  exists e, s'; split; [exact (P [js "1"]) | split; [exact M | exact X]].
Defined.

(** *** Processing the input file *)

Lemma substring_prefix (s : jsstring) (n : Z) :
  0 <= n <= Z.of_nat (length s) -> substring s 0 n = firstn (Z.to_nat n) s.
Proof.
  intros H; unfold substring; cbv zeta.
  replace (Z.min (Z.max 0 0) (Z.of_nat (length s))) with 0 by lia.
  replace (Z.min (Z.max n 0) (Z.of_nat (length s))) with n by lia.
  replace (Z.min 0 n) with 0 by lia.
  replace (Z.max 0 n) with n by lia.
  rewrite Z.sub_0_r; reflexivity.
Qed.

Lemma preview_short (content : jsstring) :
  (length (preview content) <= 53)%nat /\
  firstn 50 (preview content) = firstn 50 content.
Proof.
  unfold preview.
  destruct (50 <? Z.of_nat (length content)) eqn:E;
    [apply Z.ltb_lt in E | apply Z.ltb_ge in E].
  - rewrite substring_prefix by lia.
    change (Z.to_nat 50) with 50%nat.
    split.
    + rewrite length_app, length_firstn.
      change (length (js "...")) with 3%nat; lia.
    + rewrite firstn_app, length_firstn.
      replace (50 - Nat.min 50 (length content))%nat with 0%nat by lia.
      rewrite firstn_O, app_nil_r, firstn_firstn; reflexivity.
  - split; [lia | reflexivity].
Qed.

(** A request with text in input.txt: when sendPrompt returns a string,
    output.txt holds it, input.txt is reset to the template and the loading
    animation is still running when the menu comes back; when it throws,
    output.txt holds the error report, input.txt is kept and the animation
    is stopped.  Either way the request is counted, its preview shown is at
    most 53 characters long, and isProcessing is false again. *)
Theorem request_outcome_reaches_the_files
  (w : world) (send : jsstring -> Client.result) (s : session)
  (raw : jsstring) :
  isProcessing s = false ->
  inputFile s = Some raw ->
  trim raw <> [] ->
  (length (preview (trim raw)) <= 53)%nat /\
  (forall response,
     send (trim raw) = Client.Returned (Str response) ->
     exists s',
       process w send (js "1") s = Again s' /\
       outputFile s' = response /\
       inputFile s' = Some inputTemplate /\
       requestCount s' = requestCount s + 1 /\
       isProcessing s' = false /\ loading s' = true /\
       shown s' = shown s ++
         [Banner; RequestInfo (requestCount s + 1) (preview (trim raw));
          TimeoutInfo; Processed (requestCount s + 1)]) /\
  (forall e,
     send (trim raw) = Client.Thrown e ->
     exists s',
       process w send (js "1") s = Again s' /\
       outputFile s' = errorReport w e /\
       inputFile s' = Some raw /\
       requestCount s' = requestCount s + 1 /\
       isProcessing s' = false /\ loading s' = false).
Proof.
  intros P I T; apply jseq_nil_false in T.
  split; [apply preview_short|]. split.
  - intros response R; unfold process.
    cbn [jseq js map list_ascii_of_string orb]; cbn.
    rewrite P, I; cbn. rewrite T, R; cbn.
    eexists; split; [reflexivity|].
    cbn [outputFile inputFile requestCount isProcessing loading shown
         setProcessing say writeInput writeOutput startLoading countRequest].
    rewrite <- !app_assoc; repeat split; reflexivity.
  - intros e R; unfold process; cbn.
    rewrite P, I; cbn. rewrite T, R; cbn.
    eexists; split; [reflexivity|].
    unfold caught; cbn.
    destruct (includes (message e) _ || includes (message e) _); cbn;
      repeat split; try reflexivity; exact I.
Qed.

Lemma request_outcome_reaches_the_files_witness :
  isProcessing start = false /\
  inputFile start = Some inputTemplate /\
  trim inputTemplate <> [] /\
  exists s',
    process (mkWorld (Error []) (Error []) [])
            (fun _ => Client.Returned (Str (js "ok"))) (js "1") start =
      Again s' /\
    outputFile s' = js "ok" /\ loading s' = true.
Proof.
  assert (T : trim inputTemplate <> []) by (vm_compute; discriminate).
  split; [reflexivity|]. split; [reflexivity|]. split; [exact T|].
  destruct (proj1 (proj2 (request_outcome_reaches_the_files
                            (mkWorld (Error []) (Error []) [])
                            (fun _ => Client.Returned (Str (js "ok")))
                            start inputTemplate eq_refl eq_refl T))
                  (js "ok") eq_refl)
    as [s' [E [O [_ [_ [_ [L _]]]]]]].
  exists s'; auto.
Defined.

(** With nothing but white space in input.txt no request is made: the
    turn is the same whatever sendPrompt would do, the files and the count
    are untouched, the loading animation is off and the only thing shown
    after the banner is that the input is empty. *)
Theorem blank_input_sends_nothing
  (w : world) (s : session) (raw : jsstring) :
  isProcessing s = false ->
  inputFile s = Some raw ->
  trim raw = [] ->
  exists s',
    (forall send, process w send (js "1") s = Again s') /\
    inputFile s' = inputFile s /\ outputFile s' = outputFile s /\
    requestCount s' = requestCount s /\
    isProcessing s' = false /\ loading s' = false /\
    shown s' = shown s ++ [Banner; InputEmpty].
Proof.
  intros P I T.
  eexists; split.
  - intros send; unfold process; cbn.
    rewrite P, I; cbn. rewrite T; cbn. reflexivity.
  - cbn; rewrite <- app_assoc; repeat split; reflexivity.
Qed.

Lemma blank_input_sends_nothing_witness :
  isProcessing (writeInput (js "  ") start) = false /\
  inputFile (writeInput (js "  ") start) = Some (js "  ") /\
  trim (js "  ") = [] /\
  exists s',
    (forall send,
       process (mkWorld (Error []) (Error []) []) send (js "1")
               (writeInput (js "  ") start) = Again s') /\
    requestCount s' = requestCount (writeInput (js "  ") start).
Proof.
  split; [reflexivity|]. split; [reflexivity|]. split; [reflexivity|].
  destruct (blank_input_sends_nothing (mkWorld (Error []) (Error []) [])
              (writeInput (js "  ") start) (js "  ")
              eq_refl eq_refl eq_refl)
    as [s' [E [_ [_ [C _]]]]].
  exists s'; auto.
Defined.

(** *** isProcessing *)

Lemma not_in_snoc (m : notice) (l : list notice) :
  ~ In AlreadyProcessing l -> m <> AlreadyProcessing ->
  ~ In AlreadyProcessing (l ++ [m]).
Proof.
  intros H N Hin; apply in_app_or in Hin; destruct Hin as [Hin|[Hin|[]]];
    [contradiction | congruence].
Qed.

Lemma caught_idle (w : world) (e : error) (s : session) :
  ~ In AlreadyProcessing (shown s) -> idle (caught w e s).
Proof.
  intros H; unfold idle, caught; cbn.
  split; [reflexivity|].
  destruct (includes (message e) _ || includes (message e) _); cbn;
    repeat apply not_in_snoc; try exact H; discriminate.
Qed.

Lemma process_idle (w : world) (send : jsstring -> Client.result)
  (choice : jsstring) (s : session) :
  idle s -> idle (sessionOf (process w send choice s)).
Proof.
  intros [P H]; unfold process.
  assert (Hb : ~ In AlreadyProcessing (shown s ++ [Banner]))
    by (apply not_in_snoc; [exact H | discriminate]).
  destruct (jseq choice (js "1") || jseq choice (js "Process Input")).
  { cbn [isProcessing say]; rewrite P.
    cbn [inputFile setProcessing say].
    destruct (inputFile s) as [raw|]; [|apply caught_idle; exact Hb].
    destruct (jseq (trim raw) []).
    { unfold idle; cbn; split; [reflexivity|].
      apply not_in_snoc; [exact Hb | discriminate]. }
    destruct (send (trim raw)) as [[| | |r|]|e]; cbn [sessionOf];
      try (apply caught_idle; cbn;
           repeat apply not_in_snoc; try exact H; discriminate).
    unfold idle; cbn; split; [reflexivity|].
    repeat apply not_in_snoc; try exact H; discriminate. }
  destruct (jseq choice (js "2") || jseq choice (js "Exit Brahma") ||
            jseq choice (js "exit")).
  { unfold idle; cbn; split; [exact P|].
    repeat apply not_in_snoc; try exact H; discriminate. }
  destruct (jseq choice (js "3") || jseq choice (js "Exit Brahma") ||
            jseq choice (js "exit")).
  { unfold idle; cbn; split; [exact P|].
    repeat apply not_in_snoc; try exact H; discriminate. }
  unfold idle; cbn; auto.
Qed.

(** From the first appearance of the menu on, whatever is chosen and
    however the requests end, isProcessing is false each time the menu comes
    back; so the branch that answers "Already processing a request" is
    never taken. *)
Theorem already_processing_is_never_shown
  (w : world) (send : jsstring -> Client.result) (choices : list jsstring) :
  isProcessing (sessionOf (processAll w send choices start)) = false /\
  ~ In AlreadyProcessing (shown (sessionOf (processAll w send choices start))).
Proof.
  assert (G : forall s, idle s -> idle (sessionOf (processAll w send choices s))).
  { induction choices as [|c choices IH]; intros s I; cbn [processAll];
      [exact I|].
    pose proof (process_idle w send c s I) as Ic.
    destruct (process w send c s) as [s1|e s1|k s1]; cbn [sessionOf] in *;
      [apply IH|..]; exact Ic. }
  apply G; split; [reflexivity | intros []].
Qed.

End FileModeFacts.

(* ------------------------------------------------------------------ *)
(** ** The agent: properties                                           *)
(* ------------------------------------------------------------------ *)

Module AgentFacts.

Import Agent JSFacts.

Lemma matchLoop_acc (codeTemplates : list template) (tests : list testCase) :
  forall matched unmatched,
    matchLoop tests codeTemplates matched unmatched =
    (matched ++ fst (matchLoop tests codeTemplates [] []),
     unmatched ++ snd (matchLoop tests codeTemplates [] [])).
Proof.
  induction tests as [|t tests IH]; intros matched unmatched; cbn [matchLoop].
  - cbn; rewrite !app_nil_r; reflexivity.
  - destruct (matchingSource t codeTemplates) as [src|].
    + rewrite (IH (matched ++ _)), (IH ([] ++ _)); cbn [fst snd app].
      rewrite <- app_assoc; reflexivity.
    + rewrite (IH matched (unmatched ++ _)), (IH [] ([] ++ _));
        cbn [fst snd app].
      rewrite <- app_assoc; reflexivity.
Qed.

Lemma matched_tests (codeTemplates : list template) (tests : list testCase) :
  map test (fst (matchTestsToSources tests codeTemplates)) =
    filter (hasSource codeTemplates) tests /\
  snd (matchTestsToSources tests codeTemplates) =
    filter (fun t => negb (hasSource codeTemplates t)) tests /\
  Forall (fun m => matchingSource (test m) codeTemplates = Some (source m) /\
                   matchedBy m = js "naming-convention")
         (fst (matchTestsToSources tests codeTemplates)).
Proof.
  unfold matchTestsToSources.
  induction tests as [|t tests [IH1 [IH2 IH3]]]; cbn [matchLoop filter].
  - cbn; auto.
  - assert (H : hasSource codeTemplates t =
                match matchingSource t codeTemplates with
                | Some _ => true
                | None => false
                end) by reflexivity.
    destruct (matchingSource t codeTemplates) as [src|] eqn:M;
      rewrite H, matchLoop_acc; cbn [fst snd app negb map].
    + split; [f_equal; exact IH1|]. split; [exact IH2|].
      constructor; [cbn; auto | exact IH3].
    + split; [exact IH1|]. split; [f_equal; exact IH2 | exact IH3].
Qed.

Lemma filter_split_length {A : Type} (f : A -> bool) (l : list A) :
  (length (filter f l) + length (filter (fun x => negb (f x)) l))%nat =
  length l.
Proof.
  induction l as [|x l IH]; [reflexivity|]; cbn [filter].
  destruct (f x); cbn [negb length]; lia.
Qed.

(** Every test ends up in exactly one of the two lists, in the order of
    the scan: matched are the tests for which some template bears one of
    the four candidate names, each paired with the first such template of
    the list (what [find] returns), and unmatched are the others. *)
Theorem tests_are_partitioned
  (tests : list testCase) (codeTemplates : list template) :
  map test (fst (matchTestsToSources tests codeTemplates)) =
    filter (hasSource codeTemplates) tests /\
  snd (matchTestsToSources tests codeTemplates) =
    filter (fun t => negb (hasSource codeTemplates t)) tests /\
  (length (fst (matchTestsToSources tests codeTemplates)) +
   length (snd (matchTestsToSources tests codeTemplates)))%nat = length tests /\
  Forall (fun m =>
            find (isCandidate (test m)) codeTemplates = Some (source m) /\
            In (source m) codeTemplates /\
            isCandidate (test m) (source m) = true /\
            matchedBy m = js "naming-convention")
         (fst (matchTestsToSources tests codeTemplates)).
Proof.
  destruct (matched_tests codeTemplates tests) as [M1 [M2 M3]].
  split; [exact M1|]. split; [exact M2|]. split.
  - rewrite <- (length_map test), M1, M2; apply filter_split_length.
  - eapply Forall_impl; [|exact M3]; cbv beta; intros m [F B].
    unfold matchingSource in F.
    destruct (find_some _ _ F) as [I C]; auto.
Qed.

(** The summary of the payload built from the match adds up: matched
    pairs and unmatched tests together are the test files, and the counts
    are the lengths of the lists sent. *)
Theorem payload_summary_adds_up
  (now : jsstring) (tests : list testCase) (codeTemplates : list template) :
  let p := buildPayload now tests codeTemplates
             (matchTestsToSources tests codeTemplates) in
  (matchedPairs (payloadSummary p) + unmatchedTests (payloadSummary p))%nat =
    totalTestFiles (payloadSummary p) /\
  length (payloadMatches p) = matchedPairs (payloadSummary p) /\
  length (payloadUnmatched p) = unmatchedTests (payloadSummary p) /\
  length (payloadTests p) = totalTestFiles (payloadSummary p) /\
  length (payloadTemplates p) = totalSourceFiles (payloadSummary p).
Proof.
  cbn; rewrite !length_map.
  destruct (matched_tests codeTemplates tests) as [M1 [M2 _]].
  repeat split.
  rewrite <- (length_map test), M1, M2; apply filter_split_length.
Qed.

(** *** The naming conventions *)


Lemma startsWith_app (p s : jsstring) : startsWith (p ++ s) p = true.
Proof.
  induction p as [|x p IH]; [destruct s; reflexivity|].
  cbn [app startsWith]; rewrite Z.eqb_refl, IH; reflexivity.
Qed.

Lemma stripPrefix_app (p s : jsstring) : stripPrefix p (p ++ s) = s.
Proof.
  unfold stripPrefix; rewrite startsWith_app.
  rewrite skipn_app, Nat.sub_diag, skipn_all; reflexivity.
Qed.

Lemma stripSuffix_app (p s : jsstring) : stripSuffix p (s ++ p) = s.
Proof.
  unfold stripSuffix, endsWith.
  rewrite rev_app_distr, startsWith_app, length_app.
  replace (length s + length p - length p)%nat with (length s) by lia.
  rewrite firstn_app, Nat.sub_diag, firstn_all, firstn_O, app_nil_r.
  reflexivity.
Qed.

Lemma arrayIncludes_In (names : list jsstring) (name : jsstring) :
  In name names -> arrayIncludes names name = true.
Proof.
  intros H; unfold arrayIncludes; apply existsb_exists.
  exists name; split; [exact H | apply jseq_refl].
Qed.

(** A name cannot end both in "Test" and in "Tests". *)
Lemma not_both_suffixes (n : jsstring) :
  endsWith n (js "Test") = true -> endsWith n (js "Tests") = true -> False.
Proof.
  unfold endsWith.
  change (rev (js "Test")) with [116; 115; 101; 84].
  change (rev (js "Tests")) with [115; 116; 115; 101; 84].
  destruct (rev n) as [|c r]; [discriminate|].
  cbn [startsWith]; intros H1 H2.
  apply andb_true_iff in H1; destruct H1 as [H1 _].
  apply andb_true_iff in H2; destruct H2 as [H2 _].
  apply Z.eqb_eq in H1; apply Z.eqb_eq in H2; lia.
Qed.

Lemma own_name_is_candidate (t : testCase) :
  In (testName t) (possibleSourceNames t).
Proof.
  unfold possibleSourceNames.
  destruct (endsWith (testName t) (js "Test")) eqn:E1.
  - destruct (endsWith (testName t) (js "Tests")) eqn:E2.
    + exfalso; eapply not_both_suffixes; eassumption.
    + right; right; left; unfold stripSuffix; rewrite E2; reflexivity.
  - right; left; unfold stripSuffix; rewrite E1; reflexivity.
Qed.

Lemma candidate_is_matched (t : testCase) (codeTemplates : list template)
  (src : template) :
  In src codeTemplates ->
  In (sourceName src) (possibleSourceNames t) ->
  exists found,
    matchingSource t codeTemplates = Some found /\
    In found codeTemplates /\ isCandidate t found = true.
Proof.
  intros Hin Hc; unfold matchingSource.
  destruct (find (isCandidate t) codeTemplates) as [found|] eqn:F.
  - exists found; split; [reflexivity|]. apply (find_some _ _ F).
  - exfalso.
    pose proof (find_none _ _ F src Hin) as N.
    unfold isCandidate in N; rewrite arrayIncludes_In in N by exact Hc.
    discriminate.
Qed.

(** A test named after a source by any of the conventions is matched:
    with the name of a template [src] being [base], a test called
    Test[base], [base]Test, [base]Tests or [base]IT, and also a test
    called [base] itself, gets a source (the first template bearing one of
    its candidate names). *)
Theorem naming_conventions_match
  (t : testCase) (codeTemplates : list template) (src : template) :
  In src codeTemplates ->
  testName t = js "Test" ++ sourceName src \/
  testName t = sourceName src ++ js "Test" \/
  testName t = sourceName src ++ js "Tests" \/
  testName t = sourceName src ++ js "IT" \/
  testName t = sourceName src ->
  exists found,
    matchingSource t codeTemplates = Some found /\
    In found codeTemplates /\ isCandidate t found = true.
Proof.
  intros Hin H; apply (candidate_is_matched t codeTemplates src Hin).
  destruct H as [H|[H|[H|[H|H]]]].
  - left; rewrite H; apply stripPrefix_app.
  - right; left; rewrite H; apply stripSuffix_app.
  - right; right; left; rewrite H; apply stripSuffix_app.
  - right; right; right; left; rewrite H; apply stripSuffix_app.
  - rewrite <- H; apply own_name_is_candidate.
Qed.

Lemma naming_conventions_match_witness :
  In calculator [calculator] /\
  testName calculatorIT = sourceName calculator ++ js "IT" /\
  exists found,
    matchingSource calculatorIT [calculator] = Some found /\
    In found [calculator] /\ isCandidate calculatorIT found = true.
Proof.
  assert (H : In calculator [calculator]) by (left; reflexivity).
  split; [exact H|]. split; [reflexivity|].
  exact (naming_conventions_match calculatorIT [calculator] calculator H
           (or_intror (or_intror (or_intror (or_introl eq_refl))))).
Defined.

(** *** The agent endpoint *)





End AgentFacts.

(* ------------------------------------------------------------------ *)
(** ** The UI: properties                                              *)
(* ------------------------------------------------------------------ *)

Module UIFacts.

Import UI JSFacts.

(** *** stripAnsi *)

Lemma matchLength_plain (c : Z) (t : jsstring) :
  c <> 27 -> matchLength (c :: t) = None.
Proof.
  intros H; unfold matchLength; destruct t as [|b rest]; [reflexivity|].
  replace (c =? 27) with false by (symmetry; apply Z.eqb_neq; exact H).
  reflexivity.
Qed.

Lemma strip_plain (t rest : jsstring) :
  ~ In 27 t -> strip 0 (t ++ rest) = t ++ strip 0 rest.
Proof.
  induction t as [|c t IH]; intros H; [reflexivity|].
  cbn [app strip].
  change (matchLength (c :: t ++ rest)) with (matchLength (c :: (t ++ rest))).
  rewrite matchLength_plain by (intros ->; apply H; left; reflexivity).
  f_equal; apply IH; intros Hin; apply H; right; exact Hin.
Qed.

Lemma strip_skip (a rest : jsstring) :
  strip (length a) (a ++ rest) = strip 0 rest.
Proof.
  induction a as [|c a IH]; [reflexivity | exact IH].
Qed.

Lemma paramCount_le (s : jsstring) : (paramCount s <= length s)%nat.
Proof.
  induction s as [|c s IH]; cbn; [lia|]; destruct (isParam c); cbn; lia.
Qed.

Lemma paramCount_stop (p : jsstring) (c : Z) (rest : jsstring) :
  Forall (fun x => isParam x = true) p -> isParam c = false ->
  paramCount (p ++ c :: rest) = length p.
Proof.
  induction 1 as [|x p Hx _ IH]; intros Hc; cbn [app paramCount length].
  - rewrite Hc; reflexivity.
  - rewrite Hx, IH by exact Hc; reflexivity.
Qed.

Lemma sgr_codes (params rest : jsstring) :
  sgr params ++ rest = 27 :: 91 :: (params ++ 109 :: rest).
Proof.
  unfold sgr.
  change (ESC ++ js "[" ++ params ++ js "m")
    with (27 :: 91 :: (params ++ [109])).
  cbn [app]; rewrite <- app_assoc; reflexivity.
Qed.

Lemma strip_at_match (c : Z) (t : jsstring) (n : nat) :
  matchLength (c :: t) = Some n -> strip 0 (c :: t) = strip (n - 1) t.
Proof. intros H; cbn [strip]; rewrite H; reflexivity. Qed.

Lemma matchLength_sgr (params rest : jsstring) :
  Forall (fun x => isParam x = true) params ->
  matchLength (27 :: 91 :: (params ++ 109 :: rest)) =
    Some (length params + 3)%nat.
Proof.
  intros H; cbn [matchLength].
  change ((27 =? 27) && (91 =? 91)) with true; cbn iota.
  rewrite (paramCount_stop params 109 rest H eq_refl).
  rewrite nth_error_app2, Nat.sub_diag by lia; reflexivity.
Qed.

Lemma strip_sgr (params rest : jsstring) :
  Forall (fun x => isParam x = true) params ->
  strip 0 (sgr params ++ rest) = strip 0 rest.
Proof.
  intros H; rewrite sgr_codes.
  rewrite (strip_at_match _ _ _ (matchLength_sgr params rest H)).
  replace (length params + 3 - 1)%nat with (length (91 :: params ++ [109]))
    by (cbn [length]; rewrite length_app; cbn; lia).
  replace (91 :: params ++ 109 :: rest)
    with ((91 :: params ++ [109]) ++ rest)
    by (cbn [app]; rewrite <- app_assoc; reflexivity).
  apply strip_skip.
Qed.

Lemma strip_length (s : jsstring) :
  forall k, (length (strip k s) <= length s)%nat.
Proof.
  induction s as [|c s IH]; intros k; cbn [strip length]; [lia|].
  destruct k as [|k]; [|specialize (IH k); lia].
  destruct (matchLength (c :: s)) as [n|];
    [specialize (IH (n - 1)%nat) | specialize (IH 0%nat); cbn [length]]; lia.
Qed.

(** A space after [a] ends whatever sequence [a] may have left open. *)
Lemma matchLength_before_space (c : Z) (t b : jsstring) :
  matchLength ((c :: t) ++ 32 :: b) = matchLength (c :: t) /\
  forall n, matchLength (c :: t) = Some n -> (n - 1 <= length t)%nat.
Proof.
  destruct t as [|b0 rest]; cbn [app matchLength].
  - split; [|discriminate].
    destruct (c =? 27); reflexivity.
  - destruct ((c =? 27) && (b0 =? 91)); [|split; [reflexivity | discriminate]].
    assert (P : paramCount (rest ++ 32 :: b) = paramCount rest).
    { clear; induction rest as [|x rest IH]; [reflexivity|].
      cbn [app paramCount]; destruct (isParam x); [rewrite IH|]; reflexivity. }
    rewrite P.
    pose proof (paramCount_le rest) as L.
    destruct (Nat.eq_dec (paramCount rest) (length rest)) as [E|N].
    + rewrite E, nth_error_app2, Nat.sub_diag by lia; cbn [nth_error].
      change (32 =? 109) with false; cbn iota.
      replace (nth_error rest (length rest)) with (@None Z)
        by (symmetry; apply nth_error_None; lia).
      split; [reflexivity | discriminate].
    + rewrite nth_error_app1 by lia.
      split; [reflexivity|].
      intros n; destruct (nth_error rest (paramCount rest)); [|discriminate].
      destruct (z =? 109); [|discriminate].
      intros [= <-]; cbn [length]; lia.
Qed.

Lemma strip_before_space (a b : jsstring) :
  forall k, (k <= length a)%nat ->
    strip k (a ++ 32 :: b) = strip k a ++ 32 :: strip 0 b.
Proof.
  induction a as [|c a IH]; intros k Hk.
  - cbn [length] in Hk; replace k with 0%nat by lia.
    apply (strip_plain [32] b); intros [H|[]]; discriminate.
  - destruct k as [|k].
    + destruct (matchLength_before_space c a b) as [E Hn].
      change (strip 0 ((c :: a) ++ 32 :: b))
        with (match matchLength ((c :: a) ++ 32 :: b) with
              | Some n => strip (n - 1) (a ++ 32 :: b)
              | None => c :: strip 0 (a ++ 32 :: b)
              end).
      rewrite E; cbn [strip].
      destruct (matchLength (c :: a)) as [n|].
      * apply IH, Hn; reflexivity.
      * rewrite IH by lia; reflexivity.
    + cbn [app strip]; apply IH; cbn [length] in Hk; lia.
Qed.

Lemma sgr_params (c : jsstring) :
  c = js "0" \/ c = js "2" \/ c = js "94" \/ c = js "1" \/ c = js "36" ->
  Forall (fun x => isParam x = true) c.
Proof.
  intros [->|[->|[->|[->| ->]]]]; repeat constructor.
Qed.

(** stripAnsi gives back the text that was styled: a colour code in
    front of any string disappears, text without ESC stays as it is, and
    so a text wrapped in colour codes is recovered; nothing is ever added;
    the prompt of the line editor shows as "You: ". *)
Theorem styled_text_is_recovered
  (params params' text rest : jsstring) :
  Forall (fun x => isParam x = true) params ->
  Forall (fun x => isParam x = true) params' ->
  ~ In 27 text ->
  stripAnsi (sgr params ++ rest) = stripAnsi rest /\
  stripAnsi (text ++ rest) = text ++ stripAnsi rest /\
  stripAnsi (sgr params ++ text ++ sgr params') = text /\
  (length (stripAnsi rest) <= length rest)%nat /\
  stripAnsi LineEditor.getUserPrompt = js "You: ".
Proof.
  intros P P' T; unfold stripAnsi.
  split; [apply strip_sgr; exact P|].
  split; [apply strip_plain; exact T|].
  split; [|split; [apply strip_length | reflexivity]].
  rewrite strip_sgr by exact P.
  rewrite strip_plain by exact T.
  rewrite <- (app_nil_r (sgr params')), strip_sgr by exact P'.
  apply app_nil_r.
Qed.

Lemma styled_text_is_recovered_witness :
  Forall (fun x => isParam x = true) (js "1;36") /\
  Forall (fun x => isParam x = true) (js "0") /\
  ~ In 27 (js "You:") /\
  stripAnsi (sgr (js "1;36") ++ js "You:" ++ sgr (js "0")) = js "You:".
Proof.
  assert (P : Forall (fun x => isParam x = true) (js "1;36"))
    by (repeat constructor).
  assert (P' : Forall (fun x => isParam x = true) (js "0"))
    by (repeat constructor).
  assert (T : ~ In 27 (js "You:"))
    by (cbn; intros [H|[H|[H|[H|[]]]]]; discriminate).
  split; [exact P|]. split; [exact P'|]. split; [exact T|].
  exact (proj1 (proj2 (proj2 (styled_text_is_recovered
                                (js "1;36") (js "0") (js "You:") [] P P' T)))).
Defined.

(** *** The frame of a code block *)

Lemma repeat_plain (c : Z) (n : Z) : c <> 27 -> ~ In 27 (repeatChar c n).
Proof.
  intros H Hin; unfold repeatChar in Hin.
  apply repeat_spec in Hin; congruence.
Qed.

Lemma params_0 : Forall (fun x => isParam x = true) (js "0").
Proof. repeat constructor. Qed.

Lemma params_2 : Forall (fun x => isParam x = true) (js "2").
Proof. repeat constructor. Qed.

Lemma params_94 : Forall (fun x => isParam x = true) (js "94").
Proof. repeat constructor. Qed.

Lemma strip_reset_end : strip 0 reset = [].
Proof. reflexivity. Qed.

(** What shows of a border row. *)
Lemma border_row_shows (left right : Z) (middle : jsstring) :
  left <> 27 -> right <> 27 -> ~ In 27 middle ->
  stripAnsi (dim ++ [left] ++ middle ++ [right] ++ reset) =
    left :: middle ++ [right].
Proof.
  intros Hl Hr Hm; unfold stripAnsi, dim.
  rewrite strip_sgr by exact params_2.
  replace ([left] ++ middle ++ [right] ++ reset)
    with ((left :: middle ++ [right]) ++ reset)
    by (cbn [app]; rewrite <- app_assoc; reflexivity).
  rewrite strip_plain, strip_reset_end, app_nil_r; [reflexivity|].
  intros [H|H]; [congruence|].
  apply in_app_or in H; destruct H as [H|[H|[]]]; [contradiction | congruence].
Qed.

Lemma spaces_then_space (n : nat) (rest : jsstring) :
  repeat 32 n ++ 32 :: rest = 32 :: repeat 32 n ++ rest.
Proof.
  induction n as [|n IH]; [reflexivity|].
  cbn [repeat app]; rewrite IH; reflexivity.
Qed.

(** What shows of a code row. *)
Lemma code_row_shows (lines : list jsstring) (line : jsstring) :
  stripAnsi (codeRow lines line) =
    boxV :: 32 :: stripAnsi line ++
    32 :: repeatChar 32 (Z.max 0 (frameWidth lines - visibleLength line)) ++
    [boxV].
Proof.
  unfold codeRow, stripAnsi, dim.
  set (pad := repeatChar 32 (Z.max 0 (frameWidth lines - visibleLength line))).
  rewrite strip_sgr by exact params_2.
  rewrite (strip_plain [boxV]) by (intros [H|[]]; discriminate).
  unfold reset at 1; rewrite strip_sgr by exact params_0.
  rewrite (strip_plain (js " ")) by (intros [H|[]]; discriminate).
  change (js " " ++ sgr (js "2") ++ [boxV] ++ reset)
    with (32 :: sgr (js "2") ++ [boxV] ++ reset).
  unfold pad at 1, repeatChar; rewrite spaces_then_space.
  fold (repeatChar 32 (Z.max 0 (frameWidth lines - visibleLength line))).
  fold pad.
  change (32 :: pad ++ sgr (js "2") ++ [boxV] ++ reset)
    with (32 :: (pad ++ sgr (js "2") ++ [boxV] ++ reset)).
  rewrite strip_before_space by lia.
  rewrite (strip_plain pad) by (apply repeat_plain; discriminate).
  rewrite strip_sgr by exact params_2.
  rewrite (strip_plain [boxV]) by (intros [H|[]]; discriminate).
  rewrite strip_reset_end; reflexivity.
Qed.

(** What shows of the language label row. *)
Lemma label_row_shows (lines : list jsstring) (lang : jsstring) :
  ~ In 27 lang ->
  stripAnsi (labelRow lines lang) =
    boxV :: 32 :: lang ++
    32 :: repeatChar 32
            (Z.max 0 (frameWidth lines - Z.of_nat (length lang) - 1)) ++
    [boxV].
Proof.
  intros Hl; unfold labelRow, stripAnsi, dim, brightBlue.
  rewrite strip_sgr by exact params_2.
  replace ([boxV] ++ js " " ++ sgr (js "94") ++ lang ++ sgr (js "2") ++
           js " " ++ repeatChar 32 _ ++ [boxV] ++ reset)
    with ([boxV; 32] ++ sgr (js "94") ++ lang ++ sgr (js "2") ++
          js " " ++
          repeatChar 32 (Z.max 0 (frameWidth lines - Z.of_nat (length lang) - 1))
          ++ [boxV] ++ reset) by reflexivity.
  rewrite (strip_plain [boxV; 32]) by (intros [H|[H|[]]]; discriminate).
  rewrite strip_sgr by exact params_94.
  rewrite (strip_plain lang) by exact Hl.
  rewrite strip_sgr by exact params_2.
  replace (js " " ++ repeatChar 32 _ ++ [boxV] ++ reset)
    with ((32 :: repeatChar 32
                   (Z.max 0 (frameWidth lines - Z.of_nat (length lang) - 1))
              ++ [boxV]) ++ reset)
    by (cbn [app]; rewrite <- app_assoc; reflexivity).
  rewrite strip_plain, strip_reset_end, app_nil_r; [reflexivity|].
  intros [H|H]; [discriminate|].
  apply in_app_or in H; destruct H as [H|[H|[]]]; [|discriminate].
  revert H; apply repeat_plain; discriminate.
Qed.

Lemma length_repeatChar (c n : Z) :
  Z.of_nat (length (repeatChar c n)) = Z.max 0 n.
Proof. unfold repeatChar; rewrite repeat_length; lia. Qed.

(** The rows of the frame of a code block do not line up.  A border row
    shows max(width, 20) + 2 columns, a code row max(its text, width) + 4,
    the language label max(its length + 4, width + 3), where width is the
    longest visible line capped at 80: from width 20 on, every code row
    sticks out of the borders by at least two columns. *)
Theorem frame_rows_do_not_line_up
  (lines : list jsstring) (line lang : jsstring) :
  visibleLength (topRow lines) = Z.max (frameWidth lines) 20 + 2 /\
  visibleLength (ruleRow lines) = Z.max (frameWidth lines) 20 + 2 /\
  visibleLength (bottomRow lines) = Z.max (frameWidth lines) 20 + 2 /\
  visibleLength (codeRow lines line) =
    Z.max (visibleLength line) (frameWidth lines) + 4 /\
  (~ In 27 lang ->
   visibleLength (labelRow lines lang) =
     Z.max (Z.of_nat (length lang) + 4) (frameWidth lines + 3)) /\
  (20 <= frameWidth lines ->
   visibleLength (topRow lines) + 2 <= visibleLength (codeRow lines line)).
Proof.
  assert (B : forall l r, l <> 27 -> r <> 27 ->
            visibleLength (dim ++ [l] ++ border lines ++ [r] ++ reset) =
            Z.max (frameWidth lines) 20 + 2).
  { intros l r Hl Hr; unfold visibleLength.
    rewrite border_row_shows
      by (try assumption; apply repeat_plain; discriminate).
    cbn [length]; rewrite length_app, Nat2Z.inj_succ, Nat2Z.inj_add.
    unfold border; rewrite length_repeatChar; cbn [length]; lia. }
  assert (C : visibleLength (codeRow lines line) =
              Z.max (visibleLength line) (frameWidth lines) + 4).
  { unfold visibleLength at 1; rewrite code_row_shows.
    cbn [length]; rewrite length_app; cbn [length]; rewrite length_app.
    rewrite !Nat2Z.inj_succ, Nat2Z.inj_add, Nat2Z.inj_succ, Nat2Z.inj_add.
    rewrite length_repeatChar; fold (visibleLength line); cbn [length].
    assert (0 <= visibleLength line) by (unfold visibleLength; lia).
    lia. }
  split; [apply B; discriminate|]. split; [apply B; discriminate|].
  split; [apply B; discriminate|]. split; [exact C|]. split.
  - intros Hl; unfold visibleLength at 1; rewrite label_row_shows by exact Hl.
    cbn [length]; rewrite length_app; cbn [length]; rewrite length_app.
    rewrite !Nat2Z.inj_succ, Nat2Z.inj_add, Nat2Z.inj_succ, Nat2Z.inj_add.
    rewrite length_repeatChar; cbn [length]; lia.
  - intros W; rewrite C.
    unfold topRow; rewrite (B boxTL boxTR) by discriminate; lia.
Qed.

Lemma frame_rows_do_not_line_up_witness :
  20 <= frameWidth [js "int main(void) { return 0; }"] /\
  visibleLength (topRow [js "int main(void) { return 0; }"]) + 2 <=
  visibleLength (codeRow [js "int main(void) { return 0; }"]
                         (js "int main(void) { return 0; }")).
Proof.
  assert (W : 20 <= frameWidth [js "int main(void) { return 0; }"])
    by (vm_compute; discriminate).
  split; [exact W|].
  exact (proj2 (proj2 (proj2 (proj2 (proj2
           (frame_rows_do_not_line_up
              [js "int main(void) { return 0; }"]
              (js "int main(void) { return 0; }") [])))))
           W).
Defined.

End UIFacts.
